(** * Verification of the Sublime "Repo" plugin (repo.py)

    A shallow embedding of [repo.py]: the repo-root locator and its cache,
    the background command runner [CommandThread.run], the lock-wait
    rescheduling in [RepoCommand.run_command], and the output panel.

    Conventions.
    - Paths, argument vectors, setting values and encoding names are
      [string]s.  Text that comes out of a decoder is a Python [str], a
      sequence of code points ([pystr]); ASCII literals of the source are
      injected with [lit].
    - Python's [False]/[None] results are [None]; a truthy path is [Some].
    - The editor host, the file system, the clock and the launched process
      are the environment: the file system is a snapshot inside the state,
      the clock is a stream of binary64 readings, the process is an oracle
      handed to the thread body.
    - A call binds its arguments as Python does: [do_when] refuses a keyword
      that names one of its two positional parameters. *)

From Stdlib Require Import PrimFloat Ascii.
From stdpp Require Import gmap strings list.

Open Scope string_scope.
Open Scope list_scope.

(** ** Python values that flow through the runner *)

Definition codepoint := N.
Definition pystr := list codepoint.
Definition bytes := list Byte.byte.

Definition lit (s : string) : pystr :=
  map Ascii.N_of_ascii (String.list_ascii_of_string s).

Inductive pyval :=
| VStr (s : pystr)
| VBytes (b : bytes)
| VInt (n : Z).

(** Exceptions the modelled code can meet.  [OutOfFuel] is not a Python
    exception: it stands for a [while] loop that is still running when the
    fuel of the model ends. *)
Inductive exn :=
| UnicodeDecodeError
| LookupError
| AttributeError
| TypeError
| IndexError
| KeyError (key : string)
| OSError (errno : Z) (strerror : string)
| CalledProcessError (returncode : Z)
| OutOfFuel.

Inductive result (A : Type) :=
| Ok (a : A)
| Raise (e : exn).
Arguments Ok {A} a.
Arguments Raise {A} e.

(** ** Codecs: [bytes.decode] *)

Module Codec.

Definition cont (b : N) : bool := (128 <=? b)%N && (b <=? 191)%N.
Definition low6 (b : N) : N := N.land b 63.

(** Strict UTF-8, as CPython's decoder with [errors='strict']: shortest
    form only, no surrogates, nothing above U+10FFFF. *)
Fixpoint utf8_decode (bs : bytes) : option pystr :=
  match bs with
  | [] => Some []
  | b0 :: r0 =>
    let n0 := Byte.to_N b0 in
    if (n0 <? 128)%N then cons n0 <$> utf8_decode r0
    else match r0 with
    | [] => None
    | b1 :: r1 =>
      let n1 := Byte.to_N b1 in
      if (194 <=? n0)%N && (n0 <=? 223)%N then
        if cont n1
        then cons (N.lor (N.shiftl (N.land n0 31) 6) (low6 n1)) <$> utf8_decode r1
        else None
      else match r1 with
      | [] => None
      | b2 :: r2 =>
        let n2 := Byte.to_N b2 in
        if (224 <=? n0)%N && (n0 <=? 239)%N then
          let lo := if (n0 =? 224)%N then 160%N else 128%N in
          let hi := if (n0 =? 237)%N then 159%N else 191%N in
          if (lo <=? n1)%N && (n1 <=? hi)%N && cont n2
          then cons (N.lor (N.shiftl (N.land n0 15) 12)
                       (N.lor (N.shiftl (low6 n1) 6) (low6 n2)))
                 <$> utf8_decode r2
          else None
        else match r2 with
        | [] => None
        | b3 :: r3 =>
          let n3 := Byte.to_N b3 in
          if (240 <=? n0)%N && (n0 <=? 244)%N then
            let lo := if (n0 =? 240)%N then 144%N else 128%N in
            let hi := if (n0 =? 244)%N then 143%N else 191%N in
            if (lo <=? n1)%N && (n1 <=? hi)%N && cont n2 && cont n3
            then cons (N.lor (N.shiftl (N.land n0 7) 18)
                         (N.lor (N.shiftl (low6 n1) 12)
                            (N.lor (N.shiftl (low6 n2) 6) (low6 n3))))
                   <$> utf8_decode r3
            else None
          else None
        end
      end
    end
  end.

(** ISO 8859-1: every byte is its own code point; never fails. *)
Definition latin1_decode (bs : bytes) : option pystr :=
  Some (map Byte.to_N bs).

(** ASCII: bytes above 127 are a decode error. *)
Definition ascii_decode (bs : bytes) : option pystr :=
  if forallb (fun b => (Byte.to_N b <? 128)%N) bs
  then Some (map Byte.to_N bs) else None.

(** The codec registry of the interpreter, by encoding name: [None] is
    an unknown encoding, a decoder returns [None] on malformed input. *)
Definition registry := string -> option (bytes -> option pystr).

(** A small registry to run examples with. *)
Definition basic_registry : registry := fun name =>
  if String.eqb name "latin-1" || String.eqb name "ISO 8859-1"
     || String.eqb name "iso-8859-1" then Some latin1_decode
  else if String.eqb name "ascii" then Some ascii_decode
  else if String.eqb name "utf8" then Some utf8_decode
  else None.

(** [b.decode(encoding)]: the literal name ['utf-8'] is the built-in
    decoder, any other name goes through the registry. *)
Definition bytes_decode (codecs : registry) (encoding : string) (b : bytes)
  : result pystr :=
  let dec := if String.eqb encoding "utf-8" then Some utf8_decode
             else codecs encoding in
  match dec with
  | None => Raise LookupError
  | Some d => match d b with
              | Some s => Ok s
              | None => Raise UnicodeDecodeError
              end
  end.

End Codec.

Section TextSafeish.
Variable codecs : Codec.registry.

(** [getattr(text, 'decode')(encoding)].  Under Python 3 (the interpreter
    of Sublime Text 3, which the comments of the file address) only
    [bytes] has a [decode] method; on a [str] or an [int] the [getattr]
    raises [AttributeError]. *)
Definition decode_method (text : pyval) (encoding : string) : result pyval :=
  match text with
  | VBytes b => match Codec.bytes_decode codecs encoding b with
                | Ok s => Ok (VStr s)
                | Raise e => Raise e
                end
  | VStr _ | VInt _ => Raise AttributeError
  end.

(** [_make_text_safeish(text, fallback_encoding)], with [method] at its
    default ['decode'] as at its only call site.  ([UnicodeEncodeError]
    in the [except] clause cannot come out of a decode.) *)
Definition _make_text_safeish (text : pyval) (fallback_encoding : string)
  : result pyval :=
  match decode_method text "utf-8" with
  | Ok unitext => Ok unitext
  | Raise UnicodeDecodeError => decode_method text fallback_encoding
  | Raise e => Raise e
  end.
End TextSafeish.

(** ** String helpers of Python that the source uses *)

Module PyString.

Definition chars (s : string) : list Ascii.ascii := String.list_ascii_of_string s.
Definition of_chars (l : list Ascii.ascii) : string := String.string_of_list_ascii l.

Definition nonempty (s : string) : bool :=
  match s with EmptyString => false | String _ _ => true end.

(** Truthiness of [settings.get(key)]: [None] and [''] are falsy. *)
Definition truthy (o : option string) : bool :=
  match o with Some s => nonempty s | None => false end.

(** [a or b] on two optional strings. *)
Definition or_else (a b : option string) : option string :=
  if truthy a then a else b.

(** The part of [l] after the last [c], or [None] without any [c]. *)
Fixpoint after_last (c : Ascii.ascii) (l : list Ascii.ascii) : option (list Ascii.ascii) :=
  match l with
  | [] => None
  | x :: r =>
    match after_last c r with
    | Some t => Some t
    | None => if Ascii.eqb x c then Some r else None
    end
  end.

(** The part of [l] before the last [c], or [None] without any [c]. *)
Fixpoint before_last (c : Ascii.ascii) (l : list Ascii.ascii) : option (list Ascii.ascii) :=
  match l with
  | [] => None
  | x :: r =>
    match before_last c r with
    | Some h => Some (x :: h)
    | None => if Ascii.eqb x c then Some [] else None
    end
  end.

(** [s.rpartition(c)[2]]: the tail after the last [c], all of [s] when
    there is none. *)
Definition rpartition_tail (c : Ascii.ascii) (s : string) : string :=
  match after_last c (chars s) with
  | Some t => of_chars t
  | None => s
  end.

(** [s.rpartition(c)[0]]: the head before the last [c], [''] when there
    is none. *)
Definition rpartition_head (c : Ascii.ascii) (s : string) : string :=
  match before_last c (chars s) with
  | Some h => of_chars h
  | None => ""
  end.

(** [' '.join(l)] *)
Definition join_space (l : list string) : string := String.concat " " l.

(** [str.isspace] per code point (Unicode White_Space plus the four
    information separators, as CPython). *)
Definition isspace (c : codepoint) : bool :=
  ((9 <=? c) && (c <=? 13) || (28 <=? c) && (c <=? 32)
   || (c =? 133) || (c =? 160) || (c =? 5760)
   || (8192 <=? c) && (c <=? 8202) || (c =? 8232) || (c =? 8233)
   || (c =? 8239) || (c =? 8287) || (c =? 12288))%N.

(** ASCII whitespace, for [bytes.strip]. *)
Definition isspace_byte (b : Byte.byte) : bool :=
  let n := Byte.to_N b in ((9 <=? n) && (n <=? 13) || (n =? 32))%N.

(** [not s.strip()]: nothing is left after stripping exactly when every
    element is whitespace. *)
Definition blank (s : pystr) : bool := forallb isspace s.
Definition blank_bytes (b : bytes) : bool := forallb isspace_byte b.

(** [needle in hay] on text. *)
Fixpoint is_prefix (p l : pystr) : bool :=
  match p, l with
  | [], _ => true
  | _ :: _, [] => false
  | a :: p', b :: l' => (a =? b)%N && is_prefix p' l'
  end.

Fixpoint contains (needle hay : pystr) : bool :=
  is_prefix needle hay ||
  match hay with
  | [] => false
  | _ :: r => contains needle r
  end.

End PyString.

(** ** The environment: platform, file system, settings *)

(** What [os.name], [sublime.platform()] and [os.path] are on this host. *)
Record platform := {
  os_name_nt : bool;
  sublime_windows : bool;
  path_join : string -> string -> string;
  path_dirname : string -> string;
}.

(** A snapshot of the file system, as [os.path] sees it. *)
Record filesystem := {
  fs_exists : string -> bool;
  fs_isdir : string -> bool;
  fs_realpath : string -> string;
}.

(** [Repo.sublime-settings] and the one key read from
    [Preferences.sublime-settings]. *)
Record settings := {
  save_first : bool;
  repo_command : option string;
  repo_binary : option string;
  repok_command : option string;
  repo_flow_command : option string;
}.

(** The class of the command object [self]. *)
Inductive command_class := TextCommand | WindowCommand.

(** Everything the modelled code reads and never writes. *)
Record world := {
  host : platform;
  codecs : Codec.registry;
  clock : nat -> float;                (* successive readings of time.time() *)
  environ : gmap string string;        (* os.environ *)
  REPO : option string;                (* find_repo(), at load time *)
  config : settings;
  folders : list string;               (* window.folders() *)
  self_class : command_class;
}.

(** ** The mutable state *)

(** [repo_root_cache[leaf_dir]] *)
Record cache_entry := {
  retval : option string;
  expires : float;                     (* a binary64 number, as time.time() + 5 *)
}.

(** A view of the editor, as far as the source looks at it. *)
Record view := {
  file_name : option string;
  is_dirty : bool;
  is_loading : bool;
  viewport_position : Z * Z;
  fallback_encoding_setting : option string;
  live_repo_annotations : bool;
}.

(** A text buffer of the editor: the output panel. *)
Record buffer := {
  content : pystr;
  read_only : bool;
  syntax_file : string;
}.

(** The keyword arguments [run_command] looks into; each field is [None]
    when the key is absent. *)
Record kwargs := {
  kw_working_dir : option string;
  kw_fallback_encoding : option string;
  kw_stdin : option bytes;
  kw_stdout : option string;
  kw_status_message : option string;
}.

Definition no_kwargs : kwargs :=
  {| kw_working_dir := None; kw_fallback_encoding := None; kw_stdin := None;
     kw_stdout := None; kw_status_message := None |}.

(** What is left in [**kwargs] of [CommandThread.__init__] once
    [working_dir] and [fallback_encoding] are bound to its parameters. *)
Definition thread_kwargs (kw : kwargs) : kwargs :=
  {| kw_working_dir := None; kw_fallback_encoding := None;
     kw_stdin := kw_stdin kw; kw_stdout := kw_stdout kw;
     kw_status_message := kw_status_message kw |}.

Definition kwargs_empty (kw : kwargs) : bool :=
  match kw with
  | {| kw_working_dir := None; kw_fallback_encoding := None; kw_stdin := None;
       kw_stdout := None; kw_status_message := None |} => true
  | _ => false
  end.

(** The callables handed around as [callback] / [on_done]. *)
Inductive callable :=
| CbGenericDone                 (* self.generic_done *)
| CbErrorMessage                (* sublime.error_message *)
| CbOther (name : string).      (* a callback of a subclass, not modelled *)

(** A Python list object is a cell of the store; the program holds its
    address. *)
Abbreviation ref := nat.

(** The calls that [do_when] defers. *)
Inductive deferred :=
| DRunCommand (command : ref) (cb : option callable)
    (show_status filter_empty_args no_save wait_for_lock : bool) (kw : kwargs)
| DSetViewport (position : Z * Z).

(** The conditions that [do_when] polls. *)
Inductive condition :=
| LockGone (root : string)      (* lambda: not os.path.exists(<root>/.repo/index.lock) *)
| NotLoading.                   (* lambda: not self.active_view().is_loading() *)

(** What [sublime.set_timeout] holds. *)
Inductive task :=
| TDoWhen (c : condition) (d : deferred)
| TCallback (cb : callable) (output : pyval) (kw : kwargs).

(** A [CommandThread] object. *)
Record thread := {
  t_command : ref;
  t_on_done : callable;
  t_working_dir : string;
  t_stdin : option bytes;
  t_stdout : option string;            (* None: subprocess.PIPE *)
  t_fallback_encoding : string;
  t_kwargs : kwargs;
}.

(** The arguments of one [subprocess.Popen] call (and of [communicate]). *)
Record spawn := {
  sp_argv : list string;
  sp_cwd : string;
  sp_shell : bool;
  sp_hide_window : bool;               (* startupinfo with STARTF_USESHOWWINDOW *)
  sp_env : gmap string string;
  sp_stdin : option bytes;
  sp_stdout : option string;
}.

(** Effects on the outside, in program order.  [EvPopen] is the call of
    [subprocess.Popen], whether or not the launch then succeeds; [EvPrint]
    keeps the first argument of a [print]. *)
Inductive event :=
| EvPrint (what : string)
| EvStatusMessage (message : string)
| EvPopen (sp : spawn)
| EvErrorDialog (text : pystr)
| EvViewCommand (name : string)
| EvShowPanel (panel : string)
| EvCallback (name : string) (output : pyval).

Record state := {
  fs : filesystem;
  clock_reads : nat;
  cwd : string;
  repo_root_cache : gmap string cache_entry;
  commands_working : Z;
  counter_writes : list Z;             (* every value stored into commands_working *)
  store : list (list string);          (* the list objects *)
  active : option view;                (* the active view; self.view of a text command *)
  may_change_files : bool;             (* self.may_change_files *)
  has_output_view : bool;              (* hasattr(self, 'output_view') *)
  repo_panel : option buffer;          (* the window's output panel "repo" *)
  visible_panel : option string;
  timers : list (nat * task);          (* sublime.set_timeout: delay, callable *)
  threads : list thread;               (* started, not yet run *)
  events : list event;
  probes : list string;                (* paths handed to os.path.exists/isdir/realpath *)
}.

(** Field updates. *)
Definition set_fs (x : filesystem) (st : state) : state :=
  {| fs := x; clock_reads := clock_reads st; cwd := cwd st;
     repo_root_cache := repo_root_cache st;
     commands_working := commands_working st;
     counter_writes := counter_writes st; store := store st;
     active := active st; may_change_files := may_change_files st;
     has_output_view := has_output_view st; repo_panel := repo_panel st;
     visible_panel := visible_panel st; timers := timers st;
     threads := threads st; events := events st; probes := probes st |}.

Definition set_clock_reads (x : nat) (st : state) : state :=
  {| fs := fs st; clock_reads := x; cwd := cwd st;
     repo_root_cache := repo_root_cache st;
     commands_working := commands_working st;
     counter_writes := counter_writes st; store := store st;
     active := active st; may_change_files := may_change_files st;
     has_output_view := has_output_view st; repo_panel := repo_panel st;
     visible_panel := visible_panel st; timers := timers st;
     threads := threads st; events := events st; probes := probes st |}.

Definition set_cwd (x : string) (st : state) : state :=
  {| fs := fs st; clock_reads := clock_reads st; cwd := x;
     repo_root_cache := repo_root_cache st;
     commands_working := commands_working st;
     counter_writes := counter_writes st; store := store st;
     active := active st; may_change_files := may_change_files st;
     has_output_view := has_output_view st; repo_panel := repo_panel st;
     visible_panel := visible_panel st; timers := timers st;
     threads := threads st; events := events st; probes := probes st |}.

Definition set_repo_root_cache (x : gmap string cache_entry) (st : state) : state :=
  {| fs := fs st; clock_reads := clock_reads st; cwd := cwd st;
     repo_root_cache := x; commands_working := commands_working st;
     counter_writes := counter_writes st; store := store st;
     active := active st; may_change_files := may_change_files st;
     has_output_view := has_output_view st; repo_panel := repo_panel st;
     visible_panel := visible_panel st; timers := timers st;
     threads := threads st; events := events st; probes := probes st |}.

Definition set_commands_working (x : Z) (st : state) : state :=
  {| fs := fs st; clock_reads := clock_reads st; cwd := cwd st;
     repo_root_cache := repo_root_cache st; commands_working := x;
     counter_writes := counter_writes st; store := store st;
     active := active st; may_change_files := may_change_files st;
     has_output_view := has_output_view st; repo_panel := repo_panel st;
     visible_panel := visible_panel st; timers := timers st;
     threads := threads st; events := events st; probes := probes st |}.

Definition set_counter_writes (x : list Z) (st : state) : state :=
  {| fs := fs st; clock_reads := clock_reads st; cwd := cwd st;
     repo_root_cache := repo_root_cache st;
     commands_working := commands_working st; counter_writes := x;
     store := store st; active := active st;
     may_change_files := may_change_files st;
     has_output_view := has_output_view st; repo_panel := repo_panel st;
     visible_panel := visible_panel st; timers := timers st;
     threads := threads st; events := events st; probes := probes st |}.

Definition set_store (x : list (list string)) (st : state) : state :=
  {| fs := fs st; clock_reads := clock_reads st; cwd := cwd st;
     repo_root_cache := repo_root_cache st;
     commands_working := commands_working st;
     counter_writes := counter_writes st; store := x; active := active st;
     may_change_files := may_change_files st;
     has_output_view := has_output_view st; repo_panel := repo_panel st;
     visible_panel := visible_panel st; timers := timers st;
     threads := threads st; events := events st; probes := probes st |}.

Definition set_active (x : option view) (st : state) : state :=
  {| fs := fs st; clock_reads := clock_reads st; cwd := cwd st;
     repo_root_cache := repo_root_cache st;
     commands_working := commands_working st;
     counter_writes := counter_writes st; store := store st; active := x;
     may_change_files := may_change_files st;
     has_output_view := has_output_view st; repo_panel := repo_panel st;
     visible_panel := visible_panel st; timers := timers st;
     threads := threads st; events := events st; probes := probes st |}.

Definition set_may_change_files (x : bool) (st : state) : state :=
  {| fs := fs st; clock_reads := clock_reads st; cwd := cwd st;
     repo_root_cache := repo_root_cache st;
     commands_working := commands_working st;
     counter_writes := counter_writes st; store := store st;
     active := active st; may_change_files := x;
     has_output_view := has_output_view st; repo_panel := repo_panel st;
     visible_panel := visible_panel st; timers := timers st;
     threads := threads st; events := events st; probes := probes st |}.

Definition set_has_output_view (x : bool) (st : state) : state :=
  {| fs := fs st; clock_reads := clock_reads st; cwd := cwd st;
     repo_root_cache := repo_root_cache st;
     commands_working := commands_working st;
     counter_writes := counter_writes st; store := store st;
     active := active st; may_change_files := may_change_files st;
     has_output_view := x; repo_panel := repo_panel st;
     visible_panel := visible_panel st; timers := timers st;
     threads := threads st; events := events st; probes := probes st |}.

Definition set_repo_panel (x : option buffer) (st : state) : state :=
  {| fs := fs st; clock_reads := clock_reads st; cwd := cwd st;
     repo_root_cache := repo_root_cache st;
     commands_working := commands_working st;
     counter_writes := counter_writes st; store := store st;
     active := active st; may_change_files := may_change_files st;
     has_output_view := has_output_view st; repo_panel := x;
     visible_panel := visible_panel st; timers := timers st;
     threads := threads st; events := events st; probes := probes st |}.

Definition set_visible_panel (x : option string) (st : state) : state :=
  {| fs := fs st; clock_reads := clock_reads st; cwd := cwd st;
     repo_root_cache := repo_root_cache st;
     commands_working := commands_working st;
     counter_writes := counter_writes st; store := store st;
     active := active st; may_change_files := may_change_files st;
     has_output_view := has_output_view st; repo_panel := repo_panel st;
     visible_panel := x; timers := timers st; threads := threads st;
     events := events st; probes := probes st |}.

Definition set_timers (x : list (nat * task)) (st : state) : state :=
  {| fs := fs st; clock_reads := clock_reads st; cwd := cwd st;
     repo_root_cache := repo_root_cache st;
     commands_working := commands_working st;
     counter_writes := counter_writes st; store := store st;
     active := active st; may_change_files := may_change_files st;
     has_output_view := has_output_view st; repo_panel := repo_panel st;
     visible_panel := visible_panel st; timers := x; threads := threads st;
     events := events st; probes := probes st |}.

Definition set_threads (x : list thread) (st : state) : state :=
  {| fs := fs st; clock_reads := clock_reads st; cwd := cwd st;
     repo_root_cache := repo_root_cache st;
     commands_working := commands_working st;
     counter_writes := counter_writes st; store := store st;
     active := active st; may_change_files := may_change_files st;
     has_output_view := has_output_view st; repo_panel := repo_panel st;
     visible_panel := visible_panel st; timers := timers st; threads := x;
     events := events st; probes := probes st |}.

Definition set_events (x : list event) (st : state) : state :=
  {| fs := fs st; clock_reads := clock_reads st; cwd := cwd st;
     repo_root_cache := repo_root_cache st;
     commands_working := commands_working st;
     counter_writes := counter_writes st; store := store st;
     active := active st; may_change_files := may_change_files st;
     has_output_view := has_output_view st; repo_panel := repo_panel st;
     visible_panel := visible_panel st; timers := timers st;
     threads := threads st; events := x; probes := probes st |}.

Definition set_probes (x : list string) (st : state) : state :=
  {| fs := fs st; clock_reads := clock_reads st; cwd := cwd st;
     repo_root_cache := repo_root_cache st;
     commands_working := commands_working st;
     counter_writes := counter_writes st; store := store st;
     active := active st; may_change_files := may_change_files st;
     has_output_view := has_output_view st; repo_panel := repo_panel st;
     visible_panel := visible_panel st; timers := timers st;
     threads := threads st; events := events st; probes := x |}.

(** ** Computations: state and exceptions *)

Definition M (A : Type) : Type := state -> result A * state.

Definition ret {A} (a : A) : M A := fun st => (Ok a, st).

Definition raise {A} (e : exn) : M A := fun st => (Raise e, st).

Definition bind {A B} (c : M A) (k : A -> M B) : M B := fun st =>
  match c st with
  | (Ok a, st') => k a st'
  | (Raise e, st') => (Raise e, st')
  end.

Notation "'let*' x := c 'in' k" := (bind c (fun x => k))
  (at level 10, x pattern, c at level 100, k at level 200).
Notation "c >>> k" := (bind c (fun _ => k))
  (at level 100, k at level 200, right associativity).

Definition get : M state := fun st => (Ok st, st).
Definition modify (f : state -> state) : M unit := fun st => (Ok tt, f st).

Definition when (b : bool) (c : M unit) : M unit := if b then c else ret tt.

Definition emit (e : event) : M unit :=
  modify (fun st => set_events (events st ++ [e]) st).

(** *** The list store *)

Definition alloc (l : list string) : M ref := fun st =>
  (Ok (length (store st)), set_store (store st ++ [l]) st).

Definition deref (r : ref) : M (list string) := fun st =>
  (Ok (default [] (store st !! r)), st).

(** [l[0]] *)
Definition item0 (r : ref) : M string :=
  let* l := deref r in
  match l with
  | [] => raise IndexError
  | x :: _ => ret x
  end.

(** [l[0] = x] *)
Definition set_item0 (r : ref) (x : string) : M unit :=
  let* l := deref r in
  match l with
  | [] => raise IndexError
  | _ :: tl => modify (fun st => set_store (<[r := x :: tl]> (store st)) st)
  end.

(** *** The environment's primitives *)

(** What [os.path.exists] and [os.path.isdir] answer on a snapshot; the
    empty path names nothing. *)
Definition exists_in (f : filesystem) (p : string) : bool :=
  PyString.nonempty p && fs_exists f p.

Definition isdir_in (f : filesystem) (p : string) : bool :=
  PyString.nonempty p && fs_isdir f p.

Section Primitives.
Variable W : world.

(** [time.time()]: the next reading of the clock. *)
Definition time_time : M float := fun st =>
  (Ok (clock W (clock_reads st)), set_clock_reads (S (clock_reads st)) st).

Definition probe (p : string) : M unit :=
  modify (fun st => set_probes (probes st ++ [p]) st).

(** [os.path.exists(p)] *)
Definition os_path_exists (p : string) : M bool :=
  probe p >>>
  let* st := get in
  ret (exists_in (fs st) p).

(** [os.path.isdir(p)] *)
Definition os_path_isdir (p : string) : M bool :=
  probe p >>>
  let* st := get in
  ret (isdir_in (fs st) p).

(** [os.path.realpath(p)] *)
Definition os_path_realpath (p : string) : M string :=
  probe p >>>
  let* st := get in
  ret (fs_realpath (fs st) p).

Definition os_path_join (a b : string) : string := path_join (host W) a b.

(** [sublime.set_timeout(f, delay)] *)
Definition set_timeout (f : task) (delay : nat) : M unit :=
  modify (fun st => set_timers (timers st ++ [(delay, f)]) st).

(** [main_thread(callback, output, **kwargs)] *)
Definition main_thread (cb : callable) (output : pyval) (kw : kwargs) : M unit :=
  set_timeout (TCallback cb output kw) 0.

(** ** [repo_root] *)

(** The [while directory:] loop of [repo_root]; the result is [retval]. *)
Fixpoint repo_root_loop (fuel : nat) (directory : string) : M (option string) :=
  match fuel with
  | O => raise OutOfFuel
  | S fuel' =>
    if negb (PyString.nonempty directory) then ret None
    else
      let* found := os_path_exists (os_path_join directory ".repo") in
      if found then ret (Some directory)
      else
        let* parent := os_path_realpath (os_path_join directory "..") in
        if String.eqb parent directory then ret None
        else repo_root_loop fuel' parent
  end.

Definition repo_root (fuel : nat) (directory : string) : M (option string) :=
  let leaf_dir := directory in
  let walk :=
    let* r := repo_root_loop fuel directory in
    let* now := time_time in
    modify (fun st =>
      set_repo_root_cache
        (<[leaf_dir := {| retval := r; expires := (now + 5)%float |}]>
           (repo_root_cache st)) st) >>>
    ret r in
  let* st := get in
  match repo_root_cache st !! leaf_dir with
  | Some entry =>
    let* now := time_time in
    if PrimFloat.ltb now (expires entry) then ret (retval entry) else walk
  | None => walk
  end.

(** [repo_root_exist], "for readability". *)
Definition repo_root_exist (fuel : nat) (directory : string) : M (option string) :=
  repo_root fuel directory.

End Primitives.

(** The walk of [repo_root], seen from outside: the directories it can
    visit from [d], and what it looks for in each. *)
Section Walk.
Variable P : platform.
Variable f : filesystem.

Definition has_marker (d : string) : bool := exists_in f (path_join P d ".repo").

Definition parent_of (d : string) : string := fs_realpath f (path_join P d "..").

Fixpoint ancestor (k : nat) (d : string) : string :=
  match k with
  | O => d
  | S k' => ancestor k' (parent_of d)
  end.

(** The loop of [repo_root] as a function of the snapshot alone: its
    result, and the paths it hands to [os.path], in order. *)
Fixpoint locate (fuel : nat) (d : string) : result (option string) :=
  match fuel with
  | O => Raise OutOfFuel
  | S fuel' =>
    if negb (PyString.nonempty d) then Ok None
    else if has_marker d then Ok (Some d)
    else if String.eqb (parent_of d) d then Ok None
    else locate fuel' (parent_of d)
  end.

Fixpoint walk_trace (fuel : nat) (d : string) : list string :=
  match fuel with
  | O => []
  | S fuel' =>
    if negb (PyString.nonempty d) then []
    else path_join P d ".repo" ::
         if has_marker d then []
         else path_join P d ".." ::
              if String.eqb (parent_of d) d then []
              else walk_trace fuel' (parent_of d)
  end.
End Walk.

(** The entry of [d], if it is still to be trusted at clock reading [now]. *)
Definition fresh_entry (c : gmap string cache_entry) (d : string) (now : float)
  : option cache_entry :=
  match c !! d with
  | Some e => if PrimFloat.ltb now (expires e) then Some e else None
  | None => None
  end.

(** The second half of [repo_root] as a function of the state: walk, read
    the clock, store the result under the directory asked for. *)
Definition walk_and_store (W : world) (fuel : nat) (directory : string)
    (st : state) : result (option string) * state :=
  let st1 := set_probes
               (probes st ++ walk_trace (host W) (fs st) fuel directory) st in
  match locate (host W) (fs st) fuel directory with
  | Ok r =>
    (Ok r,
     set_repo_root_cache
       (<[directory := {| retval := r;
                          expires := (clock W (clock_reads st) + 5)%float |}]>
          (repo_root_cache st))
       (set_clock_reads (S (clock_reads st)) st1))
  | Raise e => (Raise e, st1)
  end.


(** ** The editor host *)

Definition nl : string := String (Ascii.ascii_of_nat 10) "".

Definition set_kw_working_dir (x : option string) (kw : kwargs) : kwargs :=
  {| kw_working_dir := x; kw_fallback_encoding := kw_fallback_encoding kw;
     kw_stdin := kw_stdin kw; kw_stdout := kw_stdout kw;
     kw_status_message := kw_status_message kw |}.

Definition set_kw_fallback_encoding (x : option string) (kw : kwargs) : kwargs :=
  {| kw_working_dir := kw_working_dir kw; kw_fallback_encoding := x;
     kw_stdin := kw_stdin kw; kw_stdout := kw_stdout kw;
     kw_status_message := kw_status_message kw |}.

Definition set_is_dirty (x : bool) (v : view) : view :=
  {| file_name := file_name v; is_dirty := x; is_loading := is_loading v;
     viewport_position := viewport_position v;
     fallback_encoding_setting := fallback_encoding_setting v;
     live_repo_annotations := live_repo_annotations v |}.

Definition set_is_loading (x : bool) (v : view) : view :=
  {| file_name := file_name v; is_dirty := is_dirty v; is_loading := x;
     viewport_position := viewport_position v;
     fallback_encoding_setting := fallback_encoding_setting v;
     live_repo_annotations := live_repo_annotations v |}.

Definition set_viewport_position (x : Z * Z) (v : view) : view :=
  {| file_name := file_name v; is_dirty := is_dirty v; is_loading := is_loading v;
     viewport_position := x;
     fallback_encoding_setting := fallback_encoding_setting v;
     live_repo_annotations := live_repo_annotations v |}.

Definition set_content (x : pystr) (b : buffer) : buffer :=
  {| content := x; read_only := read_only b; syntax_file := syntax_file b |}.

Definition set_read_only (x : bool) (b : buffer) : buffer :=
  {| content := content b; read_only := x; syntax_file := syntax_file b |}.

Definition set_syntax_file (x : string) (b : buffer) : buffer :=
  {| content := content b; read_only := read_only b; syntax_file := x |}.

(** A panel as [get_output_panel] creates it. *)
Definition new_buffer : buffer :=
  {| content := []; read_only := false; syntax_file := "" |}.

Definition view_size (v : buffer) : nat := length (content v).

(** [view.erase(edit, sublime.Region(a, b))]; the host refuses to edit a
    read-only buffer. *)
Definition view_erase (a b : nat) (v : buffer) : buffer :=
  if read_only v then v
  else set_content (take a (content v) ++ drop b (content v)) v.

(** [view.insert(edit, pos, text)]; refused on a read-only buffer. *)
Definition view_insert (pos : nat) (text : pystr) (v : buffer) : buffer :=
  if read_only v then v
  else set_content (take pos (content v) ++ text ++ drop pos (content v)) v.

(** [RepoScratchOutputCommand.run(edit, output, output_file, clear)], on
    the view the command is run on. *)
Definition RepoScratchOutputCommand_run (output : pystr) (clear : bool)
    (v : buffer) : buffer :=
  let v := if clear then view_erase 0 (view_size v) v else v in
  view_insert 0 output v.

(** [_output_to_view(output_file, output, clear, syntax)].  The arguments
    of a host command must be text: anything else is refused by the host
    after the syntax has been set. *)
Definition _output_to_view (output_file : buffer) (output : pyval)
    (clear : bool) (syntax : string) : buffer * result unit :=
  let output_file := set_syntax_file syntax output_file in
  match output with
  | VStr s => (RepoScratchOutputCommand_run s clear output_file, Ok tt)
  | VBytes _ | VInt _ => (output_file, Raise TypeError)
  end.

Definition default_syntax : string := "Packages/Diff/Diff.tmLanguage".

(** ** The process oracle *)

Inductive launch_outcome :=
| LaunchOSError (errno : Z) (strerror : string)   (* Popen raises OSError *)
| LaunchCalledProcessError (returncode : Z)
| Captured (out : option bytes).  (* communicate()[0]: None without a pipe *)

Record os_behaviour := {
  chdir_error : option (Z * string);   (* os.chdir raises OSError(errno, strerror) *)
  launch : launch_outcome;
}.

(** ** The plugin *)

Section Plugin.
Variable W : world.

Definition the_panel (st : state) : buffer := default new_buffer (repo_panel st).

Definition modify_panel (f : buffer -> buffer) : M unit :=
  modify (fun st => set_repo_panel (Some (f (the_panel st))) st).

Definition modify_active (f : view -> view) : M unit :=
  modify (fun st => set_active (f <$> active st) st).

(** [self.active_view()]: the view of a text command, the window's
    active view for a window command. *)
Definition active_view : M (option view) :=
  let* st := get in ret (active st).

(** [view.run_command(name)] on the active view.  Host behaviour: a save
    leaves the view clean, a revert starts an asynchronous reload. *)
Definition view_run_command (name : string) : M unit :=
  emit (EvViewCommand name) >>>
  if String.eqb name "save" then modify_active (set_is_dirty false)
  else if String.eqb name "revert" then modify_active (set_is_loading true)
  else ret tt.

(** [window.run_command("show_panel", {"panel": name})] *)
Definition show_panel (name : string) : M unit :=
  emit (EvShowPanel name) >>>
  modify (set_visible_panel (Some name)).

(** [RepoWindowCommand._active_file_name] *)
Definition _active_file_name : M (option string) :=
  let* view := active_view in
  ret (match view with
       | Some v => if PyString.truthy (file_name v) then file_name v else None
       | None => None
       end).

(** [get_working_dir] of [RepoWindowCommand] and of [RepoTextCommand]. *)
Definition get_working_dir : M string :=
  match self_class W with
  | WindowCommand =>
    let* file_name := _active_file_name in
    match file_name with
    | Some f => os_path_realpath (path_dirname (host W) f)
    | None =>
      match folders W with
      | d :: _ => ret d
      | [] => ret ""                 (* except IndexError *)
      end
    end
  | TextCommand =>
    let* view := active_view in
    match view with
    | None => raise AttributeError
    | Some v =>
      match file_name v with
      | None => raise TypeError      (* os.path.dirname(None) *)
      | Some f => os_path_realpath (path_dirname (host W) f)
      end
    end
  end.

(** [name.rpartition('(')[2].rpartition(')')[0]] *)
Definition encoding_of_setting (name : string) : string :=
  PyString.rpartition_head ")"%char (PyString.rpartition_tail "("%char name).

Definition lock_path (root : string) : string :=
  os_path_join W (os_path_join W root ".repo") "index.lock".

Definition eval_condition (c : condition) : M bool :=
  match c with
  | LockGone root =>
    let* locked := os_path_exists (lock_path root) in ret (negb locked)
  | NotLoading =>
    let* view := active_view in
    match view with
    | Some v => ret (negb (is_loading v))
    | None => raise AttributeError
    end
  end.

(** The names of the keyword arguments that [**kwargs] holds. *)
Definition kwargs_names (kw : kwargs) : list string :=
  (match kw_working_dir kw with Some _ => ["working_dir"] | None => [] end)
  ++ (match kw_fallback_encoding kw with Some _ => ["fallback_encoding"] | None => [] end)
  ++ (match kw_stdin kw with Some _ => ["stdin"] | None => [] end)
  ++ (match kw_stdout kw with Some _ => ["stdout"] | None => [] end)
  ++ (match kw_status_message kw with Some _ => ["status_message"] | None => [] end).

(** The keyword arguments of a call of [do_when], after its two positional
    ones.  [run_command] hands itself over with [command] as a positional
    argument and with [callback=], [show_status=], [filter_empty_args=],
    [no_save=], [wait_for_lock=] and its own [**kwargs] as keywords;
    [generic_done] hands over a lambda and nothing else. *)
Definition deferred_keywords (d : deferred) : list string :=
  match d with
  | DRunCommand _ _ _ _ _ _ kw =>
    ["callback"; "show_status"; "filter_empty_args"; "no_save"; "wait_for_lock"]
    ++ kwargs_names kw
  | DSetViewport _ => []
  end.

(** Binding a call to [def do_when(conditional, callback, *args, **kwargs)]:
    a keyword that names one of the two parameters already bound by
    position is a [TypeError] ("got multiple values for argument"), raised
    before the body runs. *)
Definition binds_twice (keywords : list string) : bool :=
  existsb (fun k => String.eqb k "conditional" || String.eqb k "callback") keywords.

(** [do_when(conditional, callback, ...)]: [callback] is the call of the
    callback on the arguments that follow it, [again] the same call as
    data, for the timer. *)
Definition do_when (conditional : condition) (callback : M unit)
    (again : deferred) : M unit :=
  if binds_twice (deferred_keywords again) then raise TypeError
  else
    let* c := eval_condition conditional in
    if c then callback
    else set_timeout (TDoWhen conditional again) 50.

(** [CommandThread.__init__] *)
Definition CommandThread_init (command : ref) (on_done : callable)
    (kw : kwargs) : thread :=
  {| t_command := command;
     t_on_done := on_done;
     t_working_dir := default "" (kw_working_dir kw);
     t_stdin := kw_stdin kw;
     t_stdout := kw_stdout kw;
     t_fallback_encoding := default "" (kw_fallback_encoding kw);
     t_kwargs := thread_kwargs kw |}.

(** [thread.start()]: the body runs later, on its own thread. *)
Definition thread_start (t : thread) : M unit :=
  modify (fun st => set_threads (threads st ++ [t]) st).

Definition truthy_value (o : option string) : option string :=
  if PyString.truthy o then o else None.

(** [RepoCommand.run_command] *)
Fixpoint run_command (fuel : nat) (command : ref) (cb : option callable)
    (show_status filter_empty_args no_save wait_for_lock : bool)
    (kw : kwargs) : M unit :=
  match fuel with
  | O => raise OutOfFuel
  | S fuel' =>
    let* command :=
      if filter_empty_args
      then let* l := deref command in alloc (List.filter PyString.nonempty l)
      else ret command in
    let* kw :=
      match kw_working_dir kw with
      | Some _ => ret kw
      | None => let* wd := get_working_dir in ret (set_kw_working_dir (Some wd) kw)
      end in
    let* view := active_view in
    let kw :=
      match kw_fallback_encoding kw, view with
      | None, Some v =>
        match truthy_value (fallback_encoding_setting v) with
        | Some name => set_kw_fallback_encoding (Some (encoding_of_setting name)) kw
        | None => kw
        end
      | _, _ => kw
      end in
    let* wd := get_working_dir in
    let* root := repo_root W fuel' wd in
    match (if wait_for_lock then truthy_value root else None) with
    | Some root =>
      let* locked := os_path_exists (lock_path root) in
      when locked
        (emit (EvPrint "waiting for index.lock") >>>
         do_when (LockGone root)
           (run_command fuel' command cb show_status filter_empty_args
              no_save wait_for_lock kw)
           (DRunCommand command cb show_status filter_empty_args
              no_save wait_for_lock kw))
    | None => ret tt
    end >>>
    let s := config W in
    let* view := active_view in
    when (save_first s
          && match view with Some v => is_dirty v | None => false end
          && negb no_save)
      (view_run_command "save") >>>
    let* c0 := item0 command in
    (if String.eqb c0 "repo" then
       match truthy_value (PyString.or_else (repo_command s) (repo_binary s)) with
       | Some path => set_item0 command path
       | None =>
         match truthy_value (REPO W) with
         | Some path => set_item0 command path
         | None => ret tt
         end
       end
     else ret tt) >>>
    let* c0 := item0 command in
    match (if String.eqb c0 "repok" then truthy_value (repok_command s) else None) with
    | Some path => set_item0 command path
    | None => ret tt
    end >>>
    let* c0 := item0 command in
    match (if String.eqb c0 "repo-flow" then truthy_value (repo_flow_command s) else None) with
    | Some path => set_item0 command path
    | None => ret tt
    end >>>
    let callback := match cb with Some c => c | None => CbGenericDone end in
    thread_start (CommandThread_init command callback kw) >>>
    when show_status
      (let* argv := deref command in
       emit (EvStatusMessage
               match truthy_value (kw_status_message kw) with
               | Some message => message
               | None => PyString.join_space argv
               end))
  end.

(** [RepoCommand.panel(output)] *)
Definition panel (output : pyval) : M unit :=
  let* st := get in
  when (negb (has_output_view st))
    (modify_panel (fun b => b) >>> modify (set_has_output_view true)) >>>
  modify_panel (set_read_only false) >>>
  let* st := get in
  let '(b, r) := _output_to_view (the_panel st) output true default_syntax in
  modify (set_repo_panel (Some b)) >>>
  match r with
  | Raise e => raise e
  | Ok _ =>
    modify_panel (set_read_only true) >>>
    show_panel "output.repo"
  end.

(** [RepoCommand.generic_done(result, **kw)] *)
Definition generic_done (result : pyval) : M unit :=
  let* st := get in
  let* result :=
    match (if may_change_files st then active st else None) with
    | Some v =>
      if PyString.truthy (file_name v) then
        if is_dirty v
        then ret (VStr (lit ("WARNING: Current view is dirty." +:+ nl +:+ nl)))
        else
          emit (EvPrint "reverting") >>>
          let position := viewport_position v in
          view_run_command "revert" >>>
          do_when NotLoading
            (modify_active (set_viewport_position position))
            (DSetViewport position) >>>
          ret result
      else ret result
    | None => ret result
    end in
  let* view := active_view in
  match view with
  | Some v =>
    when (live_repo_annotations v)
      match self_class W with
      | TextCommand => view_run_command "repo_annotate"
      | WindowCommand => raise AttributeError   (* no self.view *)
      end
  | None => ret tt
  end >>>
  match result with
  | VStr s => if PyString.blank s then ret tt else panel result
  | VBytes b => if PyString.blank_bytes b then ret tt else panel result
  | VInt _ => raise AttributeError               (* int has no strip *)
  end.

End Plugin.

(** ** The worker thread *)

Section Runner.
Variable W : world.

Definition set_working (n : Z) : M unit :=
  modify (fun st =>
    set_counter_writes (counter_writes st ++ [n]) (set_commands_working n st)).

Definition not_found_message (path : string) : pystr :=
  lit ("Repo binary could not be found in PATH" +:+ nl +:+ nl
       +:+ "Consider using the repo_command setting for the Repo plugin"
       +:+ nl +:+ nl +:+ "PATH is: " +:+ path).

(** [env = os.environ.copy()], with [HOME] filled in from [USERPROFILE]
    on Windows. *)
Definition popen_env : result (gmap string string) :=
  let env := environ W in
  if sublime_windows (host W) && negb (bool_decide (is_Some (env !! "HOME")))
  then match env !! "USERPROFILE" with
       | Some profile => Ok (<["HOME" := profile]> env)
       | None => Raise (KeyError "USERPROFILE")
       end
  else Ok env.

(** The body of the [try:] of [CommandThread.run].  It ends with the
    value of the local [output] and the exception that left it, if any. *)
Definition try_block (os : os_behaviour) (t : thread) (st : state)
  : pyval * option exn * state :=
  let output := VStr [] in
  let wd := t_working_dir t in
  match (if PyString.nonempty wd then chdir_error os else None) with
  | Some (errno, strerror) => (output, Some (OSError errno strerror), st)
  | None =>
    let st := if PyString.nonempty wd then set_cwd wd st else st in
    let startupinfo := os_name_nt (host W) in
    let shell := sublime_windows (host W) in
    match popen_env with
    | Raise e => (output, Some e, st)
    | Ok env =>
      let sp := {| sp_argv := default [] (store st !! t_command t);
                   sp_cwd := cwd st;
                   sp_shell := shell;
                   sp_hide_window := startupinfo;
                   sp_env := env;
                   sp_stdin := t_stdin t;
                   sp_stdout := t_stdout t |} in
      let st := set_events (events st ++ [EvPopen sp]) st in
      match launch os with
      | LaunchOSError errno strerror => (output, Some (OSError errno strerror), st)
      | LaunchCalledProcessError rc => (output, Some (CalledProcessError rc), st)
      | Captured out =>
        let output :=
          match out with
          | Some (b :: r) => VBytes (b :: r)
          | Some [] | None => VStr []          (* if not output: output = '' *)
          end in
        match _make_text_safeish (codecs W) output (t_fallback_encoding t) with
        | Ok unitext => (unitext, None, st)
        | Raise e => (output, Some e, st)
        end
      end
    end
  end.

(** The [except] clauses: the local [output], the local [callback], and
    the exception still in flight. *)
Definition handlers (callback : callable) (output : pyval) (raised : option exn)
  : pyval * callable * option exn :=
  match raised with
  | Some (CalledProcessError returncode) => (VInt returncode, callback, None)
  | Some (OSError errno strerror) =>
    let callback := CbErrorMessage in
    if (errno =? 2)%Z then
      match environ W !! "PATH" with
      | Some path => (VStr (not_found_message path), callback, None)
      | None => (output, callback, Some (KeyError "PATH"))
      end
    else (VStr (lit strerror), callback, None)
  | other => (output, callback, other)
  end.

Definition run_try (os : os_behaviour) (t : thread) : M (pyval * option exn) :=
  fun st =>
    let '(output, raised, st') := try_block os t st in
    (Ok (output, raised), st').

Definition working : M Z := let* st := get in ret (commands_working st).

(** [CommandThread.run] *)
Definition CommandThread_run (os : os_behaviour) (t : thread) : M unit :=
  let* isdir := os_path_isdir (t_working_dir t) in
  if negb isdir then ret tt
  else
    let* n := working in
    set_working (n + 1) >>>
    let* (output, raised) := run_try os t in
    let '(output, callback, raised) := handlers (t_on_done t) output raised in
    (* finally: *)
    let* n := working in
    set_working (n - 1) >>>
    main_thread callback output (t_kwargs t) >>>
    match raised with
    | Some e => raise e
    | None => ret tt
    end.

End Runner.

(** ** The event loop *)

Section Loop.
Variable W : world.

(** Calling what a timer holds. *)
Definition call_deferred (fuel : nat) (d : deferred) : M unit :=
  match d with
  | DRunCommand command cb show_status filter_empty_args no_save wait_for_lock kw =>
    run_command W fuel command cb show_status filter_empty_args no_save
      wait_for_lock kw
  | DSetViewport position => modify_active (set_viewport_position position)
  end.

(** Calling a callback with [(output, **kwargs)].  [generic_done] takes
    any keywords, [sublime.error_message] takes one string. *)
Definition invoke (cb : callable) (output : pyval) (kw : kwargs) : M unit :=
  match cb with
  | CbGenericDone => generic_done W output
  | CbErrorMessage =>
    if kwargs_empty kw then
      match output with
      | VStr s => emit (EvErrorDialog s)
      | VBytes _ | VInt _ => raise TypeError
      end
    else raise TypeError
  | CbOther name => emit (EvCallback name output)
  end.

Definition run_task (fuel : nat) (t : task) : M unit :=
  match t with
  | TDoWhen c d => do_when W c (call_deferred fuel d) d
  | TCallback cb output kw => invoke cb output kw
  end.

(** The UI thread runs the [i]-th pending timer. *)
Definition fire (fuel : nat) (i : nat) : M unit :=
  let* st := get in
  match timers st !! i with
  | None => ret tt
  | Some (_, t) =>
    modify (set_timers (delete i (timers st))) >>>
    run_task fuel t
  end.

(** The [i]-th started thread runs its body, against what the operating
    system does to it. *)
Definition run_thread (os : os_behaviour) (i : nat) : M unit :=
  let* st := get in
  match threads st !! i with
  | None => ret tt
  | Some t =>
    modify (set_threads (delete i (threads st))) >>>
    CommandThread_run W os t
  end.

(** [RepoSyncCommand.run] *)
Definition RepoSyncCommand_run (fuel : nat) : M unit :=
  let* command := alloc ["repo"; "sync"] in
  run_command W fuel command None true true false true no_kwargs.

End Loop.

(** The environment removes (or creates) a file between two steps. *)
Definition fs_set_exists (p : string) (b : bool) (f : filesystem) : filesystem :=
  {| fs_exists := fun q => if String.eqb q p then b else fs_exists f q;
     fs_isdir := fs_isdir f;
     fs_realpath := fs_realpath f |}.

Definition env_set_exists (p : string) (b : bool) (st : state) : state :=
  set_fs (fs_set_exists p b (fs st)) st.

(** ** A POSIX host, to run the model on *)

Module Posix.

Definition slash : ascii := "/"%char.

Definition ends_with_slash (s : string) : bool :=
  match rev (PyString.chars s) with
  | c :: _ => Ascii.eqb c slash
  | [] => false
  end.

Definition starts_with_slash (s : string) : bool :=
  match s with
  | String c _ => Ascii.eqb c slash
  | EmptyString => false
  end.

(** [posixpath.join(a, b)] *)
Definition join (a b : string) : string :=
  if starts_with_slash b then b
  else if negb (PyString.nonempty a) || ends_with_slash a then a +:+ b
  else a +:+ "/" +:+ b.

Fixpoint drop_leading_slashes (l : list ascii) : list ascii :=
  match l with
  | c :: r => if Ascii.eqb c slash then drop_leading_slashes r else l
  | [] => []
  end.

(** [posixpath.dirname(p)] *)
Definition dirname (p : string) : string :=
  match PyString.before_last slash (PyString.chars p) with
  | None => ""
  | Some h =>
    let head := h ++ [slash] in
    if forallb (fun c => Ascii.eqb c slash) head then PyString.of_chars head
    else PyString.of_chars (rev (drop_leading_slashes (rev head)))
  end.

(** [os.path.realpath] on canonical absolute paths without symbolic
    links: only a trailing ["/.."] is resolved. *)
Definition realpath (p : string) : string :=
  match rev (PyString.chars p) with
  | "."%char :: "."%char :: "/"%char :: r =>
    match r with
    | [] => "/"
    | _ => dirname (PyString.of_chars (rev r))
    end
  | _ => p
  end.

Definition host : platform :=
  {| os_name_nt := false; sublime_windows := false;
     path_join := join; path_dirname := dirname |}.

Definition mem (p : string) (l : list string) : bool :=
  existsb (String.eqb p) l.

(** A file system given by its directories and its other files. *)
Definition files (dirs files : list string) : filesystem :=
  {| fs_exists := fun p => mem p dirs || mem p files;
     fs_isdir := fun p => mem p dirs;
     fs_realpath := realpath |}.

End Posix.

(** ** A concrete session: a checkout under [/home/u/aosp] *)

(** A clock that reads 1700000000.0 first and one second more at each
    further reading. *)
Fixpoint seconds (n : nat) : float :=
  match n with
  | O => 0%float
  | S k => (seconds k + 1)%float
  end.

Definition ticking (n : nat) : float := (1700000000 + seconds n)%float.

Module Demo.

Definition dirs : list string :=
  ["/"; "/home"; "/home/u"; "/home/u/aosp"; "/home/u/aosp/.repo";
   "/home/u/aosp/frameworks"; "/home/u/notes"].

Definition lock : string := "/home/u/aosp/.repo/index.lock".

Definition unlocked : filesystem := Posix.files dirs [].
Definition locked : filesystem := Posix.files dirs [lock].

Definition defaults : settings :=
  {| save_first := true; repo_command := None; repo_binary := None;
     repok_command := None; repo_flow_command := None |}.

Definition session (c : command_class) (fld : list string) : world :=
  {| host := Posix.host;
     codecs := Codec.basic_registry;
     clock := ticking;
     environ := {[ "PATH" := "/usr/bin:/bin" ]};
     REPO := Some "/usr/local/bin/repo";
     config := defaults;
     folders := fld;
     self_class := c |}.

Definition a_view (name : option string) (dirty : bool) : view :=
  {| file_name := name; is_dirty := dirty; is_loading := false;
     viewport_position := (0, 0)%Z;
     fallback_encoding_setting := Some "Western (ISO 8859-1)";
     live_repo_annotations := false |}.

Definition start (f : filesystem) (v : option view) : state :=
  {| fs := f; clock_reads := 0; cwd := "/";
     repo_root_cache := ∅; commands_working := 0; counter_writes := [];
     store := []; active := v; may_change_files := false;
     has_output_view := false; repo_panel := None; visible_panel := None;
     timers := []; threads := []; events := []; probes := [] |}.

(** The process prints [out] and exits. *)
Definition prints (out : bytes) : os_behaviour :=
  {| chdir_error := None; launch := Captured (Some out) |}.

Definition fails (errno : Z) (strerror : string) : os_behaviour :=
  {| chdir_error := None; launch := LaunchOSError errno strerror |}.

(** A thread as [run_command] makes it for [repo sync]; its argument
    vector is the first list of the store. *)
Definition a_thread (wd : string) : thread :=
  {| t_command := 0; t_on_done := CbGenericDone; t_working_dir := wd;
     t_stdin := None; t_stdout := None; t_fallback_encoding := "ISO 8859-1";
     t_kwargs := no_kwargs |}.

Definition with_argv (st : state) : state :=
  set_store [["/usr/local/bin/repo"; "sync"]] st.

Definition frameworks : string := "/home/u/aosp/frameworks".

Definition android_mk : string := "/home/u/aosp/frameworks/Android.mk".

Definition editing : view := a_view (Some android_mk) false.

(** "h", e-acute in ISO 8859-1, newline: not UTF-8. *)
Definition latin1_output : bytes := [Byte.x68; Byte.xe9; Byte.x0a].

(** A cache that still says "no root" for a directory of the checkout,
    until 1700000003; the clock has been read [reads] times. *)
Definition negative_entry : cache_entry :=
  {| retval := None; expires := 1700000003%float |}.

Definition with_negative_entry (reads : nat) : state :=
  set_clock_reads reads
    (set_repo_root_cache {[ frameworks := negative_entry ]}
       (start unlocked None)).

(** Run the steps of a session one after the other; an exception ends
    a step, not the session. *)
Definition steps (l : list (M unit)) (st : state) : state :=
  fold_left (fun st c => snd (c st)) l st.

End Demo.

(** ** Vocabulary of the statements *)

(** Two states that differ at most in what a root lookup writes: the cache,
    the number of clock readings, the probe log. *)
Record same_ui (st st' : state) : Prop := {
  same_fs : fs st' = fs st;
  same_cwd : cwd st' = cwd st;
  same_working : commands_working st' = commands_working st;
  same_writes : counter_writes st' = counter_writes st;
  same_store : store st' = store st;
  same_active : active st' = active st;
  same_may_change : may_change_files st' = may_change_files st;
  same_has_output_view : has_output_view st' = has_output_view st;
  same_repo_panel : repo_panel st' = repo_panel st;
  same_visible_panel : visible_panel st' = visible_panel st;
  same_timers : timers st' = timers st;
  same_threads : threads st' = threads st;
  same_events : events st' = events st;
}.

(** The keyword arguments [run_command] ends up with when it is called
    without any, as [RepoSyncCommand.run] calls it. *)
Definition sync_kwargs (wd : string) (v : view) : kwargs :=
  {| kw_working_dir := Some wd;
     kw_fallback_encoding :=
       encoding_of_setting <$> truthy_value (fallback_encoding_setting v);
     kw_stdin := None; kw_stdout := None; kw_status_message := None |}.

(** The [Popen] calls of a log. *)
Definition popen_calls (l : list event) : list spawn :=
  omap (fun e => match e with EvPopen sp => Some sp | _ => None end) l.

(** ** Two sentences of the specification, as they are worded *)

(** "Any other OS-level launch error surfaces its message text as the
    output, routed through the normal result callback": for an errno other
    than 2 the thread posts its own [on_done] with the error text. *)
Definition other_launch_errors_reach_result_callback : Prop :=
  forall (W : world) (os : os_behaviour) (t : thread) (st : state)
         (errno : Z) (strerror : string),
    isdir_in (fs st) (t_working_dir t) = true ->
    chdir_error os = None ->
    launch os = LaunchOSError errno strerror ->
    errno <> 2%Z ->
    timers (snd (CommandThread_run W os t st))
    = timers st ++ [(0, TCallback (t_on_done t) (VStr (lit strerror)) (t_kwargs t))].

(** "Output text delivered to the panel, panel becomes visible": whatever
    the sync process prints ends up as the content of the visible panel. *)
Definition sync_output_always_reaches_panel : Prop :=
  forall (out : bytes) (text : pystr),
    Codec.utf8_decode out = Some text ->
    let st :=
      Demo.steps
        [RepoSyncCommand_run (Demo.session TextCommand []) 8;
         run_thread (Demo.session TextCommand []) (Demo.prints out) 0;
         fire (Demo.session TextCommand []) 8 0]
        (Demo.start Demo.unlocked (Some Demo.editing)) in
    (content <$> repo_panel st) = Some text
    /\ visible_panel st = Some "output.repo".

(** ** Further vocabulary: the cache *)

(** No entry of the cache holds the empty string as a root. *)
Definition cache_ok (c : gmap string cache_entry) : Prop :=
  forall d e, c !! d = Some e -> retval e <> Some "".

(** ** The executable resolver *)

(** [s.split(sep)] for a one-character separator: at least one field, an
    empty string gives one empty field. *)
Fixpoint split_on (sep : ascii) (s : string) : list string :=
  match s with
  | EmptyString => [""]
  | String c r =>
    if Ascii.eqb c sep then "" :: split_on sep r
    else
      match split_on sep r with
      | h :: t => String c h :: t
      | [] => [String c ""]
      end
  end.

Section Resolver.
Variable P : platform.
Variable f : filesystem.
Variable executable : string -> bool.       (* os.access(path, os.X_OK) *)
Variable env : gmap string string.          (* os.environ *)

(** [os.path.exists(file_path) and os.access(file_path, os.X_OK)] for the
    candidate of one directory. *)
Definition candidate (directory test_file : string) : string :=
  path_join P directory test_file.

Definition usable (file_path : string) : bool :=
  exists_in f file_path && executable file_path.

(** [_test_paths_for_executable(paths, test_file)]; falling out of the
    loop returns [None]. *)
Fixpoint _test_paths_for_executable (paths : list string) (test_file : string)
  : option string :=
  match paths with
  | [] => None
  | directory :: rest =>
    let file_path := candidate directory test_file in
    if usable file_path then Some file_path
    else _test_paths_for_executable rest test_file
  end.

(** [os.pathsep] *)
Definition pathsep : ascii := if os_name_nt P then ";"%char else ":"%char.

(** [find_repo()] *)
Definition find_repo : result (option string) :=
  let path := split_on pathsep (default "" (env !! "PATH")) in
  let repo_cmd := if os_name_nt P then "repo.exe" else "repo" in
  let repo_path := _test_paths_for_executable path repo_cmd in
  if PyString.truthy repo_path then Ok repo_path
  else if os_name_nt P then
    match env !! "ProgramFiles" with
    | None => Raise (KeyError "ProgramFiles")
    | Some program_files =>
      match env !! "ProgramFiles(x86)" with
      | None => Raise (KeyError "ProgramFiles(x86)")
      | Some program_files_x86 =>
        Ok (_test_paths_for_executable
              [path_join P (path_join P program_files "repo") "bin";
               path_join P (path_join P program_files_x86 "repo") "bin"]
              repo_cmd)
      end
    end
  else
    Ok (_test_paths_for_executable ["/usr/local/bin"; "/usr/local/repo/bin"] repo_cmd).
End Resolver.

(** ** Further vocabulary: the worker thread *)

(** The [Popen] call a thread makes in a state, given the environment it
    prepared. *)
Definition spawn_of (W : world) (t : thread) (st : state)
    (env : gmap string string) : spawn :=
  {| sp_argv := default [] (store st !! t_command t);
     sp_cwd := if PyString.nonempty (t_working_dir t) then t_working_dir t else cwd st;
     sp_shell := sublime_windows (host W);
     sp_hide_window := os_name_nt (host W);
     sp_env := env;
     sp_stdin := t_stdin t;
     sp_stdout := t_stdout t |}.

(** ** A Windows session, for examples *)

Module WinDemo.

(** Enough of [ntpath.join] for a relative second component. *)
Definition join (a b : string) : string :=
  if negb (PyString.nonempty a) then b else a +:+ "\" +:+ b.

Definition windows : platform :=
  {| os_name_nt := true; sublime_windows := true;
     path_join := join; path_dirname := fun p => p |}.

Definition session (env : gmap string string) : world :=
  {| host := windows;
     codecs := Codec.basic_registry;
     clock := ticking;
     environ := env;
     REPO := None;
     config := Demo.defaults;
     folders := [];
     self_class := TextCommand |}.

Definition work : string := "C:\work".

Definition start : state :=
  Demo.with_argv (Demo.start (Posix.files [work] []) None).

End WinDemo.

(** The text [generic_done] shows instead of the output when the view has
    unsaved changes. *)
Definition dirty_warning : pystr :=
  lit ("WARNING: Current view is dirty." +:+ nl +:+ nl).

(** ** Further vocabulary: [run_command] *)

(** The head of the argument vector after the three substitutions of
    [run_command], in their order. *)
Definition resolve_repo (W : world) (c0 : string) : string :=
  if String.eqb c0 "repo" then
    match truthy_value (PyString.or_else (repo_command (config W))
                          (repo_binary (config W))) with
    | Some path => path
    | None =>
      match truthy_value (REPO W) with
      | Some path => path
      | None => c0
      end
    end
  else c0.

Definition resolve_setting (name : string) (setting : option string)
    (c0 : string) : string :=
  match (if String.eqb c0 name then truthy_value setting else None) with
  | Some path => path
  | None => c0
  end.

Definition resolved_head (W : world) (c0 : string) : string :=
  resolve_setting "repo-flow" (repo_flow_command (config W))
    (resolve_setting "repok" (repok_command (config W)) (resolve_repo W c0)).

(** What [get_working_dir] returns, and what it hands to [os.path], as
    functions of the active view and the file system. *)
Definition working_dir_of (W : world) (a : option view) (f : filesystem)
  : result string :=
  match self_class W with
  | WindowCommand =>
    match (match a with
           | Some v => if PyString.truthy (file_name v) then file_name v else None
           | None => None
           end) with
    | Some name => Ok (fs_realpath f (path_dirname (host W) name))
    | None => Ok (match folders W with d :: _ => d | [] => "" end)
    end
  | TextCommand =>
    match a with
    | None => Raise AttributeError
    | Some v =>
      match file_name v with
      | None => Raise TypeError
      | Some name => Ok (fs_realpath f (path_dirname (host W) name))
      end
    end
  end.

Definition working_dir_probes (W : world) (a : option view) : list string :=
  match self_class W with
  | WindowCommand =>
    match a with
    | Some v =>
      if PyString.truthy (file_name v)
      then match file_name v with
           | Some name => [path_dirname (host W) name]
           | None => []
           end
      else []
    | None => []
    end
  | TextCommand =>
    match a with
    | Some v =>
      match file_name v with
      | Some name => [path_dirname (host W) name]
      | None => []
      end
    | None => []
    end
  end.

(** The keyword arguments after the first lines of [run_command]. *)
Definition run_kwargs (kw : kwargs) (a : option view) (wd : string) : kwargs :=
  let kw1 :=
    match kw_working_dir kw with
    | Some _ => kw
    | None => set_kw_working_dir (Some wd) kw
    end in
  match kw_fallback_encoding kw1, a with
  | None, Some v =>
    match truthy_value (fallback_encoding_setting v) with
    | Some name => set_kw_fallback_encoding (Some (encoding_of_setting name)) kw1
    | None => kw1
    end
  | _, _ => kw1
  end.

(** The lock that [run_command] waits for: [wait_for_lock and root and
    os.path.exists(<root>/.repo/index.lock)]. *)
Definition lock_seen (W : world) (wait_for_lock : bool) (root : option string)
    (f : filesystem) : option string :=
  match (if wait_for_lock then truthy_value root else None) with
  | Some r => if exists_in f (lock_path W r) then Some r else None
  | None => None
  end.

(** ** Further vocabulary: the commands *)

(** The argument vector of the thread started last. *)
Definition started_argv (st : state) : option (list string) :=
  last (threads st) ≫= fun t => store st !! t_command t.

(** [RepoWindowCommand.is_enabled] and [RepoTextCommand.is_enabled] *)
Definition is_enabled (W : world) (fuel : nat) : M bool :=
  match self_class W with
  | WindowCommand =>
    let* file_name := _active_file_name in
    if PyString.truthy file_name || Nat.eqb (length (folders W)) 1
    then let* wd := get_working_dir W in
         let* root := repo_root W fuel wd in
         ret (PyString.truthy root)
    else ret false
  | TextCommand =>
    let* view := active_view in
    match view with
    | None => raise AttributeError
    | Some v =>
      if PyString.truthy (file_name v)
      then let* wd := get_working_dir W in
           let* root := repo_root W fuel wd in
           ret (PyString.truthy root)
      else ret false
    end
  end.


(** Sessions whose settings override the executable. *)
Module Overrides.

(** Settings that point [repo] at a wrapper script. *)
Definition wrapper : settings :=
  {| save_first := false; repo_command := Some "/opt/bin/repo-wrapper";
     repo_binary := Some "/opt/bin/repo"; repok_command := None;
     repo_flow_command := None |}.

(** Settings that point [repo] at [repok], and [repok] at a script. *)
Definition chained : settings :=
  {| save_first := false; repo_command := Some "repok";
     repo_binary := None; repok_command := Some "/opt/bin/repok";
     repo_flow_command := None |}.

Definition session (s : settings) : world :=
  {| host := Posix.host;
     codecs := Codec.basic_registry;
     clock := ticking;
     environ := {[ "PATH" := "/usr/bin:/bin" ]};
     REPO := Some "/usr/local/bin/repo";
     config := s;
     folders := [];
     self_class := TextCommand |}.

(** The caller's list is the first object of the store. *)
Definition calling (argv : list string) : state :=
  set_store [argv] (Demo.start Demo.unlocked (Some Demo.editing)).

End Overrides.

(** * Properties *)

(** ** Decoding *)

Example utf8_two_bytes :
  Codec.utf8_decode [Byte.xc3; Byte.xa9] = Some [233%N].
Proof. reflexivity. Qed.

Example utf8_rejects_latin1 : Codec.utf8_decode [Byte.xe9] = None.
Proof. reflexivity. Qed.

Example utf8_rejects_overlong :
  Codec.utf8_decode [Byte.xc0; Byte.x80] = None.
Proof. reflexivity. Qed.

Example utf8_rejects_surrogate :
  Codec.utf8_decode [Byte.xed; Byte.xa0; Byte.x80] = None.
Proof. reflexivity. Qed.

Example utf8_four_bytes :
  Codec.utf8_decode [Byte.xf0; Byte.x9f; Byte.x98; Byte.x80]
  = Some [128512%N].
Proof. reflexivity. Qed.

Example encoding_of_setting_western :
  encoding_of_setting "Western (ISO 8859-1)" = "ISO 8859-1".
Proof. reflexivity. Qed.

Example encoding_of_setting_plain : encoding_of_setting "utf-8" = "".
Proof. reflexivity. Qed.

Lemma bytes_decode_utf8 codecs b :
  Codec.bytes_decode codecs "utf-8" b =
  match Codec.utf8_decode b with
  | Some s => Ok s
  | None => Raise UnicodeDecodeError
  end.
Proof. reflexivity. Qed.

Lemma safeish_bytes codecs b fallback_encoding :
  _make_text_safeish codecs (VBytes b) fallback_encoding =
  match Codec.utf8_decode b with
  | Some text => Ok (VStr text)
  | None => decode_method codecs (VBytes b) fallback_encoding
  end.
Proof.
  unfold _make_text_safeish, decode_method at 1.
  rewrite bytes_decode_utf8.
  destruct (Codec.utf8_decode b); reflexivity.
Qed.

(** C6.  On the captured bytes, UTF-8 is tried first.  When it succeeds its
    text is the result and the fallback is not consulted; the fallback
    encoding decides the result exactly when UTF-8 raises a decode error,
    so bytes that are not UTF-8 but are valid in the fallback encoding
    come out as the fallback's text. *)
Theorem make_text_safeish_utf8_then_fallback
    (codecs : Codec.registry) (output : bytes) (fallback_encoding : string) :
  _make_text_safeish codecs (VBytes output) fallback_encoding =
    match Codec.utf8_decode output with
    | Some text => Ok (VStr text)
    | None => decode_method codecs (VBytes output) fallback_encoding
    end
  /\ (forall text,
        Codec.utf8_decode output = Some text ->
        forall other,
          _make_text_safeish codecs (VBytes output) other = Ok (VStr text))
  /\ (forall text,
        Codec.utf8_decode output = None ->
        Codec.bytes_decode codecs fallback_encoding output = Ok text ->
        _make_text_safeish codecs (VBytes output) fallback_encoding
        = Ok (VStr text)).
Proof.
  split; [apply safeish_bytes|split].
  - intros text Hu other. rewrite safeish_bytes, Hu. reflexivity.
  - intros text Hu Hf. rewrite safeish_bytes, Hu.
    unfold decode_method. rewrite Hf. reflexivity.
Qed.

Lemma make_text_safeish_utf8_then_fallback_witness :
  Codec.utf8_decode [Byte.xe9] = None
  /\ Codec.bytes_decode Codec.basic_registry "latin-1" [Byte.xe9] = Ok [233%N]
  /\ _make_text_safeish Codec.basic_registry (VBytes [Byte.xe9]) "latin-1"
     = Ok (VStr [233%N]).
Proof.
  split; [reflexivity|split; [reflexivity|]].
  apply (make_text_safeish_utf8_then_fallback
           Codec.basic_registry [Byte.xe9] "latin-1"); reflexivity.
Defined.

(** ** The output panel *)

Lemma scratch_output_replaces (output : pystr) (v : buffer) :
  read_only v = false ->
  content (RepoScratchOutputCommand_run output true v) = output.
Proof.
  intros Hw. unfold RepoScratchOutputCommand_run, view_insert, view_erase, view_size.
  rewrite Hw. cbn. rewrite Hw. cbn.
  rewrite drop_all. cbn. rewrite !take_0, drop_0. cbn. apply app_nil_r.
Qed.

Lemma panel_writes (output : pystr) (st : state) :
  exists st',
    panel (VStr output) st = (Ok tt, st')
    /\ (content <$> repo_panel st') = Some output
    /\ (read_only <$> repo_panel st') = Some true
    /\ has_output_view st' = true
    /\ visible_panel st' = Some "output.repo"
    /\ events st' = events st ++ [EvShowPanel "output.repo"].
Proof.
  unfold panel, bind, get, when, modify_panel, modify, show_panel, emit, ret.
  destruct (has_output_view st) eqn:Hov; cbn;
    (eexists; split; [reflexivity|]; cbn;
     repeat split; try reflexivity).
  all: try assumption.
  all: rewrite drop_all; cbn; rewrite !take_0, drop_0; cbn; f_equal; apply app_nil_r.
Qed.

(** C9.  Writing [output] to the panel replaces what the panel held: for
    every earlier state of the panel (absent, of any content, read-only or
    not) the call returns, the panel then holds exactly [output], is
    read-only again, and has been made visible. *)
Theorem panel_replaces_content_and_shows (output : pystr) (st : state) :
  exists st',
    panel (VStr output) st = (Ok tt, st')
    /\ (content <$> repo_panel st') = Some output
    /\ (read_only <$> repo_panel st') = Some true
    /\ visible_panel st' = Some "output.repo"
    /\ events st' = events st ++ [EvShowPanel "output.repo"].
Proof.
  destruct (panel_writes output st) as (st' & Hrun & Hc & Hr & _ & Hv & He).
  exists st'. tauto.
Qed.

(** ** The worker thread *)

Ltac unfold_m :=
  unfold bind, ret, raise, get, modify, when, emit, probe, set_timeout,
    main_thread, working, set_working in *.

Lemma run_without_directory W os t st :
  isdir_in (fs st) (t_working_dir t) = false ->
  CommandThread_run W os t st
  = (Ok tt, set_probes (probes st ++ [t_working_dir t]) st).
Proof.
  intros Hd. unfold CommandThread_run, os_path_isdir. unfold_m. cbn.
  rewrite Hd. reflexivity.
Qed.

(** The [try] block touches the working directory and the event log, and
    nothing else. *)
Lemma try_block_frame W os t st :
  let st' := snd (try_block W os t st) in
  commands_working st' = commands_working st
  /\ counter_writes st' = counter_writes st
  /\ timers st' = timers st
  /\ threads st' = threads st
  /\ fs st' = fs st
  /\ store st' = store st.
Proof.
  unfold try_block.
  destruct (if PyString.nonempty (t_working_dir t) then chdir_error os else None)
    as [[errno strerror]|]; [cbn; tauto|].
  destruct (popen_env W); [|destruct (PyString.nonempty _); cbn; tauto].
  destruct (launch os) as [errno strerror|rc|out];
    try (destruct (PyString.nonempty _); cbn; tauto).
  destruct (_make_text_safeish _ _ _);
    destruct (PyString.nonempty _); cbn; tauto.
Qed.

(** What [CommandThread.run] does once the working directory is there:
    count up, run the [try] block and the handlers, count down, post the
    callback, and let an unhandled exception through. *)
Lemma run_with_directory W os t st :
  isdir_in (fs st) (t_working_dir t) = true ->
  let st0 := set_probes (probes st ++ [t_working_dir t]) st in
  let n := commands_working st in
  let st1 := set_counter_writes (counter_writes st ++ [n + 1]%Z)
               (set_commands_working (n + 1)%Z st0) in
  let '(output, raised, st2) := try_block W os t st1 in
  let '(output, callback, raised) := handlers W (t_on_done t) output raised in
  CommandThread_run W os t st
  = (match raised with Some e => Raise e | None => Ok tt end,
     set_timers (timers st2 ++ [(0, TCallback callback output (t_kwargs t))])
       (set_counter_writes (counter_writes st2 ++ [commands_working st2 - 1]%Z)
          (set_commands_working (commands_working st2 - 1)%Z st2))).
Proof.
  intros Hd. cbn zeta.
  unfold CommandThread_run, os_path_isdir, run_try. unfold_m. cbn.
  rewrite Hd. cbn.
  destruct (try_block W os t _) as [[output raised] st2].
  destruct (handlers W (t_on_done t) output raised) as [[output' cb] raised'].
  cbn. destruct raised'; reflexivity.
Qed.

(** C5.  When the working directory of the thread is not a directory at
    the moment the body runs, the body returns normally: no [Popen] call
    (no event at all), no callback posted, the in-flight counter not
    touched, no exception. *)
Theorem run_missing_directory_is_dropped
    (W : world) (os : os_behaviour) (t : thread) (st : state) :
  isdir_in (fs st) (t_working_dir t) = false ->
  exists st',
    CommandThread_run W os t st = (Ok tt, st')
    /\ events st' = events st
    /\ timers st' = timers st
    /\ threads st' = threads st
    /\ commands_working st' = commands_working st
    /\ counter_writes st' = counter_writes st.
Proof.
  intros Hd. rewrite (run_without_directory W os t st Hd).
  eexists. split; [reflexivity|]. cbn. tauto.
Qed.

(** C7.  Over every execution of the body the in-flight counter ends where
    it began, whatever the process does (output, undecodable output,
    launch error, an exception nothing handles).  Past the directory
    check the counter is written exactly twice: one up on entry, one down
    in the [finally]. *)
Theorem run_counter_net_zero
    (W : world) (os : os_behaviour) (t : thread) (st : state) :
  let st' := snd (CommandThread_run W os t st) in
  commands_working st' = commands_working st
  /\ counter_writes st' =
       counter_writes st ++
       (if isdir_in (fs st) (t_working_dir t)
        then [commands_working st + 1; commands_working st]%Z
        else []).
Proof.
  cbn zeta.
  destruct (isdir_in (fs st) (t_working_dir t)) eqn:Hd.
  - pose proof (run_with_directory W os t st Hd) as Hrun. cbn zeta in Hrun.
    pose proof (try_block_frame W os t
      (set_counter_writes (counter_writes st ++ [commands_working st + 1]%Z)
         (set_commands_working (commands_working st + 1)%Z
            (set_probes (probes st ++ [t_working_dir t]) st)))) as Hframe.
    destruct (try_block W os t _) as [[output raised] st2].
    destruct (handlers W (t_on_done t) output raised) as [[output' cb] raised'].
    rewrite Hrun. cbn in *.
    destruct Hframe as (Hc & Hw & _). rewrite Hc, Hw.
    split; [lia|].
    rewrite <- app_assoc. cbn. do 3 f_equal. lia.
  - rewrite (run_without_directory W os t st Hd). cbn.
    rewrite app_nil_r. tauto.
Qed.

Lemma lit_app (a b : string) : lit (a +:+ b) = lit a ++ lit b.
Proof.
  unfold lit. induction a as [|c a IH]; [reflexivity|].
  change (String c a +:+ b) with (String c (a +:+ b)).
  cbn. f_equal. exact IH.
Qed.

Lemma is_prefix_app (p a b : pystr) :
  PyString.is_prefix p a = true -> PyString.is_prefix p (a ++ b) = true.
Proof.
  revert a. induction p as [|x p IH]; intros a H; [reflexivity|].
  destruct a as [|y a]; cbn in *; [discriminate|].
  apply andb_true_iff in H as [Hxy Hp].
  rewrite Hxy. cbn. apply IH, Hp.
Qed.

Lemma contains_app (needle a b : pystr) :
  PyString.contains needle a = true -> PyString.contains needle (a ++ b) = true.
Proof.
  induction a as [|y a IH]; cbn; intros H.
  - rewrite orb_false_r in H.
    destruct needle; [destruct b; reflexivity|discriminate].
  - apply orb_true_iff in H as [H|H].
    + pose proof (is_prefix_app needle (y :: a) b H) as Hp. cbn in Hp.
      rewrite Hp. reflexivity.
    + rewrite (IH H). apply orb_true_r.
Qed.

Lemma contains_app_r (needle a b : pystr) :
  PyString.contains needle b = true -> PyString.contains needle (a ++ b) = true.
Proof.
  intros H. induction a as [|y a IH]; [exact H|].
  cbn. rewrite IH. apply orb_true_r.
Qed.

Lemma not_found_message_names_setting (path : string) :
  PyString.contains (lit "repo_command") (not_found_message path) = true.
Proof.
  unfold not_found_message. rewrite !lit_app.
  do 3 apply contains_app_r. apply contains_app. vm_compute. reflexivity.
Qed.

Lemma try_block_launch_error W os t st errno strerror :
  chdir_error os = None ->
  (exists env, popen_env W = Ok env) ->
  launch os = LaunchOSError errno strerror ->
  fst (try_block W os t st) = (VStr [], Some (OSError errno strerror)).
Proof.
  intros Hc [env He] Hl. unfold try_block.
  rewrite Hc, He, Hl.
  destruct (PyString.nonempty (t_working_dir t)); reflexivity.
Qed.

(** What the thread posts to the UI thread. *)
Lemma run_posts W os t st :
  isdir_in (fs st) (t_working_dir t) = true ->
  forall output raised st2,
    try_block W os t
      (set_counter_writes (counter_writes st ++ [commands_working st + 1]%Z)
         (set_commands_working (commands_working st + 1)%Z
            (set_probes (probes st ++ [t_working_dir t]) st)))
    = (output, raised, st2) ->
    let '(output', callback, raised') := handlers W (t_on_done t) output raised in
    fst (CommandThread_run W os t st)
    = match raised' with Some e => Raise e | None => Ok tt end
    /\ timers (snd (CommandThread_run W os t st))
       = timers st ++ [(0, TCallback callback output' (t_kwargs t))]
    /\ events (snd (CommandThread_run W os t st)) = events st2.
Proof.
  intros Hd output raised st2 Htry.
  pose proof (run_with_directory W os t st Hd) as Hrun. cbn zeta in Hrun.
  pose proof (try_block_frame W os t
    (set_counter_writes (counter_writes st ++ [commands_working st + 1]%Z)
       (set_commands_working (commands_working st + 1)%Z
          (set_probes (probes st ++ [t_working_dir t]) st)))) as Hframe.
  rewrite Htry in Hrun, Hframe. cbn in Hframe.
  destruct (handlers W (t_on_done t) output raised) as [[output' cb] raised'].
  rewrite Hrun. cbn. destruct Hframe as (_ & _ & Ht & _). rewrite Ht.
  repeat split; reflexivity.
Qed.

(** C2, as the code has it.  An [OSError] raised by the launch always
    leaves through [sublime.error_message], never through the thread's own
    callback.  With errno 2 (and [PATH] set) the message is the one that
    names the [repo_command] setting; with any other errno the message is
    the error's [strerror]. *)
Theorem launch_error_goes_to_dialog
    (W : world) (os : os_behaviour) (t : thread) (st : state)
    (errno : Z) (strerror : string) :
  isdir_in (fs st) (t_working_dir t) = true ->
  chdir_error os = None ->
  (exists env, popen_env W = Ok env) ->
  launch os = LaunchOSError errno strerror ->
  let st' := snd (CommandThread_run W os t st) in
  (errno <> 2%Z ->
     fst (CommandThread_run W os t st) = Ok tt
     /\ timers st' =
          timers st ++ [(0, TCallback CbErrorMessage (VStr (lit strerror)) (t_kwargs t))])
  /\ (errno = 2%Z ->
      forall path, environ W !! "PATH" = Some path ->
        fst (CommandThread_run W os t st) = Ok tt
        /\ timers st' =
             timers st ++
             [(0, TCallback CbErrorMessage (VStr (not_found_message path)) (t_kwargs t))]
        /\ PyString.contains (lit "repo_command") (not_found_message path) = true).
Proof.
  intros Hd Hc He Hl. cbn zeta.
  set (st1 := set_counter_writes (counter_writes st ++ [commands_working st + 1]%Z)
         (set_commands_working (commands_working st + 1)%Z
            (set_probes (probes st ++ [t_working_dir t]) st))).
  pose proof (try_block_launch_error W os t st1 errno strerror Hc He Hl) as Htry.
  destruct (try_block W os t st1) as [[output raised] st2] eqn:Hblock.
  cbn in Htry. injection Htry as -> ->.
  pose proof (run_posts W os t st Hd _ _ _ Hblock) as Hposts.
  unfold handlers in Hposts.
  split.
  - intros Hne. apply Z.eqb_neq in Hne. rewrite Hne in Hposts. tauto.
  - intros -> path Hpath. cbn in Hposts. rewrite Hpath in Hposts.
    destruct Hposts as (? & ? & _).
    auto using not_found_message_names_setting.
Qed.

Lemma launch_error_goes_to_dialog_witness :
  let W := Demo.session TextCommand [] in
  let t := Demo.a_thread "/home/u/aosp" in
  let st := Demo.with_argv (Demo.start Demo.unlocked None) in
  timers (snd (CommandThread_run W (Demo.fails 13 "Permission denied") t st))
  = [(0, TCallback CbErrorMessage (VStr (lit "Permission denied")) no_kwargs)]
  /\ timers (snd (CommandThread_run W (Demo.fails 2 "No such file or directory") t st))
     = [(0, TCallback CbErrorMessage (VStr (not_found_message "/usr/bin:/bin")) no_kwargs)].
Proof.
  cbn zeta. split.
  - apply (launch_error_goes_to_dialog
             (Demo.session TextCommand []) (Demo.fails 13 "Permission denied")
             (Demo.a_thread "/home/u/aosp")
             (Demo.with_argv (Demo.start Demo.unlocked None))
             13 "Permission denied");
      [reflexivity|reflexivity|eexists; reflexivity|reflexivity|lia].
  - apply (launch_error_goes_to_dialog
             (Demo.session TextCommand []) (Demo.fails 2 "No such file or directory")
             (Demo.a_thread "/home/u/aosp")
             (Demo.with_argv (Demo.start Demo.unlocked None))
             2 "No such file or directory");
      [reflexivity|reflexivity|eexists; reflexivity|reflexivity|reflexivity|reflexivity].
Defined.

(** C2, as the specification words it, fails: a launch that dies with
    errno 13 (permission denied) posts [sublime.error_message], not the
    thread's [generic_done]. *)
Lemma other_launch_errors_reach_dialog_instead :
  ~ other_launch_errors_reach_result_callback.
Proof.
  intros H.
  specialize (H (Demo.session TextCommand []) (Demo.fails 13 "Permission denied")
                (Demo.a_thread "/home/u/aosp")
                (Demo.with_argv (Demo.start Demo.unlocked None))
                13%Z "Permission denied" eq_refl eq_refl eq_refl ltac:(lia)).
  vm_compute in H. discriminate H.
Qed.

Lemma run_missing_directory_is_dropped_witness :
  let W := Demo.session TextCommand [] in
  let t := Demo.a_thread "/home/u/closed-project" in
  let st := Demo.with_argv (Demo.start Demo.unlocked None) in
  isdir_in (fs st) (t_working_dir t) = false
  /\ exists st',
       CommandThread_run W (Demo.prints [Byte.x6f; Byte.x6b]) t st = (Ok tt, st')
       /\ events st' = events st
       /\ timers st' = timers st
       /\ threads st' = threads st
       /\ commands_working st' = commands_working st
       /\ counter_writes st' = counter_writes st.
Proof.
  cbn zeta. split; [reflexivity|].
  apply (run_missing_directory_is_dropped
           (Demo.session TextCommand []) (Demo.prints [Byte.x6f; Byte.x6b])
           (Demo.a_thread "/home/u/closed-project")
           (Demo.with_argv (Demo.start Demo.unlocked None))).
  reflexivity.
Defined.

(** ** The working directory of a window command *)

(** C10.  A window command with no file in the active view and no folder
    in the window resolves its working directory to the empty string; a
    thread made for that working directory is dropped by the body like a
    thread whose directory is gone: it returns normally, with no [Popen]
    call, no callback posted and the counter untouched. *)
Theorem no_file_no_folder_is_dropped (W : world) (st : state) :
  self_class W = WindowCommand ->
  folders W = [] ->
  match active st with
  | Some v => PyString.truthy (file_name v)
  | None => false
  end = false ->
  get_working_dir W st = (Ok "", st)
  /\ forall (os : os_behaviour) (command : ref) (on_done : callable)
            (kw : kwargs) (st1 : state),
       kw_working_dir kw = Some "" ->
       exists st',
         CommandThread_run W os (CommandThread_init command on_done kw) st1
         = (Ok tt, st')
         /\ events st' = events st1
         /\ timers st' = timers st1
         /\ commands_working st' = commands_working st1.
Proof.
  intros Hclass Hfolders Hfile. split.
  - unfold get_working_dir, _active_file_name, active_view. unfold_m.
    rewrite Hclass, Hfolders. cbn.
    destruct (active st) as [v|]; [rewrite Hfile|]; reflexivity.
  - intros os command on_done kw st1 Hwd.
    rewrite run_without_directory by (cbn; rewrite Hwd; reflexivity).
    eexists. split; [reflexivity|]. cbn. tauto.
Qed.

Lemma no_file_no_folder_is_dropped_witness :
  let W := Demo.session WindowCommand [] in
  let st := Demo.start Demo.unlocked (Some (Demo.a_view None false)) in
  get_working_dir W st = (Ok "", st)
  /\ exists st',
       CommandThread_run W (Demo.prints [Byte.x6f; Byte.x6b])
         (CommandThread_init 0 CbGenericDone (set_kw_working_dir (Some "") no_kwargs))
         (Demo.with_argv st)
       = (Ok tt, st')
       /\ events st' = []
       /\ timers st' = []
       /\ commands_working st' = 0%Z.
Proof.
  cbn zeta.
  pose proof (no_file_no_folder_is_dropped
                (Demo.session WindowCommand [])
                (Demo.start Demo.unlocked (Some (Demo.a_view None false)))
                eq_refl eq_refl eq_refl) as [Hwd Hrun].
  split; [exact Hwd|].
  exact (Hrun (Demo.prints [Byte.x6f; Byte.x6b]) 0 CbGenericDone
              (set_kw_working_dir (Some "") no_kwargs)
              (Demo.with_argv (Demo.start Demo.unlocked (Some (Demo.a_view None false))))
              eq_refl).
Defined.

(** ** The repo-root locator *)

Lemma set_probes_twice a b st :
  set_probes (probes (set_probes a st) ++ b) (set_probes a st)
  = set_probes (a ++ b) st.
Proof. destruct st; reflexivity. Qed.

Lemma set_probes_same st : set_probes (probes st ++ []) st = st.
Proof. destruct st; cbn. rewrite app_nil_r. reflexivity. Qed.

(** The monadic loop is the pure walk, plus the log of what it probed. *)
Lemma repo_root_loop_locate W fuel directory st :
  repo_root_loop W fuel directory st
  = (locate (host W) (fs st) fuel directory,
     set_probes (probes st ++ walk_trace (host W) (fs st) fuel directory) st).
Proof.
  revert directory st. induction fuel as [|fuel IH]; intros directory st.
  - cbn. unfold raise. rewrite set_probes_same. reflexivity.
  - cbn [repo_root_loop locate walk_trace].
    destruct (negb (PyString.nonempty directory)) eqn:He.
    { unfold ret. rewrite set_probes_same. reflexivity. }
    unfold os_path_exists, os_path_realpath, os_path_join. unfold_m. cbn.
    change (exists_in (fs st) (path_join (host W) directory ".repo"))
      with (has_marker (host W) (fs st) directory).
    destruct (has_marker (host W) (fs st) directory); [reflexivity|]. cbn.
    change (fs_realpath (fs st) (path_join (host W) directory ".."))
      with (parent_of (host W) (fs st) directory).
    destruct (String.eqb (parent_of (host W) (fs st) directory) directory).
    { rewrite <- app_assoc. reflexivity. }
    rewrite IH. cbn. f_equal.
    destruct st; cbn. rewrite <- !app_assoc. reflexivity.
Qed.

Lemma walk_and_store_eq W fuel directory st :
  (let* r := repo_root_loop W fuel directory in
   let* now := time_time W in
   modify (fun st =>
     set_repo_root_cache
       (<[directory := {| retval := r; expires := now + 5 |}]>
          (repo_root_cache st)) st) >>>
   ret r) st
  = walk_and_store W fuel directory st.
Proof.
  unfold walk_and_store, bind at 1. rewrite repo_root_loop_locate.
  destruct (locate (host W) (fs st) fuel directory); reflexivity.
Qed.

Lemma repo_root_eq W fuel directory st :
  repo_root W fuel directory st
  = match repo_root_cache st !! directory with
    | Some entry =>
      if PrimFloat.ltb (clock W (clock_reads st)) (expires entry)
      then (Ok (retval entry), set_clock_reads (S (clock_reads st)) st)
      else walk_and_store W fuel directory (set_clock_reads (S (clock_reads st)) st)
    | None => walk_and_store W fuel directory st
    end.
Proof.
  unfold repo_root. unfold bind at 1. unfold get at 1.
  destruct (repo_root_cache st !! directory) as [entry|].
  - unfold bind at 1. unfold time_time at 1.
    destruct (PrimFloat.ltb _ _); [reflexivity|].
    apply walk_and_store_eq.
  - apply walk_and_store_eq.
Qed.

Section WalkFacts.
Variable P : platform.
Variable f : filesystem.

Lemma locate_absent k : forall d fuel,
  k < fuel ->
  (forall i, i <= k -> has_marker P f (ancestor P f i d) = false) ->
  parent_of P f (ancestor P f k d) = ancestor P f k d ->
  locate P f fuel d = Ok None.
Proof.
  induction k as [|k IH]; intros d fuel Hfuel Hnone Hroot;
    (destruct fuel as [|fuel]; [lia|]); cbn [locate];
    destruct (negb (PyString.nonempty d)); try reflexivity;
    pose proof (Hnone 0 ltac:(lia)) as H0; cbn in H0; rewrite H0.
  - cbn in Hroot. rewrite Hroot, String.eqb_refl. reflexivity.
  - destruct (String.eqb (parent_of P f d) d); [reflexivity|].
    apply IH; [lia| |exact Hroot].
    intros i Hi. apply (Hnone (S i)). lia.
Qed.

Lemma locate_found k : forall d fuel,
  k < fuel ->
  (forall i, i < k -> has_marker P f (ancestor P f i d) = false) ->
  (forall i, i <= k -> ancestor P f i d <> "") ->
  has_marker P f (ancestor P f k d) = true ->
  locate P f fuel d = Ok (Some (ancestor P f k d)).
Proof.
  induction k as [|k IH]; intros d fuel Hfuel Hnone Hne Hmark;
    (destruct fuel as [|fuel]; [lia|]); cbn [locate];
    (destruct d as [|c d]; [exfalso; apply (Hne 0); [lia|reflexivity]|]);
    cbn [PyString.nonempty negb].
  - cbn in Hmark. rewrite Hmark. reflexivity.
  - pose proof (Hnone 0 ltac:(lia)) as H0. cbn in H0. rewrite H0.
    destruct (String.eqb (parent_of P f (String c d)) (String c d)) eqn:Heq.
    + (* at the root every further ancestor is the root: no marker there *)
      apply String.eqb_eq in Heq.
      assert (Hfix : forall i, ancestor P f i (String c d) = String c d).
      { induction i as [|i IHi]; [reflexivity|]. cbn. rewrite Heq. exact IHi. }
      rewrite Hfix in Hmark. rewrite H0 in Hmark. discriminate.
    + apply (IH (parent_of P f (String c d))); [lia| | |exact Hmark].
      * intros i Hi. apply (Hnone (S i)). lia.
      * intros i Hi. apply (Hne (S i)). lia.
Qed.
End WalkFacts.

Lemma repo_root_walks W fuel directory st :
  fresh_entry (repo_root_cache st) directory (clock W (clock_reads st)) = None ->
  fst (repo_root W fuel directory st) = locate (host W) (fs st) fuel directory.
Proof.
  intros Hfresh. rewrite repo_root_eq. unfold fresh_entry in Hfresh.
  destruct (repo_root_cache st !! directory) as [entry|].
  - destruct (PrimFloat.ltb _ _); [discriminate|].
    unfold walk_and_store. cbn.
    destruct (locate (host W) (fs st) fuel directory); reflexivity.
  - unfold walk_and_store.
    destruct (locate (host W) (fs st) fuel directory); reflexivity.
Qed.

(** C3.  Without a fresh cache entry, [repo_root] walks upward from
    [directory].  (a) If the [k]-th ancestor is the file-system root (its
    resolved parent is itself) and no directory up to it holds [.repo], the
    result is [False].  (b) If the [k]-th ancestor holds [.repo] and the
    walk gets there (no marker and no empty path before), the result is
    that ancestor.  Any fuel above [k] is enough. *)
Theorem repo_root_walks_to_root_or_marker
    (W : world) (st : state) (directory : string) (k fuel : nat) :
  k < fuel ->
  fresh_entry (repo_root_cache st) directory (clock W (clock_reads st)) = None ->
  ((forall i, i <= k ->
      has_marker (host W) (fs st) (ancestor (host W) (fs st) i directory) = false) ->
   parent_of (host W) (fs st) (ancestor (host W) (fs st) k directory)
   = ancestor (host W) (fs st) k directory ->
   fst (repo_root W fuel directory st) = Ok None)
  /\
  ((forall i, i < k ->
      has_marker (host W) (fs st) (ancestor (host W) (fs st) i directory) = false) ->
   (forall i, i <= k -> ancestor (host W) (fs st) i directory <> "") ->
   has_marker (host W) (fs st) (ancestor (host W) (fs st) k directory) = true ->
   fst (repo_root W fuel directory st)
   = Ok (Some (ancestor (host W) (fs st) k directory))).
Proof.
  intros Hfuel Hfresh. rewrite (repo_root_walks W fuel directory st Hfresh).
  split.
  - intros Hnone Hroot. exact (locate_absent _ _ k directory fuel Hfuel Hnone Hroot).
  - intros Hnone Hne Hmark.
    exact (locate_found _ _ k directory fuel Hfuel Hnone Hne Hmark).
Qed.

Lemma repo_root_walks_to_root_or_marker_witness :
  let W := Demo.session TextCommand [] in
  let st := Demo.start Demo.unlocked None in
  fst (repo_root W 4 "/home/u/notes" st) = Ok None
  /\ fst (repo_root W 4 "/home/u/aosp/frameworks" st) = Ok (Some "/home/u/aosp").
Proof.
  cbn zeta. split.
  - apply (repo_root_walks_to_root_or_marker
             (Demo.session TextCommand []) (Demo.start Demo.unlocked None)
             "/home/u/notes" 3 4); [lia|reflexivity| |reflexivity].
    intros i Hi. do 4 (destruct i as [|i]; [reflexivity|]). lia.
  - apply (repo_root_walks_to_root_or_marker
             (Demo.session TextCommand []) (Demo.start Demo.unlocked None)
             "/home/u/aosp/frameworks" 1 4); [lia|reflexivity| | |reflexivity].
    + intros i Hi. destruct i as [|i]; [reflexivity|lia].
    + intros i Hi. do 2 (destruct i as [|i]; [discriminate|]). lia.
Defined.

(** C4.  (a) A lookup that finds an entry for exactly this directory string
    whose expiry is later than the clock reading returns the cached value,
    positive or negative, and leaves everything but the clock as it was: no
    path is probed, the cache is not written.  (b) At or past the expiry
    the cached value is not used: the result and the probes are those of a
    walk over the current file system.  (c) Every walk that returns stores
    its result, [False] included, under the directory asked for, expiring 5
    seconds after the clock reading taken once the walk is done. *)
Theorem repo_root_cache_ttl
    (W : world) (st : state) (directory : string) (fuel : nat) :
  let now := clock W (clock_reads st) in
  (forall entry,
     repo_root_cache st !! directory = Some entry ->
     PrimFloat.ltb now (expires entry) = true ->
     repo_root W fuel directory st
     = (Ok (retval entry), set_clock_reads (S (clock_reads st)) st))
  /\ (forall entry,
        repo_root_cache st !! directory = Some entry ->
        PrimFloat.ltb now (expires entry) = false ->
        fst (repo_root W fuel directory st) = locate (host W) (fs st) fuel directory
        /\ probes (snd (repo_root W fuel directory st))
           = probes st ++ walk_trace (host W) (fs st) fuel directory)
  /\ (forall r,
        fresh_entry (repo_root_cache st) directory now = None ->
        locate (host W) (fs st) fuel directory = Ok r ->
        let st' := snd (repo_root W fuel directory st) in
        repo_root_cache st'
        = <[directory := {| retval := r;
                            expires :=
                              (clock W (pred (clock_reads st')) + 5)%float |}]>
            (repo_root_cache st)).
Proof.
  cbn zeta. rewrite repo_root_eq. split; [|split].
  - intros entry Hentry Hlt. rewrite Hentry, Hlt. reflexivity.
  - intros entry Hentry Hle. rewrite Hentry, Hle.
    unfold walk_and_store. cbn.
    destruct (locate (host W) (fs st) fuel directory); split; reflexivity.
  - intros r Hfresh Hwalk. unfold fresh_entry in Hfresh.
    destruct (repo_root_cache st !! directory) as [entry|].
    + destruct (PrimFloat.ltb _ _); [discriminate|].
      unfold walk_and_store. cbn. rewrite Hwalk. reflexivity.
    + unfold walk_and_store. rewrite Hwalk. reflexivity.
Qed.

Lemma repo_root_cache_ttl_witness :
  let W := Demo.session TextCommand [] in
  repo_root W 4 Demo.frameworks (Demo.with_negative_entry 0)
  = (Ok None, Demo.with_negative_entry 1)
  /\ fst (repo_root W 4 Demo.frameworks (Demo.with_negative_entry 3))
     = Ok (Some "/home/u/aosp")
  /\ repo_root_cache (snd (repo_root W 4 Demo.frameworks (Demo.with_negative_entry 3)))
     = <[Demo.frameworks := {| retval := Some "/home/u/aosp";
                               expires := 1700000009%float |}]>
         (repo_root_cache (Demo.with_negative_entry 3)).
Proof.
  cbn zeta.
  destruct (repo_root_cache_ttl (Demo.session TextCommand [])
              (Demo.with_negative_entry 0) Demo.frameworks 4) as (Hhit & _ & _).
  destruct (repo_root_cache_ttl (Demo.session TextCommand [])
              (Demo.with_negative_entry 3) Demo.frameworks 4) as (_ & Hexpired & Hstore).
  split; [|split].
  - rewrite (Hhit Demo.negative_entry);
      [reflexivity|vm_compute; reflexivity|vm_compute; reflexivity].
  - destruct (Hexpired Demo.negative_entry) as [Hwalk _];
      [vm_compute; reflexivity|vm_compute; reflexivity|].
    rewrite Hwalk. vm_compute. reflexivity.
  - rewrite (Hstore (Some "/home/u/aosp")); [|vm_compute; reflexivity|vm_compute; reflexivity].
    reflexivity.
Defined.

(** ** Dispatch: [run_command] *)

Lemma repo_root_result_local W fuel d st st' :
  fs st = fs st' -> repo_root_cache st = repo_root_cache st' ->
  clock_reads st = clock_reads st' ->
  fst (repo_root W fuel d st) = fst (repo_root W fuel d st').
Proof.
  intros Hf Hc Hn. rewrite !repo_root_eq. rewrite <- Hc, <- Hn.
  unfold walk_and_store. cbn. rewrite <- Hf.
  destruct (repo_root_cache st !! d) as [entry|].
  - destruct (PrimFloat.ltb _ _); [reflexivity|].
    destruct (locate (host W) (fs st) fuel d); reflexivity.
  - destruct (locate (host W) (fs st) fuel d); reflexivity.
Qed.

Lemma repo_root_frame W fuel d st : same_ui st (snd (repo_root W fuel d st)).
Proof.
  rewrite repo_root_eq. unfold walk_and_store.
  destruct (repo_root_cache st !! d) as [entry|].
  - destruct (PrimFloat.ltb _ _); [split; reflexivity|]. cbn.
    destruct (locate (host W) (fs st) fuel d); split; reflexivity.
  - destruct (locate (host W) (fs st) fuel d); split; reflexivity.
Qed.

Lemma lookup_snoc {A} (l : list A) (x : A) : (l ++ [x]) !! length l = Some x.
Proof. apply list_lookup_middle. reflexivity. Qed.

Lemma insert_snoc {A} (l : list A) (x y : A) : <[length l := y]> (l ++ [x]) = l ++ [y].
Proof.
  rewrite insert_app_r_alt by lia. rewrite Nat.sub_diag. reflexivity.
Qed.


Lemma bind_ok {A B} (c : M A) (k : A -> M B) st a st' :
  c st = (Ok a, st') -> bind c k st = k a st'.
Proof. intros H. unfold bind. rewrite H. reflexivity. Qed.

Ltac simpl_state :=
  cbn [fs clock_reads cwd repo_root_cache commands_working counter_writes
       store active may_change_files has_output_view repo_panel visible_panel
       timers threads events probes
       set_fs set_clock_reads set_cwd set_repo_root_cache set_commands_working
       set_counter_writes set_store set_active set_may_change_files
       set_has_output_view set_repo_panel set_visible_panel set_timers
       set_threads set_events set_probes] in *.

Ltac step_by tac := erewrite bind_ok; [|tac]; cbn beta.

Lemma item0_eq r x tl st :
  store st !! r = Some (x :: tl) -> item0 r st = (Ok x, st).
Proof. intros H. unfold item0, deref, bind. rewrite H. reflexivity. Qed.

Lemma set_item0_eq r x tl y st :
  store st !! r = Some (x :: tl) ->
  set_item0 r y st = (Ok tt, set_store (<[r := y :: tl]> (store st)) st).
Proof. intros H. unfold set_item0, deref, bind. rewrite H. reflexivity. Qed.

Lemma get_working_dir_text W st v f :
  self_class W = TextCommand -> active st = Some v -> file_name v = Some f ->
  get_working_dir W st
  = (Ok (fs_realpath (fs st) (path_dirname (host W) f)),
     set_probes (probes st ++ [path_dirname (host W) f]) st).
Proof.
  intros Hc Hv Hf. unfold get_working_dir, active_view, os_path_realpath.
  rewrite Hc. unfold_m. rewrite Hv, Hf. reflexivity.
Qed.

Lemma os_path_exists_eq p st :
  os_path_exists p st = (Ok (exists_in (fs st) p), set_probes (probes st ++ [p]) st).
Proof. reflexivity. Qed.

(** The lock gate of [run_command].  Without the lock file the gate is
    passed with one probe.  With it, the message is printed and the call of
    [do_when] fails to bind its arguments: the gate raises [TypeError], and
    nothing has been put on the timer. *)
Lemma lock_gate_eq W root (callback : M unit) c cb show_status filt no_save wait kw st :
  (let* locked := os_path_exists (lock_path W root) in
   when locked
     (emit (EvPrint "waiting for index.lock") >>>
      do_when W (LockGone root) callback
        (DRunCommand c cb show_status filt no_save wait kw))) st
  = if exists_in (fs st) (lock_path W root)
    then (Raise TypeError,
          set_events (events st ++ [EvPrint "waiting for index.lock"])
            (set_probes (probes st ++ [lock_path W root]) st))
    else (Ok tt, set_probes (probes st ++ [lock_path W root]) st).
Proof.
  unfold do_when, os_path_exists. unfold_m. cbn.
  destruct (exists_in (fs st) (lock_path W root)); reflexivity.
Qed.

Lemma save_gate_eq (cond : bool) st :
  when cond (view_run_command "save") st
  = (Ok tt,
     if cond
     then set_active (set_is_dirty false <$> active st)
            (set_events (events st ++ [EvViewCommand "save"]) st)
     else st).
Proof.
  unfold view_run_command, modify_active. unfold_m. cbn.
  destruct cond; reflexivity.
Qed.

Lemma get_working_dir_eq W st :
  get_working_dir W st
  = (working_dir_of W (active st) (fs st),
     set_probes (probes st ++ working_dir_probes W (active st)) st).
Proof.
  unfold get_working_dir, working_dir_of, working_dir_probes, _active_file_name,
    active_view, os_path_realpath.
  unfold_m.
  destruct (self_class W); cbn.
  - destruct (active st) as [v|]; cbn; [|rewrite set_probes_same; reflexivity].
    destruct (file_name v); cbn; [reflexivity|rewrite set_probes_same; reflexivity].
  - destruct (active st) as [v|]; cbn.
    + destruct (PyString.truthy (file_name v)) eqn:Ht; cbn.
      * destruct (file_name v); [reflexivity|discriminate].
      * destruct (folders W); rewrite set_probes_same; reflexivity.
    + destruct (folders W); rewrite set_probes_same; reflexivity.
Qed.

Lemma set_store_insert_id c x st :
  store st !! c = Some x -> set_store (<[c := x]> (store st)) st = st.
Proof. intros H. rewrite (list_insert_id _ _ _ H). destruct st; reflexivity. Qed.

Lemma set_store_twice x y st : set_store x (set_store y st) = set_store x st.
Proof. reflexivity. Qed.

(** The three substitutions, one after the other. *)
Lemma repo_gate_eq W c a0 rest st :
  store st !! c = Some (a0 :: rest) ->
  (if String.eqb a0 "repo" then
     match truthy_value (PyString.or_else (repo_command (config W))
                           (repo_binary (config W))) with
     | Some path => set_item0 c path
     | None =>
       match truthy_value (REPO W) with
       | Some path => set_item0 c path
       | None => ret tt
       end
     end
   else ret tt) st
  = (Ok tt, set_store (<[c := resolve_repo W a0 :: rest]> (store st)) st).
Proof.
  intros H. unfold resolve_repo.
  destruct (String.eqb a0 "repo").
  - destruct (truthy_value (PyString.or_else _ _)).
    + apply (set_item0_eq c a0 rest). exact H.
    + destruct (truthy_value (REPO W)).
      * apply (set_item0_eq c a0 rest). exact H.
      * rewrite set_store_insert_id by exact H. reflexivity.
  - rewrite set_store_insert_id by exact H. reflexivity.
Qed.

Lemma setting_gate_eq c name setting a0 rest st :
  store st !! c = Some (a0 :: rest) ->
  match (if String.eqb a0 name then truthy_value setting else None) return M unit with
  | Some path => set_item0 c path
  | None => ret tt
  end st
  = (Ok tt, set_store (<[c := resolve_setting name setting a0 :: rest]> (store st)) st).
Proof.
  intros H. unfold resolve_setting.
  destruct (if String.eqb a0 name then truthy_value setting else None).
  - apply (set_item0_eq c a0 rest). exact H.
  - rewrite set_store_insert_id by exact H. reflexivity.
Qed.

Lemma lookup_after_insert (l : list (list string)) c x y :
  l !! c = Some x -> <[c := y]> l !! c = Some y.
Proof. intros H. apply list_lookup_insert_eq. exact (lookup_lt_Some _ _ _ H). Qed.

Lemma repo_root_state_local W fuel d st st' :
  fs st = fs st' -> repo_root_cache st = repo_root_cache st' ->
  clock_reads st = clock_reads st' ->
  repo_root_cache (snd (repo_root W fuel d st))
  = repo_root_cache (snd (repo_root W fuel d st'))
  /\ clock_reads (snd (repo_root W fuel d st))
     = clock_reads (snd (repo_root W fuel d st')).
Proof.
  intros Hf Hc Hn. rewrite !repo_root_eq. rewrite <- Hc, <- Hn.
  unfold walk_and_store. cbn. rewrite <- Hf, <- Hc, <- Hn.
  destruct (repo_root_cache st !! d) as [entry|].
  - destruct (PrimFloat.ltb _ _); [split; [exact Hc|cbn; congruence]|].
    destruct (locate (host W) (fs st) fuel d); cbn; split; congruence.
  - destruct (locate (host W) (fs st) fuel d); cbn; split; congruence.
Qed.

(** [run_command] up to [command[0]]: the list is filtered, the keyword
    arguments are filled in, the root is looked up, the lock gate and the
    save gate are passed. *)
Lemma bind_raise {A B} (c : M A) (k : A -> M B) st e st' :
  c st = (Raise e, st') -> bind c k st = (Raise e, st').
Proof. intros H. unfold bind. rewrite H. reflexivity. Qed.

(** [run_command] when [get_working_dir] raises. *)

(** [run_command] up to [command[0]]: the list is filtered, the keyword
    arguments are filled in and the root is looked up.  When the lock is
    seen, the call ends in the [TypeError] of the lock gate, after the
    message.  Otherwise the save gate is passed and the substitutions are
    next. *)
Lemma run_command_prefix (W : world) (fuel : nat) (command : nat)
    (cb : option callable) (show_status filt no_save wait : bool) (kw : kwargs)
    (st : state) (argv : list string) (wd : string) (r : option string) :
  store st !! command = Some argv ->
  working_dir_of W (active st) (fs st) = Ok wd ->
  fst (repo_root W fuel wd st) = Ok r ->
  let l := if filt then List.filter PyString.nonempty argv else argv in
  let c := if filt then length (store st) else command in
  let kw' := run_kwargs kw (active st) wd in
  let gate := lock_seen W wait r (fs st) in
  let saved := save_first (config W)
               && match active st with Some v => is_dirty v | None => false end
               && negb no_save in
  match gate with
  | Some _ =>
    exists sL,
      run_command W (S fuel) command cb show_status filt no_save wait kw st
      = (Raise TypeError, sL)
      /\ store sL = (if filt then store st ++ [l] else store st)
      /\ threads sL = threads st
      /\ timers sL = timers st
      /\ events sL = events st ++ [EvPrint "waiting for index.lock"]
      /\ fs sL = fs st
      /\ active sL = active st
      /\ may_change_files sL = may_change_files st
      /\ repo_panel sL = repo_panel st
      /\ visible_panel sL = visible_panel st
      /\ commands_working sL = commands_working st
  | None =>
    exists sS,
      run_command W (S fuel) command cb show_status filt no_save wait kw st
      = (let* c0 := item0 c in
         (if String.eqb c0 "repo" then
            match truthy_value (PyString.or_else (repo_command (config W))
                                  (repo_binary (config W))) with
            | Some path => set_item0 c path
            | None =>
              match truthy_value (REPO W) with
              | Some path => set_item0 c path
              | None => ret tt
              end
            end
          else ret tt) >>>
         let* c0 := item0 c in
         match (if String.eqb c0 "repok"
                then truthy_value (repok_command (config W)) else None) with
         | Some path => set_item0 c path
         | None => ret tt
         end >>>
         let* c0 := item0 c in
         match (if String.eqb c0 "repo-flow"
                then truthy_value (repo_flow_command (config W)) else None) with
         | Some path => set_item0 c path
         | None => ret tt
         end >>>
         thread_start (CommandThread_init c (default CbGenericDone cb) kw') >>>
         when show_status
           (let* argv := deref c in
            emit (EvStatusMessage
                    match truthy_value (kw_status_message kw') with
                    | Some message => message
                    | None => PyString.join_space argv
                    end))) sS
      /\ store sS = (if filt then store st ++ [l] else store st)
      /\ store sS !! c = Some l
      /\ threads sS = threads st
      /\ timers sS = timers st
      /\ events sS = events st ++ (if saved then [EvViewCommand "save"] else [])
      /\ fs sS = fs st
      /\ active sS = (if saved then set_is_dirty false <$> active st else active st)
      /\ may_change_files sS = may_change_files st
      /\ repo_panel sS = repo_panel st
      /\ visible_panel sS = visible_panel st
      /\ commands_working sS = commands_working st
      /\ repo_root_cache sS = repo_root_cache (snd (repo_root W fuel wd st))
      /\ clock_reads sS = clock_reads (snd (repo_root W fuel wd st))
  end.
Proof.
  intros Hargv Hwd Hroot l c kw' gate saved.
  cbn [run_command].
  (* command = [arg for arg in command if arg] *)
  assert (Hstep1 : exists sA,
    (if filt
     then let* l := deref command in alloc (List.filter PyString.nonempty l)
     else ret command) st = (Ok c, sA)
    /\ store sA = (if filt then store st ++ [l] else store st)
    /\ store sA !! c = Some l
    /\ same_ui (set_store (store sA) st) sA
    /\ repo_root_cache sA = repo_root_cache st
    /\ clock_reads sA = clock_reads st).
  { unfold c, l. destruct filt.
    - eexists. split.
      { unfold deref, alloc, bind. rewrite Hargv. cbn [default from_option id].
        reflexivity. }
      simpl_state. split; [reflexivity|]. split; [apply lookup_snoc|].
      split; [split; reflexivity|]. split; reflexivity.
    - exists st. split; [reflexivity|]. split; [reflexivity|].
      split; [exact Hargv|].
      split; [destruct st; split; reflexivity|]. split; reflexivity. }
  destruct Hstep1 as (sA & Hstep1 & HstoreA & Hc0 & HuiA & HcacheA & HclockA).
  destruct HuiA as [HfsA _ HcwA _ _ HactA HmayA _ HpanA HvisA HtimA HthrA HevA].
  simpl_state.
  step_by ltac:(exact Hstep1).
  clear Hstep1.
  (* kwargs['working_dir'] = self.get_working_dir() *)
  assert (Hwd' : forall s, active s = active st -> fs s = fs st ->
            get_working_dir W s
            = (Ok wd, set_probes (probes s ++ working_dir_probes W (active st)) s)).
  { intros s Ha Hf. rewrite get_working_dir_eq, Ha, Hf, Hwd. reflexivity. }
  assert (Hstep2 : exists sB,
    match kw_working_dir kw with
    | Some _ => ret kw
    | None => let* wd0 := get_working_dir W in ret (set_kw_working_dir (Some wd0) kw)
    end sA
    = (Ok match kw_working_dir kw with
          | Some _ => kw
          | None => set_kw_working_dir (Some wd) kw
          end, sB)
    /\ same_ui sA sB
    /\ repo_root_cache sB = repo_root_cache sA
    /\ clock_reads sB = clock_reads sA).
  { destruct (kw_working_dir kw).
    - exists sA. split; [reflexivity|]. split; [split; reflexivity|]. split; reflexivity.
    - eexists. split.
      { erewrite bind_ok; [|apply Hwd'; assumption]. reflexivity. }
      split; [split; reflexivity|]. split; reflexivity. }
  destruct Hstep2 as (sB & Hstep2 & HuiB & HcacheB & HclockB).
  destruct HuiB as [HfsB _ HcwB _ HstoreB HactB HmayB _ HpanB HvisB HtimB HthrB HevB].
  step_by ltac:(exact Hstep2).
  clear Hstep2.
  step_by ltac:(reflexivity).
  step_by ltac:(apply Hwd'; congruence).
  simpl_state. rewrite !HactB, !HactA. simpl_state.
  set (kwb := match kw_working_dir kw with
              | Some _ => kw
              | None => set_kw_working_dir (Some wd) kw
              end).
  assert (Hkw : match kw_fallback_encoding kwb with
                | Some _ => kwb
                | None =>
                  match active st with
                  | Some v =>
                    match truthy_value (fallback_encoding_setting v) with
                    | Some name =>
                      set_kw_fallback_encoding (Some (encoding_of_setting name)) kwb
                    | None => kwb
                    end
                  | None => kwb
                  end
                end = kw') by reflexivity.
  rewrite !Hkw. clear Hkw. clearbody kw'. clear kwb.
  (* root = repo_root(self.get_working_dir()) *)
  match goal with |- context [bind (repo_root W fuel wd) _ ?s] =>
    assert (Hloc : fst (repo_root W fuel wd s) = fst (repo_root W fuel wd st));
    [ apply repo_root_result_local; simpl_state; congruence |];
    assert (Hst : repo_root_cache (snd (repo_root W fuel wd s))
                  = repo_root_cache (snd (repo_root W fuel wd st))
                  /\ clock_reads (snd (repo_root W fuel wd s))
                     = clock_reads (snd (repo_root W fuel wd st)));
    [ apply repo_root_state_local; simpl_state; congruence |];
    pose proof (repo_root_frame W fuel wd s) as Hfr;
    destruct (repo_root W fuel wd s) as [r' sE] eqn:Hrr
  end.
  cbn [fst snd] in Hloc, Hfr, Hst. destruct Hst as [HcacheE HclockE].
  rewrite Hroot in Hloc. subst r'.
  destruct Hfr as [HfsE _ HcwE _ HstoreE HactE HmayE _ HpanE HvisE HtimE HthrE HevE].
  simpl_state.
  step_by ltac:(exact Hrr).
  assert (HfsE' : fs sE = fs st) by (rewrite HfsE; simpl_state; congruence).
  assert (HstoreE' : store sE = store sA) by (rewrite HstoreE; simpl_state; congruence).
  (* the lock gate *)
  assert (Hgate : exists res sG,
    match (if wait then truthy_value r else None) return M unit with
    | Some root =>
      let* locked := os_path_exists (lock_path W root) in
      when locked
        (emit (EvPrint "waiting for index.lock") >>>
         do_when W (LockGone root)
           (run_command W fuel c cb show_status filt no_save wait kw')
           (DRunCommand c cb show_status filt no_save wait kw'))
    | None => ret tt
    end sE = (res, sG)
    /\ res = match gate with Some _ => Raise TypeError | None => Ok tt end
    /\ events sG = events sE ++
         match gate with
         | Some _ => [EvPrint "waiting for index.lock"]
         | None => []
         end
    /\ timers sG = timers sE
    /\ store sG = store sE /\ active sG = active sE /\ fs sG = fs sE
    /\ may_change_files sG = may_change_files sE
    /\ repo_panel sG = repo_panel sE /\ visible_panel sG = visible_panel sE
    /\ commands_working sG = commands_working sE /\ threads sG = threads sE
    /\ repo_root_cache sG = repo_root_cache sE /\ clock_reads sG = clock_reads sE).
  { unfold gate, lock_seen.
    destruct (if wait then truthy_value r else None) as [root|].
    - rewrite lock_gate_eq, HfsE'.
      destruct (exists_in (fs st) (lock_path W root)); eexists _, _;
        (split; [reflexivity|]); simpl_state;
        rewrite ?app_nil_r; repeat split; try reflexivity; assumption.
    - exists (Ok tt), sE. rewrite !app_nil_r. repeat split; reflexivity. }
  destruct Hgate as (res & sG & Hgate & Hres & HevG & HtimG & HstoreG & HactG & HfsG
                     & HmayG & HpanG & HvisG & HcwG & HthrG & HcacheG & HclockG).
  destruct gate as [seen|].
  - (* the lock is seen *)
    subst res. erewrite bind_raise; [|exact Hgate].
    exists sG. split; [reflexivity|].
    rewrite HevG, HevE, HevB, HevA.
    repeat split; simpl_state; congruence.
  - subst res. rewrite app_nil_r in HevG.
    step_by ltac:(exact Hgate). clear Hgate.
    step_by ltac:(reflexivity).
    step_by ltac:(apply save_gate_eq).
    assert (Hact : active sG = active st)
      by (rewrite HactG, HactE; simpl_state; congruence).
    rewrite Hact. fold saved.
    match goal with |- context [bind (item0 c) _ ?s] => exists s end.
    split; [reflexivity|].
    destruct saved; simpl_state;
      rewrite ?HevG, ?HevE, ?HevB, ?HevA, <- ?app_assoc, ?app_nil_r;
      repeat split; congruence.
Qed.

(** A call that sees no lock, on a vector that is not empty. *)
Lemma run_command_dispatch (W : world) (fuel : nat) (command : nat)
    (cb : option callable) (show_status filt no_save wait : bool) (kw : kwargs)
    (st : state) (argv : list string) (a0 : string) (rest : list string)
    (wd : string) (r : option string) :
  store st !! command = Some argv ->
  (if filt then List.filter PyString.nonempty argv else argv) = a0 :: rest ->
  working_dir_of W (active st) (fs st) = Ok wd ->
  fst (repo_root W fuel wd st) = Ok r ->
  lock_seen W wait r (fs st) = None ->
  let c := if filt then length (store st) else command in
  let kw' := run_kwargs kw (active st) wd in
  let saved := save_first (config W)
               && match active st with Some v => is_dirty v | None => false end
               && negb no_save in
  exists st1,
    run_command W (S fuel) command cb show_status filt no_save wait kw st = (Ok tt, st1)
    /\ store st1 = <[c := resolved_head W a0 :: rest]>
                     (if filt then store st ++ [a0 :: rest] else store st)
    /\ threads st1 = threads st ++
         [CommandThread_init c (default CbGenericDone cb) kw']
    /\ timers st1 = timers st
    /\ events st1 = events st ++
         (if saved then [EvViewCommand "save"] else []) ++
         (if show_status
          then [EvStatusMessage
                  match truthy_value (kw_status_message kw') with
                  | Some message => message
                  | None => PyString.join_space (resolved_head W a0 :: rest)
                  end]
          else [])
    /\ fs st1 = fs st
    /\ active st1 = (if saved then set_is_dirty false <$> active st else active st)
    /\ may_change_files st1 = may_change_files st
    /\ repo_panel st1 = repo_panel st
    /\ visible_panel st1 = visible_panel st
    /\ commands_working st1 = commands_working st
    /\ repo_root_cache st1 = repo_root_cache (snd (repo_root W fuel wd st))
    /\ clock_reads st1 = clock_reads (snd (repo_root W fuel wd st)).
Proof.
  intros Hargv Hfilt Hwd Hroot Hlock c kw' saved.
  pose proof (run_command_prefix W fuel command cb show_status filt no_save wait kw
                st argv wd r Hargv Hwd Hroot) as Hpre.
  cbn zeta in Hpre. rewrite Hlock in Hpre.
  destruct Hpre
    as (sS & Hrun & HsS & Hl0 & Hthr & Htim & Hev & Hfs & Hact' & Hmay & Hpan & Hvis
        & Hcw & Hcache & Hclock).
  fold c kw' saved in Hrun, HsS, Hl0, Hev, Hact'.
  rewrite Hfilt in HsS, Hl0. rewrite Hrun. clear Hrun.
  step_by ltac:(apply (item0_eq c a0 rest); exact Hl0).
  step_by ltac:(apply (repo_gate_eq W c a0 rest); exact Hl0).
  step_by ltac:(apply (item0_eq c (resolve_repo W a0) rest); simpl_state;
                apply (lookup_after_insert _ _ _ _ Hl0)).
  step_by ltac:(apply (setting_gate_eq c "repok" (repok_command (config W))
                         (resolve_repo W a0) rest); simpl_state;
                apply (lookup_after_insert _ _ _ _ Hl0)).
  simpl_state. rewrite list_insert_insert_eq.
  step_by ltac:(apply (item0_eq c (resolve_setting "repok" (repok_command (config W))
                                     (resolve_repo W a0)) rest); simpl_state;
                apply (lookup_after_insert _ _ _ _ Hl0)).
  step_by ltac:(apply (setting_gate_eq c "repo-flow" (repo_flow_command (config W))
                         (resolve_setting "repok" (repok_command (config W))
                            (resolve_repo W a0)) rest); simpl_state;
                apply (lookup_after_insert _ _ _ _ Hl0)).
  simpl_state. rewrite list_insert_insert_eq.
  fold (resolved_head W a0).
  step_by ltac:(reflexivity).
  unfold when, deref, emit, modify, bind. simpl_state.
  destruct show_status; cbn beta iota; unfold ret; eexists;
    (split; [reflexivity|]); simpl_state;
    rewrite ?(lookup_after_insert _ _ _ _ Hl0); cbn [default from_option id];
    rewrite HsS, Hthr, Htim, Hev, Hfs, Hact', Hmay, Hpan, Hvis, Hcw, Hcache, Hclock;
    rewrite <- ?app_assoc, ?app_nil_r;
    repeat split; reflexivity.
Qed.

(** A call that sees no lock, on a vector that is empty when [command[0]]
    is read. *)
Lemma run_command_empty (W : world) (fuel : nat) (command : nat)
    (cb : option callable) (show_status filt no_save wait : bool) (kw : kwargs)
    (st : state) (argv : list string) (wd : string) (r : option string) :
  store st !! command = Some argv ->
  (if filt then List.filter PyString.nonempty argv else argv) = [] ->
  working_dir_of W (active st) (fs st) = Ok wd ->
  fst (repo_root W fuel wd st) = Ok r ->
  lock_seen W wait r (fs st) = None ->
  let saved := save_first (config W)
               && match active st with Some v => is_dirty v | None => false end
               && negb no_save in
  exists st1,
    run_command W (S fuel) command cb show_status filt no_save wait kw st
    = (Raise IndexError, st1)
    /\ threads st1 = threads st
    /\ events st1 = events st ++ (if saved then [EvViewCommand "save"] else [])
    /\ active st1 = (if saved then set_is_dirty false <$> active st else active st).
Proof.
  intros Hargv Hfilt Hwd Hroot Hlock saved.
  pose proof (run_command_prefix W fuel command cb show_status filt no_save wait kw
                st argv wd r Hargv Hwd Hroot) as Hpre.
  cbn zeta in Hpre. rewrite Hlock in Hpre.
  destruct Hpre as (sS & Hrun & HsS & Hl0 & Hthr & Htim & Hev & Hfs & Hact' & _).
  rewrite Hfilt in Hl0. rewrite Hrun.
  exists sS. split.
  - unfold item0, deref, bind. rewrite Hl0. reflexivity.
  - repeat split; assumption.
Qed.

(** A call that sees the lock. *)
Lemma run_command_locked (W : world) (fuel : nat) (command : nat)
    (cb : option callable) (show_status filt no_save wait : bool) (kw : kwargs)
    (st : state) (argv : list string) (wd : string) (r : option string)
    (root : string) :
  store st !! command = Some argv ->
  working_dir_of W (active st) (fs st) = Ok wd ->
  fst (repo_root W fuel wd st) = Ok r ->
  lock_seen W wait r (fs st) = Some root ->
  exists st1,
    run_command W (S fuel) command cb show_status filt no_save wait kw st
    = (Raise TypeError, st1)
    /\ store st1 = (if filt then store st ++ [List.filter PyString.nonempty argv]
                    else store st)
    /\ threads st1 = threads st
    /\ timers st1 = timers st
    /\ events st1 = events st ++ [EvPrint "waiting for index.lock"]
    /\ fs st1 = fs st
    /\ active st1 = active st
    /\ may_change_files st1 = may_change_files st
    /\ repo_panel st1 = repo_panel st
    /\ visible_panel st1 = visible_panel st
    /\ commands_working st1 = commands_working st.
Proof.
  intros Hargv Hwd Hroot Hlock.
  pose proof (run_command_prefix W fuel command cb show_status filt no_save wait kw
                st argv wd r Hargv Hwd Hroot) as Hpre.
  cbn zeta in Hpre. rewrite Hlock in Hpre.
  destruct Hpre as (sL & Hrun & HsL & Hrest).
  exists sL. split; [exact Hrun|]. split; [|exact Hrest].
  rewrite HsL. destruct filt; reflexivity.
Qed.

(** [run_command] when [get_working_dir] raises. *)
Lemma run_command_working_dir_error (W : world) (fuel : nat) (command : nat)
    (cb : option callable) (show_status filt no_save wait : bool) (kw : kwargs)
    (st : state) (e : exn) :
  working_dir_of W (active st) (fs st) = Raise e ->
  exists st1,
    run_command W (S fuel) command cb show_status filt no_save wait kw st
    = (Raise e, st1)
    /\ threads st1 = threads st
    /\ timers st1 = timers st
    /\ events st1 = events st
    /\ active st1 = active st.
Proof.
  intros Hwd. cbn [run_command].
  assert (Hwd' : forall s, active s = active st -> fs s = fs st ->
            get_working_dir W s
            = (Raise e, set_probes (probes s ++ working_dir_probes W (active st)) s)).
  { intros s Ha Hf. rewrite get_working_dir_eq, Ha, Hf, Hwd. reflexivity. }
  assert (Hstep1 : exists c sA,
    (if filt
     then let* l := deref command in alloc (List.filter PyString.nonempty l)
     else ret command) st = (Ok c, sA)
    /\ same_ui (set_store (store sA) st) sA).
  { destruct filt.
    - eexists _, _. split; [reflexivity|]. split; reflexivity.
    - exists command, st. split; [reflexivity|]. destruct st; split; reflexivity. }
  destruct Hstep1 as (c & sA & Hstep1 & HuiA).
  destruct HuiA as [HfsA _ _ _ _ HactA _ _ _ _ HtimA HthrA HevA].
  simpl_state.
  step_by ltac:(exact Hstep1). clear Hstep1.
  destruct (kw_working_dir kw).
  - step_by ltac:(reflexivity).
    step_by ltac:(reflexivity).
    erewrite bind_raise; [|apply Hwd'; assumption].
    eexists. split; [reflexivity|]. simpl_state. repeat split; assumption.
  - erewrite bind_raise;
      [|erewrite bind_raise; [reflexivity|apply Hwd'; assumption]].
    eexists. split; [reflexivity|]. simpl_state. repeat split; assumption.
Qed.

(** [RepoSyncCommand.run] in a checkout without a lock. *)
Lemma sync_dispatch W st v f fuel root :
  self_class W = TextCommand ->
  truthy_value (PyString.or_else (repo_command (config W)) (repo_binary (config W))) = None ->
  REPO W = Some "/usr/local/bin/repo" ->
  active st = Some v ->
  file_name v = Some f ->
  let wd := fs_realpath (fs st) (path_dirname (host W) f) in
  fst (repo_root W fuel wd st) = Ok (Some root) ->
  PyString.nonempty root = true ->
  exists_in (fs st) (lock_path W root) = false ->
  let c := S (length (store st)) in
  let kw := sync_kwargs wd v in
  exists st1,
    RepoSyncCommand_run W (S fuel) st = (Ok tt, st1)
    /\ store st1 = store st ++ [["repo"; "sync"]; ["/usr/local/bin/repo"; "sync"]]
    /\ threads st1 = threads st ++ [CommandThread_init c CbGenericDone kw]
    /\ timers st1 = timers st
    /\ events st1 = events st ++
         (if save_first (config W) && is_dirty v
          then [EvViewCommand "save"] else []) ++
         [EvStatusMessage "/usr/local/bin/repo sync"]
    /\ fs st1 = fs st
    /\ may_change_files st1 = may_change_files st
    /\ repo_panel st1 = repo_panel st
    /\ visible_panel st1 = visible_panel st
    /\ commands_working st1 = commands_working st.
Proof.
  intros Hclass Hover Hrepo Hview Hfile wd Hroot Hne Hlock c kw.
  unfold RepoSyncCommand_run.
  step_by ltac:(reflexivity).
  set (sa := set_store (store st ++ [["repo"; "sync"]]) st).
  assert (Hwd : working_dir_of W (active sa) (fs sa) = Ok wd).
  { unfold working_dir_of. rewrite Hclass. unfold sa. simpl_state.
    rewrite Hview, Hfile. reflexivity. }
  assert (Hroot_a : fst (repo_root W fuel wd sa) = Ok (Some root)).
  { rewrite <- Hroot. apply repo_root_result_local; reflexivity. }
  assert (Hseen : lock_seen W true (Some root) (fs sa) = None).
  { unfold lock_seen, truthy_value. cbn [PyString.truthy]. rewrite Hne.
    unfold sa. simpl_state. rewrite Hlock. reflexivity. }
  destruct (run_command_dispatch W fuel (length (store st)) None true true false true
              no_kwargs sa ["repo"; "sync"] "repo" ["sync"] wd (Some root)
              ltac:(apply lookup_snoc) eq_refl Hwd Hroot_a Hseen)
    as (st1 & Hrun & Hstore & Hthr & Htim & Hev & Hfs & _ & Hmay & Hpan & Hvis & Hcw & _).
  assert (Hhead : resolved_head W "repo" = "/usr/local/bin/repo").
  { unfold resolved_head, resolve_repo. cbn [String.eqb Ascii.eqb Bool.eqb].
    rewrite Hover, Hrepo. reflexivity. }
  assert (Hkw : run_kwargs no_kwargs (active sa) wd = kw).
  { unfold run_kwargs, kw, sync_kwargs, sa. simpl_state. rewrite Hview. cbn.
    destruct (truthy_value (fallback_encoding_setting v)); reflexivity. }
  assert (Hc : length (store sa) = c).
  { unfold sa, c. simpl_state. rewrite length_app. cbn. lia. }
  rewrite Hhead, Hkw, Hc in *.
  exists st1. split; [exact Hrun|].
  split.
  { rewrite Hstore, <- Hc, insert_snoc. unfold sa. simpl_state.
    rewrite <- app_assoc. reflexivity. }
  split; [exact Hthr|]. split; [exact Htim|].
  split.
  { rewrite Hev. unfold sa. simpl_state. rewrite Hview, andb_true_r.
    unfold kw, sync_kwargs. reflexivity. }
  repeat split; assumption.
Qed.

(** ** From the thread to the panel *)

Lemma try_block_captured W os t st env out text :
  PyString.nonempty (t_working_dir t) = true ->
  chdir_error os = None ->
  popen_env W = Ok env ->
  launch os = Captured (Some out) ->
  out <> [] ->
  _make_text_safeish (codecs W) (VBytes out) (t_fallback_encoding t) = Ok (VStr text) ->
  try_block W os t st
  = (VStr text, None,
     set_events
       (events st ++
        [EvPopen {| sp_argv := default [] (store st !! t_command t);
                    sp_cwd := t_working_dir t;
                    sp_shell := sublime_windows (host W);
                    sp_hide_window := os_name_nt (host W);
                    sp_env := env;
                    sp_stdin := t_stdin t;
                    sp_stdout := t_stdout t |}])
       (set_cwd (t_working_dir t) st)).
Proof.
  intros Hwd Hc He Hl Hout Hdec. unfold try_block.
  rewrite Hwd, Hc, He, Hl.
  destruct out as [|b r]; [congruence|].
  rewrite Hdec. reflexivity.
Qed.

Lemma run_thread_captured W os t st i env out text :
  threads st !! i = Some t ->
  isdir_in (fs st) (t_working_dir t) = true ->
  chdir_error os = None ->
  popen_env W = Ok env ->
  launch os = Captured (Some out) ->
  out <> [] ->
  _make_text_safeish (codecs W) (VBytes out) (t_fallback_encoding t) = Ok (VStr text) ->
  exists st',
    run_thread W os i st = (Ok tt, st')
    /\ popen_calls (events st') =
         popen_calls (events st) ++
         [{| sp_argv := default [] (store st !! t_command t);
             sp_cwd := t_working_dir t;
             sp_shell := sublime_windows (host W);
             sp_hide_window := os_name_nt (host W);
             sp_env := env;
             sp_stdin := t_stdin t;
             sp_stdout := t_stdout t |}]
    /\ timers st' = timers st ++ [(0, TCallback (t_on_done t) (VStr text) (t_kwargs t))]
    /\ threads st' = delete i (threads st)
    /\ commands_working st' = commands_working st
    /\ active st' = active st
    /\ may_change_files st' = may_change_files st.
Proof.
  intros Ht Hd Hc He Hl Hout Hdec.
  assert (Hwd : PyString.nonempty (t_working_dir t) = true).
  { unfold isdir_in in Hd. apply andb_true_iff in Hd. tauto. }
  unfold run_thread. unfold bind at 1. unfold get at 1. rewrite Ht.
  unfold bind at 1. unfold modify at 1.
  pose proof (run_with_directory W os t (set_threads (delete i (threads st)) st) Hd)
    as Hrun. cbn zeta in Hrun.
  rewrite (try_block_captured W os t _ env out text Hwd Hc He Hl Hout Hdec) in Hrun.
  cbn [handlers] in Hrun. rewrite Hrun.
  eexists. split; [reflexivity|]. simpl_state.
  unfold popen_calls. rewrite omap_app. cbn.
  repeat split; try reflexivity. lia.
Qed.

Lemma generic_done_shows W text st :
  self_class W = TextCommand ->
  may_change_files st = false ->
  PyString.blank text = false ->
  exists st',
    generic_done W (VStr text) st = (Ok tt, st')
    /\ (content <$> repo_panel st') = Some text
    /\ visible_panel st' = Some "output.repo".
Proof.
  intros Hclass Hmay Hblank. unfold generic_done.
  step_by ltac:(reflexivity). rewrite Hmay.
  step_by ltac:(reflexivity).
  step_by ltac:(reflexivity).
  rewrite Hblank, Hclass.
  assert (Hannot : exists st0,
    match active st with
    | Some v => when (live_repo_annotations v) (view_run_command "repo_annotate")
    | None => ret tt
    end st = (Ok tt, st0)).
  { destruct (active st) as [v|]; [|eexists; reflexivity].
    destruct (live_repo_annotations v); eexists; reflexivity. }
  destruct Hannot as [st0 Hannot].
  step_by ltac:(exact Hannot).
  destruct (panel_writes text st0) as (st' & Hrun & Hc & _ & _ & Hv & _).
  exists st'. tauto.
Qed.

Lemma fire_generic_done W fuel i text kw st :
  timers st !! i = Some (0, TCallback CbGenericDone (VStr text) kw) ->
  self_class W = TextCommand ->
  may_change_files st = false ->
  PyString.blank text = false ->
  exists st',
    fire W fuel i st = (Ok tt, st')
    /\ (content <$> repo_panel st') = Some text
    /\ visible_panel st' = Some "output.repo".
Proof.
  intros Ht Hclass Hmay Hblank. unfold fire.
  step_by ltac:(reflexivity). rewrite Ht.
  step_by ltac:(reflexivity).
  apply (generic_done_shows W text _ Hclass); [exact Hmay|exact Hblank].
Qed.

Lemma lookup_snoc2 {A} (l : list A) (x y : A) :
  (l ++ [x; y]) !! length l = Some x /\ (l ++ [x; y]) !! S (length l) = Some y.
Proof.
  split.
  - apply list_lookup_middle. reflexivity.
  - replace (l ++ [x; y]) with ((l ++ [x]) ++ [y]) by (rewrite <- app_assoc; reflexivity).
    replace (S (length l)) with (length (l ++ [x])) by (rewrite length_app; cbn; lia).
    apply lookup_snoc.
Qed.

(** The [Popen] calls of the [try] block: none when [chdir] or the
    environment fails, one otherwise. *)
Lemma try_block_popen W os t st :
  popen_calls (events (snd (try_block W os t st)))
  = popen_calls (events st) ++
    match (if PyString.nonempty (t_working_dir t) then chdir_error os else None),
          popen_env W with
    | None, Ok env => [spawn_of W t st env]
    | _, _ => []
    end.
Proof.
  unfold try_block, spawn_of, popen_calls.
  destruct (if PyString.nonempty (t_working_dir t) then chdir_error os else None)
    as [[errno strerror]|]; [cbn; rewrite app_nil_r; reflexivity|].
  destruct (popen_env W) as [env|e].
  - destruct (launch os) as [errno strerror|rc|out];
      [| |destruct (_make_text_safeish _ _ _)];
      destruct (PyString.nonempty (t_working_dir t));
      cbn; rewrite omap_app; reflexivity.
  - destruct (PyString.nonempty (t_working_dir t)); cbn; rewrite app_nil_r; reflexivity.
Qed.

Lemma run_popen W os t st :
  isdir_in (fs st) (t_working_dir t) = true ->
  popen_calls (events (snd (CommandThread_run W os t st)))
  = popen_calls (events st) ++
    match chdir_error os, popen_env W with
    | None, Ok env => [spawn_of W t st env]
    | _, _ => []
    end.
Proof.
  intros Hd.
  assert (Hwd : PyString.nonempty (t_working_dir t) = true).
  { unfold isdir_in in Hd. apply andb_true_iff in Hd. tauto. }
  set (st1 := set_counter_writes (counter_writes st ++ [commands_working st + 1]%Z)
         (set_commands_working (commands_working st + 1)%Z
            (set_probes (probes st ++ [t_working_dir t]) st))).
  pose proof (try_block_popen W os t st1) as Hpopen.
  destruct (try_block W os t st1) as [[output raised] st2] eqn:Hblock.
  pose proof (run_posts W os t st Hd _ _ _ Hblock) as Hposts.
  destruct (handlers W (t_on_done t) output raised) as [[output' cb] raised'].
  destruct Hposts as (_ & _ & ->). cbn [snd] in Hpopen. rewrite Hpopen, Hwd.
  reflexivity.
Qed.

(** C8, as the code has it.  A text command bound to a file of a checkout,
    the executable resolved to [/usr/local/bin/repo] and no override
    configured, no lock file.  [RepoSyncCommand.run] builds
    [["repo"; "sync"]], defers nothing, and starts one thread on the vector
    [["/usr/local/bin/repo"; "sync"]] in the working directory; the
    substitution is done when the thread is started, before any process
    exists.  Whatever the process then does, a [Popen] call of the thread
    gets that vector and that directory, and there is exactly one such call
    when the directory exists and [chdir] and the environment do not fail.
    When the process prints something that decodes to text that is not all
    whitespace, the callback writes exactly that text to the panel and
    shows the panel. *)
Theorem sync_end_to_end
    (W : world) (st : state) (v : view) (f : string) (fuel : nat)
    (root : string) :
  self_class W = TextCommand ->
  truthy_value (PyString.or_else (repo_command (config W)) (repo_binary (config W)))
  = None ->
  REPO W = Some "/usr/local/bin/repo" ->
  active st = Some v ->
  file_name v = Some f ->
  may_change_files st = false ->
  let wd := fs_realpath (fs st) (path_dirname (host W) f) in
  fst (repo_root W fuel wd st) = Ok (Some root) ->
  PyString.nonempty root = true ->
  exists_in (fs st) (lock_path W root) = false ->
  let argv := ["/usr/local/bin/repo"; "sync"] in
  let st1 := snd (RepoSyncCommand_run W (S fuel) st) in
  store st1 !! length (store st) = Some ["repo"; "sync"]
  /\ timers st1 = timers st
  /\ (exists t,
        threads st1 = threads st ++ [t]
        /\ store st1 !! t_command t = Some argv
        /\ t_working_dir t = wd)
  /\ popen_calls (events st1) = popen_calls (events st)
  /\ (forall os,
        let st2 := snd (run_thread W os (length (threads st)) st1) in
        exists launched,
          popen_calls (events st2) = popen_calls (events st) ++ launched
          /\ (forall sp, In sp launched -> sp_argv sp = argv /\ sp_cwd sp = wd)
          /\ (isdir_in (fs st) wd = true ->
              chdir_error os = None ->
              forall env, popen_env W = Ok env -> length launched = 1))
  /\ (forall os env out text,
        isdir_in (fs st) wd = true ->
        chdir_error os = None ->
        popen_env W = Ok env ->
        launch os = Captured (Some out) ->
        out <> [] ->
        _make_text_safeish (codecs W) (VBytes out)
          (default "" (kw_fallback_encoding (sync_kwargs wd v))) = Ok (VStr text) ->
        PyString.blank text = false ->
        let st2 := snd (run_thread W os (length (threads st)) st1) in
        let st3 := snd (fire W fuel (length (timers st)) st2) in
        (content <$> repo_panel st3) = Some text
        /\ visible_panel st3 = Some "output.repo").
Proof.
  intros Hclass Hover Hrepo Hview Hfile Hmay wd Hroot Hne Hlock argv.
  destruct (sync_dispatch W st v f fuel root Hclass Hover Hrepo Hview Hfile Hroot Hne
              Hlock)
    as (st1 & Hrun1 & Hstore & Hthreads & Htimers & Hevents & Hfs & Hmay1 & _).
  fold wd in Hthreads. cbn zeta. rewrite Hrun1. cbn [snd].
  set (t := CommandThread_init (S (length (store st))) CbGenericDone (sync_kwargs wd v))
    in *.
  destruct (lookup_snoc2 (store st) ["repo"; "sync"] ["/usr/local/bin/repo"; "sync"])
    as [Hbuilt Hargv].
  rewrite <- Hstore in Hbuilt, Hargv.
  assert (Hpopen1 : popen_calls (events st1) = popen_calls (events st)).
  { rewrite Hevents. unfold popen_calls. rewrite !omap_app.
    destruct (save_first (config W) && is_dirty v); cbn; rewrite app_nil_r;
      reflexivity. }
  assert (Hlookup : threads st1 !! length (threads st) = Some t).
  { rewrite Hthreads. apply lookup_snoc. }
  split; [exact Hbuilt|]. split; [exact Htimers|].
  split; [exists t; split; [exact Hthreads|]; split; [exact Hargv|reflexivity]|].
  split; [exact Hpopen1|].
  split.
  - (* every launch *)
    intros os. unfold run_thread. unfold bind at 1. unfold get at 1.
    rewrite Hlookup. unfold bind at 1. unfold modify at 1.
    set (s := set_threads (delete (length (threads st)) (threads st1)) st1).
    destruct (isdir_in (fs s) (t_working_dir t)) eqn:Hd.
    + rewrite (run_popen W os t s Hd).
      change (events s) with (events st1). rewrite Hpopen1.
      eexists. split; [reflexivity|]. split.
      * intros sp Hin.
        destruct (chdir_error os); [contradiction|].
        destruct (popen_env W) as [env|e]; [|contradiction].
        destruct Hin as [<-|[]]. unfold spawn_of. cbn [sp_argv sp_cwd].
        change (store s !! t_command t) with (store st1 !! S (length (store st))).
        rewrite Hargv. split; [reflexivity|].
        unfold isdir_in in Hd. apply andb_true_iff in Hd as [Hnonempty _].
        rewrite Hnonempty. reflexivity.
      * intros _ Hchdir env Henv. rewrite Hchdir, Henv. reflexivity.
    + rewrite (run_without_directory W os t s Hd). cbn [snd]. simpl_state.
      change (events s) with (events st1). rewrite Hpopen1.
      exists []. rewrite app_nil_r. split; [reflexivity|]. split.
      * intros sp [].
      * intros Hdir. exfalso.
        change (fs s) with (fs st1) in Hd. rewrite Hfs in Hd.
        change (t_working_dir t) with wd in Hd. congruence.
  - (* the panel *)
    intros os env out text Hdir Hchdir Henv Hlaunch Hout Hdec Hblank.
    destruct (run_thread_captured W os t st1 (length (threads st)) env out text)
      as (st2 & Hrun2 & _ & Htimers2 & _ & _ & _ & Hmay2); try assumption.
    { rewrite Hfs. exact Hdir. }
    rewrite Hrun2. cbn [snd].
    destruct (fire_generic_done W fuel (length (timers st)) text (t_kwargs t) st2)
      as (st3 & Hrun3 & Hcontent & Hvisible); try assumption.
    { rewrite Htimers2, Htimers. apply lookup_snoc. }
    { rewrite Hmay2, Hmay1. exact Hmay. }
    rewrite Hrun3. cbn [snd]. split; assumption.
Qed.

Lemma sync_end_to_end_witness :
  let W := Demo.session TextCommand [] in
  let st := Demo.start Demo.unlocked (Some Demo.editing) in
  let os := Demo.prints Demo.latin1_output in
  let st1 := snd (RepoSyncCommand_run W 5 st) in
  let st2 := snd (run_thread W os (length (threads st)) st1) in
  let st3 := snd (fire W 4 (length (timers st)) st2) in
  store st1 !! length (store st) = Some ["repo"; "sync"]
  /\ timers st1 = timers st
  /\ (exists launched,
        popen_calls (events st2) = popen_calls (events st) ++ launched
        /\ length launched = 1
        /\ forall sp, In sp launched ->
             sp_argv sp = ["/usr/local/bin/repo"; "sync"]
             /\ sp_cwd sp = fs_realpath (fs st) (path_dirname (host W) Demo.android_mk))
  /\ (content <$> repo_panel st3) = Some [104%N; 233%N; 10%N]
  /\ visible_panel st3 = Some "output.repo".
Proof.
  intros W st os st1 st2 st3.
  destruct (sync_end_to_end W st Demo.editing Demo.android_mk 4 "/home/u/aosp")
    as (Hbuilt & Htimers & _ & _ & Hlaunch & Hpanel);
    try (vm_compute; reflexivity).
  split; [exact Hbuilt|]. split; [exact Htimers|]. split.
  - destruct (Hlaunch os) as (launched & Hcalls & Hargv & Hone).
    exists launched. split; [exact Hcalls|]. split; [|exact Hargv].
    apply (Hone ltac:(vm_compute; reflexivity) eq_refl {[ "PATH" := "/usr/bin:/bin" ]}).
    vm_compute. reflexivity.
  - apply (Hpanel os {[ "PATH" := "/usr/bin:/bin" ]} Demo.latin1_output
             [104%N; 233%N; 10%N]);
      try (vm_compute; reflexivity).
    discriminate.
Defined.

(** C8, as the specification words it, fails: a sync that prints only a
    newline leaves the panel untouched and hidden. *)
Lemma blank_sync_output_stays_out_of_panel :
  ~ sync_output_always_reaches_panel.
Proof.
  intros H.
  destruct (H [Byte.x0a] [10%N] eq_refl) as [Hcontent _].
  vm_compute in Hcontent. discriminate Hcontent.
Qed.

(** ** The lock wait *)

Example sync_without_lock_spawns_once :
  let W := Demo.session TextCommand [] in
  let st :=
    Demo.steps
      [RepoSyncCommand_run W 5; run_thread W (Demo.prints [Byte.x6f; Byte.x6b]) 0;
       fire W 5 0]
      (Demo.start Demo.unlocked (Some Demo.editing)) in
  map sp_argv (popen_calls (events st)) = [["/usr/local/bin/repo"; "sync"]]
  /\ timers st = [] /\ threads st = [].
Proof. vm_compute. repeat split. Qed.

(** C1, on the code.  The index lock is there when [repo sync] is issued.
    The call prints its message and then fails: the call of [do_when]
    passes [callback] as a keyword although the second positional
    argument is already bound to that parameter, which is a [TypeError].
    Nothing has been put on the timer and no thread has been started, so
    no process is launched while the lock exists, and none is launched
    once the lock is gone either: the command is lost. *)
Theorem lock_wait_loses_the_command :
  let W := Demo.session TextCommand [] in
  let ok := Demo.prints [Byte.x6f; Byte.x6b] in
  let issued := RepoSyncCommand_run W 5 (Demo.start Demo.locked (Some Demo.editing)) in
  let while_locked := Demo.steps [fire W 5 0; run_thread W ok 0] (snd issued) in
  let afterwards :=
    Demo.steps [modify (env_set_exists Demo.lock false); fire W 5 0; run_thread W ok 0]
      while_locked in
  fst issued = Raise TypeError
  /\ events (snd issued) = [EvPrint "waiting for index.lock"]
  /\ timers (snd issued) = []
  /\ threads (snd issued) = []
  /\ exists_in (fs while_locked) Demo.lock = true
  /\ popen_calls (events while_locked) = []
  /\ exists_in (fs afterwards) Demo.lock = false
  /\ popen_calls (events afterwards) = [].
Proof. vm_compute. repeat split. Qed.

(** ** A window command in an empty window *)

Example window_command_without_folder_is_dropped :
  let W := Demo.session WindowCommand [] in
  let st :=
    Demo.steps
      [(let* command := alloc ["repo"; "status"] in
        run_command W 5 command None true true false true no_kwargs);
       run_thread W (Demo.prints [Byte.x6f; Byte.x6b]) 0]
      (Demo.start Demo.unlocked None) in
  popen_calls (events st) = []
  /\ timers st = []
  /\ threads st = []
  /\ events st = [EvStatusMessage "/usr/local/bin/repo status"].
Proof. vm_compute. repeat split. Qed.

(** * Further properties *)

(** ** More on the repo-root locator *)

Section LocateFacts.
Variable P : platform.
Variable f : filesystem.

(** What a walk that answers has seen. *)
Lemma locate_some fuel : forall d r,
  locate P f fuel d = Ok (Some r) ->
  exists k, k < fuel
    /\ r = ancestor P f k d
    /\ r <> ""
    /\ has_marker P f r = true
    /\ forall i, i < k -> has_marker P f (ancestor P f i d) = false.
Proof.
  induction fuel as [|fuel IH]; intros d r H; [discriminate|].
  cbn [locate] in H.
  destruct d as [|c d]; [discriminate|]. cbn [PyString.nonempty negb] in H.
  destruct (has_marker P f (String c d)) eqn:Hm.
  - injection H as <-. exists 0. repeat split; try lia; try assumption.
    discriminate.
  - destruct (String.eqb (parent_of P f (String c d)) (String c d)); [discriminate|].
    destruct (IH _ _ H) as (k & Hk & -> & Hne & Hmark & Hbefore).
    exists (S k). repeat split; try lia; try assumption.
    intros i Hi. destruct i as [|i]; [exact Hm|]. apply Hbefore. lia.
Qed.

Lemma locate_none fuel : forall d,
  locate P f fuel d = Ok None ->
  exists k, k < fuel
    /\ (ancestor P f k d = ""
        \/ parent_of P f (ancestor P f k d) = ancestor P f k d
           /\ has_marker P f (ancestor P f k d) = false)
    /\ forall i, i < k -> has_marker P f (ancestor P f i d) = false.
Proof.
  induction fuel as [|fuel IH]; intros d H; [discriminate|].
  cbn [locate] in H.
  destruct d as [|c d].
  { exists 0. repeat split; try lia. left. reflexivity. }
  cbn [PyString.nonempty negb] in H.
  destruct (has_marker P f (String c d)) eqn:Hm; [discriminate|].
  destruct (String.eqb (parent_of P f (String c d)) (String c d)) eqn:Heq.
  - apply String.eqb_eq in Heq. exists 0. repeat split; try lia.
    right. split; assumption.
  - destruct (IH _ H) as (k & Hk & Hend & Hbefore).
    exists (S k). repeat split; try lia; try assumption.
    intros i Hi. destruct i as [|i]; [exact Hm|]. apply Hbefore. lia.
Qed.
End LocateFacts.

(** X1.  What a walking lookup returns is the nearest marked ancestor:
    a directory that [repo_root] returns is a non-empty path reached from
    [directory] by going up [k] times, it holds [.repo], and no directory
    closer to [directory] does.  When the lookup returns [False], the walk
    ended at an empty path or at the unmarked file-system root, and no
    directory before it holds [.repo]. *)
Theorem repo_root_returns_nearest_marker
    (W : world) (st : state) (directory : string) (fuel : nat) :
  fresh_entry (repo_root_cache st) directory (clock W (clock_reads st)) = None ->
  let P := host W in
  let f := fs st in
  (forall r,
     fst (repo_root W fuel directory st) = Ok (Some r) ->
     exists k, k < fuel
       /\ r = ancestor P f k directory
       /\ r <> ""
       /\ has_marker P f r = true
       /\ forall i, i < k -> has_marker P f (ancestor P f i directory) = false)
  /\ (fst (repo_root W fuel directory st) = Ok None ->
      exists k, k < fuel
        /\ (ancestor P f k directory = ""
            \/ parent_of P f (ancestor P f k directory) = ancestor P f k directory
               /\ has_marker P f (ancestor P f k directory) = false)
        /\ forall i, i < k -> has_marker P f (ancestor P f i directory) = false).
Proof.
  intros Hfresh. cbn zeta. rewrite (repo_root_walks W fuel directory st Hfresh).
  split.
  - intros r H. exact (locate_some _ _ fuel directory r H).
  - intros H. exact (locate_none _ _ fuel directory H).
Qed.

Lemma repo_root_returns_nearest_marker_witness :
  let W := Demo.session TextCommand [] in
  let st := Demo.start Demo.unlocked None in
  exists k, k < 4
    /\ "/home/u/aosp" = ancestor (host W) (fs st) k Demo.frameworks
    /\ has_marker (host W) (fs st) "/home/u/aosp" = true
    /\ forall i, i < k ->
         has_marker (host W) (fs st) (ancestor (host W) (fs st) i Demo.frameworks) = false.
Proof.
  cbn zeta.
  destruct (repo_root_returns_nearest_marker
              (Demo.session TextCommand []) (Demo.start Demo.unlocked None)
              Demo.frameworks 4 ltac:(vm_compute; reflexivity)) as [Hsome _].
  destruct (Hsome "/home/u/aosp" ltac:(vm_compute; reflexivity))
    as (k & Hk & Hr & _ & Hm & Hbefore).
  exists k. repeat split; assumption.
Defined.



(** X3.  The cache never holds the empty string as a root, and a lookup
    never returns it: from a cache without such an entry every lookup
    leaves a cache without such an entry, so a returned root is [False] or
    a real path and the truth test [wait_for_lock and root] only rejects
    [False]. *)
Theorem repo_root_never_yields_empty_root
    (W : world) (st : state) (directory : string) (fuel : nat) :
  cache_ok (repo_root_cache st) ->
  cache_ok (repo_root_cache (snd (repo_root W fuel directory st)))
  /\ fst (repo_root W fuel directory st) <> Ok (Some "").
Proof.
  intros Hok. rewrite repo_root_eq.
  assert (Hwalk : forall s, repo_root_cache s = repo_root_cache st ->
            cache_ok (repo_root_cache (snd (walk_and_store W fuel directory s)))
            /\ fst (walk_and_store W fuel directory s) <> Ok (Some "")).
  { intros s Hs. unfold walk_and_store.
    destruct (locate (host W) (fs s) fuel directory) as [r|e] eqn:Hloc; cbn.
    - assert (Hr : r <> Some "").
      { intros ->. destruct (locate_some _ _ _ _ _ Hloc) as (_ & _ & _ & Hne & _).
        apply Hne. reflexivity. }
      split; [|congruence].
      intros d e. rewrite lookup_insert. case_decide.
      + intros [= <-]. exact Hr.
      + rewrite Hs. apply Hok.
    - split; [rewrite Hs; exact Hok|discriminate]. }
  destruct (repo_root_cache st !! directory) as [entry|] eqn:Hentry.
  - destruct (PrimFloat.ltb _ _).
    + cbn. split; [exact Hok|]. intros [= Hr]. exact (Hok _ _ Hentry Hr).
    + apply Hwalk. reflexivity.
  - apply Hwalk. reflexivity.
Qed.

Lemma repo_root_never_yields_empty_root_witness :
  let W := Demo.session TextCommand [] in
  let st := Demo.with_negative_entry 3 in
  cache_ok (repo_root_cache (snd (repo_root W 4 Demo.frameworks st)))
  /\ fst (repo_root W 4 Demo.frameworks st) <> Ok (Some "").
Proof.
  cbn zeta.
  apply (repo_root_never_yields_empty_root
           (Demo.session TextCommand []) (Demo.with_negative_entry 3)
           Demo.frameworks 4).
  intros d e.
  change (repo_root_cache (Demo.with_negative_entry 3))
    with ({[ Demo.frameworks := Demo.negative_entry ]} : gmap string cache_entry).
  rewrite lookup_singleton. case_decide; [|discriminate].
  intros [= <-]. discriminate.
Defined.

(** X4.  A lookup writes nothing but its own cache key, the clock count
    and the probe log: the entries of all other directories stay as they
    were, the clock is read at most twice, the probe log only grows, and
    nothing of the editor (timers, threads, events, panel, views, the list
    store, the in-flight counter) changes. *)
Theorem repo_root_touches_only_its_own_entry
    (W : world) (st : state) (directory : string) (fuel : nat) :
  let st' := snd (repo_root W fuel directory st) in
  same_ui st st'
  /\ (forall other, other <> directory ->
        repo_root_cache st' !! other = repo_root_cache st !! other)
  /\ clock_reads st <= clock_reads st' <= clock_reads st + 2
  /\ exists probed, probes st' = probes st ++ probed.
Proof.
  cbn zeta. split; [apply repo_root_frame|].
  rewrite repo_root_eq. unfold walk_and_store.
  destruct (repo_root_cache st !! directory) as [entry|].
  - destruct (PrimFloat.ltb _ _); cbn.
    + split; [reflexivity|]. split; [lia|]. exists []. rewrite app_nil_r. reflexivity.
    + destruct (locate (host W) (fs st) fuel directory); cbn.
      * split; [intros other Hne; apply lookup_insert_ne; congruence|].
        split; [lia|]. eexists. reflexivity.
      * split; [reflexivity|]. split; [lia|]. eexists. reflexivity.
  - destruct (locate (host W) (fs st) fuel directory); cbn.
    + split; [intros other Hne; apply lookup_insert_ne; congruence|].
      split; [lia|]. eexists. reflexivity.
    + split; [reflexivity|]. split; [lia|]. eexists. reflexivity.
Qed.

Lemma repo_root_touches_only_its_own_entry_witness :
  let W := Demo.session TextCommand [] in
  let st := Demo.with_negative_entry 3 in
  let st' := snd (repo_root W 4 "/home/u/notes" st) in
  repo_root_cache st' !! Demo.frameworks = repo_root_cache st !! Demo.frameworks.
Proof.
  cbn zeta.
  destruct (repo_root_touches_only_its_own_entry
              (Demo.session TextCommand []) (Demo.with_negative_entry 3)
              "/home/u/notes" 4) as (_ & Hother & _).
  apply Hother. discriminate.
Defined.

(** X5.  The empty directory string (the working directory of a window
    command without file and folder) is looked up without touching the
    file system: with no fresh entry for [''] the result is [False], no
    path is probed, and [False] is cached under ['']. *)
Theorem repo_root_of_empty_directory (W : world) (st : state) (fuel : nat) :
  fresh_entry (repo_root_cache st) "" (clock W (clock_reads st)) = None ->
  0 < fuel ->
  let st' := snd (repo_root W fuel "" st) in
  fst (repo_root W fuel "" st) = Ok None
  /\ probes st' = probes st
  /\ (retval <$> repo_root_cache st' !! "") = Some None.
Proof.
  intros Hfresh Hfuel. cbn zeta. rewrite repo_root_eq.
  destruct fuel as [|fuel]; [lia|].
  unfold fresh_entry in Hfresh. unfold walk_and_store. cbn [locate walk_trace
    PyString.nonempty negb].
  destruct (repo_root_cache st !! "") as [entry|].
  - destruct (PrimFloat.ltb _ _); [discriminate|]. cbn.
    rewrite app_nil_r, lookup_insert_eq. repeat split.
  - cbn. rewrite app_nil_r, lookup_insert_eq. repeat split.
Qed.

Lemma repo_root_of_empty_directory_witness :
  let W := Demo.session WindowCommand [] in
  let st := Demo.start Demo.unlocked None in
  fst (repo_root W 1 "" st) = Ok None
  /\ probes (snd (repo_root W 1 "" st)) = probes st
  /\ (retval <$> repo_root_cache (snd (repo_root W 1 "" st)) !! "") = Some None.
Proof.
  cbn zeta.
  apply (repo_root_of_empty_directory
           (Demo.session WindowCommand []) (Demo.start Demo.unlocked None) 1);
    [vm_compute; reflexivity|lia].
Defined.

(** ** The executable resolver *)

Example split_on_search_path :
  split_on ":"%char "/usr/bin::/bin" = ["/usr/bin"; ""; "/bin"]
  /\ split_on ":"%char "" = [""].
Proof. split; reflexivity. Qed.

(** Joining the fields with the separator gives the string back. *)
Lemma split_on_nonempty sep s : split_on sep s <> [].
Proof.
  destruct s as [|c s]; cbn; [discriminate|].
  destruct (Ascii.eqb c sep); [discriminate|].
  destruct (split_on sep s); discriminate.
Qed.

Lemma split_on_concat sep s :
  String.concat (String sep "") (split_on sep s) = s.
Proof.
  induction s as [|c s IH]; [reflexivity|]. cbn [split_on].
  pose proof (split_on_nonempty sep s) as Hne.
  destruct (split_on sep s) as [|h t] eqn:Hs; [congruence|].
  destruct (Ascii.eqb c sep) eqn:Hc.
  - apply Ascii.eqb_eq in Hc. subst c.
    change (String.concat (String sep "") ("" :: h :: t))
      with (String sep (String.concat (String sep "") (h :: t))).
    rewrite IH. reflexivity.
  - destruct t as [|h' t].
    + cbn in *. subst. reflexivity.
    + change (String.concat (String sep "") (String c h :: h' :: t))
        with (String c (String.concat (String sep "") (h :: h' :: t))).
      rewrite IH. reflexivity.
Qed.

Section ResolverFacts.
Variable P : platform.
Variable f : filesystem.
Variable executable : string -> bool.

Lemma test_paths_first pre : forall directory post test_file,
  (forall d, In d pre -> usable f executable (candidate P d test_file) = false) ->
  usable f executable (candidate P directory test_file) = true ->
  _test_paths_for_executable P f executable (pre ++ directory :: post) test_file
  = Some (candidate P directory test_file).
Proof.
  induction pre as [|d pre IH]; intros directory post test_file Hpre Hd; cbn.
  - rewrite Hd. reflexivity.
  - rewrite (Hpre d (or_introl eq_refl)). apply IH; [|exact Hd].
    intros x Hx. apply Hpre. right. exact Hx.
Qed.

Lemma test_paths_some paths : forall test_file file_path,
  _test_paths_for_executable P f executable paths test_file = Some file_path ->
  exists pre directory post,
    paths = pre ++ directory :: post
    /\ file_path = candidate P directory test_file
    /\ usable f executable file_path = true
    /\ forall d, In d pre -> usable f executable (candidate P d test_file) = false.
Proof.
  induction paths as [|d paths IH]; intros test_file file_path H; [discriminate|].
  cbn in H. destruct (usable f executable (candidate P d test_file)) eqn:Hd.
  - injection H as <-. exists [], d, paths. repeat split; try assumption.
    intros x [].
  - destruct (IH _ _ H) as (pre & directory & post & -> & -> & Hu & Hpre).
    exists (d :: pre), directory, post. repeat split; try assumption.
    intros x [<-|Hx]; [exact Hd|apply Hpre, Hx].
Qed.

Lemma test_paths_none paths test_file :
  _test_paths_for_executable P f executable paths test_file = None <->
  forall d, In d paths -> usable f executable (candidate P d test_file) = false.
Proof.
  induction paths as [|d paths IH]; cbn.
  - split; [intros _ x []|reflexivity].
  - destruct (usable f executable (candidate P d test_file)) eqn:Hd.
    + split; [discriminate|]. intros H. rewrite (H d (or_introl eq_refl)) in Hd.
      discriminate.
    + rewrite IH. split.
      * intros H x [<-|Hx]; [exact Hd|apply H, Hx].
      * intros H x Hx. apply H. right. exact Hx.
Qed.

Lemma usable_nonempty file_path :
  usable f executable file_path = true -> PyString.nonempty file_path = true.
Proof.
  unfold usable, exists_in. intros H.
  apply andb_true_iff in H as [H _]. apply andb_true_iff in H as [H _]. exact H.
Qed.

Lemma test_paths_truthy paths test_file :
  PyString.truthy (_test_paths_for_executable P f executable paths test_file)
  = bool_decide (is_Some (_test_paths_for_executable P f executable paths test_file)).
Proof.
  destruct (_test_paths_for_executable P f executable paths test_file) as [p|] eqn:H.
  - destruct (test_paths_some _ _ _ H) as (_ & _ & _ & _ & _ & Hu & _).
    cbn. rewrite (usable_nonempty _ Hu). reflexivity.
  - reflexivity.
Qed.
End ResolverFacts.

(** X6.  The resolver's search is "first directory in order wins": the
    result of [_test_paths_for_executable] is the candidate of the first
    directory of [paths] whose candidate exists and is executable, whatever
    comes later in the list. *)
Theorem test_paths_first_directory_wins
    (P : platform) (f : filesystem) (executable : string -> bool)
    (pre : list string) (directory : string) (post : list string)
    (test_file : string) :
  (forall d, In d pre -> usable f executable (candidate P d test_file) = false) ->
  usable f executable (candidate P directory test_file) = true ->
  _test_paths_for_executable P f executable (pre ++ directory :: post) test_file
  = Some (candidate P directory test_file).
Proof.
  revert directory post. induction pre as [|d pre IH]; intros directory post Hpre Hd.
  - cbn. rewrite Hd. reflexivity.
  - cbn. rewrite (Hpre d (or_introl eq_refl)). apply IH; [|exact Hd].
    intros x Hx. apply Hpre. right. exact Hx.
Qed.

Lemma test_paths_first_directory_wins_witness :
  _test_paths_for_executable Posix.host
    (Posix.files ["/usr/bin"; "/opt/bin"] ["/opt/bin/repo"; "/usr/local/bin/repo"])
    (fun _ => true) ["/usr/bin"; "/opt/bin"; "/usr/local/bin"] "repo"
  = Some "/opt/bin/repo".
Proof.
  apply (test_paths_first_directory_wins Posix.host
           (Posix.files ["/usr/bin"; "/opt/bin"] ["/opt/bin/repo"; "/usr/local/bin/repo"])
           (fun _ => true) ["/usr/bin"] "/opt/bin" ["/usr/local/bin"] "repo").
  - intros d [<-|[]]. reflexivity.
  - reflexivity.
Defined.

(** X7.  What the search returns is sound and complete: a returned path is
    the candidate of a directory of the list, it exists and is executable;
    and the search returns [None] exactly when no directory of the list
    has a candidate that exists and is executable. *)
Theorem test_paths_sound_and_complete
    (P : platform) (f : filesystem) (executable : string -> bool)
    (paths : list string) (test_file : string) :
  (forall file_path,
     _test_paths_for_executable P f executable paths test_file = Some file_path ->
     exists directory,
       In directory paths
       /\ file_path = candidate P directory test_file
       /\ exists_in f file_path = true
       /\ executable file_path = true)
  /\ (_test_paths_for_executable P f executable paths test_file = None <->
      forall d, In d paths -> usable f executable (candidate P d test_file) = false).
Proof.
  split; [|apply test_paths_none].
  intros file_path H.
  destruct (test_paths_some P f executable _ _ _ H)
    as (pre & directory & post & -> & -> & Hu & _).
  exists directory. apply andb_true_iff in Hu as [He Hx].
  repeat split; try assumption. apply in_or_app. right. left. reflexivity.
Qed.

Lemma test_paths_sound_and_complete_witness :
  _test_paths_for_executable Posix.host (Posix.files ["/usr/bin"] []) (fun _ => true)
    ["/usr/bin"; "/bin"] "repo" = None.
Proof.
  apply (test_paths_sound_and_complete Posix.host (Posix.files ["/usr/bin"] [])
           (fun _ => true) ["/usr/bin"; "/bin"] "repo").
  intros d [<-|[<-|[]]]; reflexivity.
Defined.

(** X8.  [find_repo] prefers the search path to the conventional install
    directories.  On a POSIX host: if some directory of [PATH] has an
    executable [repo], the first such one is the result, whatever
    [/usr/local/bin] holds; if none has, the result is what the search of
    [/usr/local/bin] and [/usr/local/repo/bin], in this order, gives. *)
Theorem find_repo_prefers_search_path
    (P : platform) (f : filesystem) (executable : string -> bool)
    (env : gmap string string) :
  os_name_nt P = false ->
  let path := split_on ":"%char (default "" (env !! "PATH")) in
  (forall pre directory post,
     path = pre ++ directory :: post ->
     (forall d, In d pre -> usable f executable (candidate P d "repo") = false) ->
     usable f executable (candidate P directory "repo") = true ->
     find_repo P f executable env = Ok (Some (candidate P directory "repo")))
  /\ ((forall d, In d path -> usable f executable (candidate P d "repo") = false) ->
      find_repo P f executable env
      = Ok (_test_paths_for_executable P f executable
              ["/usr/local/bin"; "/usr/local/repo/bin"] "repo")).
Proof.
  intros Hnt. cbn zeta. unfold find_repo, pathsep. rewrite Hnt.
  rewrite test_paths_truthy. split.
  - intros pre directory post Hpath Hpre Hd. rewrite Hpath.
    rewrite (test_paths_first P f executable pre directory post "repo" Hpre Hd).
    reflexivity.
  - intros Hnone. apply test_paths_none in Hnone. rewrite Hnone. reflexivity.
Qed.

Lemma find_repo_prefers_search_path_witness :
  find_repo Posix.host
    (Posix.files ["/usr/bin"; "/opt/bin"] ["/opt/bin/repo"; "/usr/local/bin/repo"])
    (fun _ => true) {[ "PATH" := "/usr/bin:/opt/bin" ]}
  = Ok (Some "/opt/bin/repo")
  /\ find_repo Posix.host
       (Posix.files ["/usr/bin"; "/opt/bin"] ["/usr/local/bin/repo"])
       (fun _ => true) {[ "PATH" := "/usr/bin:/opt/bin" ]}
     = Ok (Some "/usr/local/bin/repo").
Proof.
  split.
  - apply (proj1 (find_repo_prefers_search_path Posix.host
             (Posix.files ["/usr/bin"; "/opt/bin"] ["/opt/bin/repo"; "/usr/local/bin/repo"])
             (fun _ => true) {[ "PATH" := "/usr/bin:/opt/bin" ]} eq_refl)
             ["/usr/bin"] "/opt/bin" []).
    + vm_compute. reflexivity.
    + intros d [<-|[]]. reflexivity.
    + reflexivity.
  - rewrite (proj2 (find_repo_prefers_search_path Posix.host
             (Posix.files ["/usr/bin"; "/opt/bin"] ["/usr/local/bin/repo"])
             (fun _ => true) {[ "PATH" := "/usr/bin:/opt/bin" ]} eq_refl)).
    + reflexivity.
    + assert (Hpath : split_on ":"%char
                (default "" (({[ "PATH" := "/usr/bin:/opt/bin" ]} : gmap string string)
                             !! "PATH")) = ["/usr/bin"; "/opt/bin"])
        by (vm_compute; reflexivity).
      rewrite Hpath. intros d [<-|[<-|[]]]; reflexivity.
Defined.

(** X9.  Whatever [find_repo] returns is usable: on either platform a
    returned path existed and was executable when the plugin was loaded,
    so [REPO] is never a path that was not there. *)
Theorem find_repo_result_is_executable
    (P : platform) (f : filesystem) (executable : string -> bool)
    (env : gmap string string) (repo_path : string) :
  find_repo P f executable env = Ok (Some repo_path) ->
  exists_in f repo_path = true /\ executable repo_path = true.
Proof.
  unfold find_repo. rewrite test_paths_truthy. intros H.
  assert (Hsome : forall paths test_file,
            _test_paths_for_executable P f executable paths test_file = Some repo_path ->
            exists_in f repo_path = true /\ executable repo_path = true).
  { intros paths test_file Hs.
    destruct (test_paths_some P f executable _ _ _ Hs) as (_ & _ & _ & _ & _ & Hu & _).
    apply andb_true_iff in Hu. exact Hu. }
  destruct (_test_paths_for_executable P f executable
              (split_on (pathsep P) (default "" (env !! "PATH"))) _) eqn:Hpath.
  - rewrite bool_decide_eq_true_2 in H by eauto.
    injection H as ->. exact (Hsome _ _ Hpath).
  - rewrite bool_decide_eq_false_2 in H by (intros [? ?]; discriminate).
    destruct (os_name_nt P).
    + destruct (env !! "ProgramFiles") as [pf|]; [|discriminate].
      destruct (env !! "ProgramFiles(x86)") as [pf86|]; [|discriminate].
      injection H as H.
      exact (Hsome [path_join P (path_join P pf "repo") "bin";
                    path_join P (path_join P pf86 "repo") "bin"] "repo.exe" H).
    + injection H as H.
      exact (Hsome ["/usr/local/bin"; "/usr/local/repo/bin"] "repo" H).
Qed.

Lemma find_repo_result_is_executable_witness :
  exists_in (Posix.files [] ["/usr/local/bin/repo"]) "/usr/local/bin/repo" = true.
Proof.
  apply (find_repo_result_is_executable Posix.host
           (Posix.files [] ["/usr/local/bin/repo"]) (fun _ => true)
           {[ "PATH" := "/usr/bin" ]} "/usr/local/bin/repo").
  vm_compute. reflexivity.
Defined.

(** X10.  Edges of [find_repo].  Without [PATH] in the environment the
    search path is the one empty directory name, so the only candidate is
    the bare command name, resolved against the current directory.  On
    Windows, when the search path has no [repo.exe] and [ProgramFiles] is
    not set, the function raises [KeyError] instead of returning. *)
Theorem find_repo_edges
    (f : filesystem) (executable : string -> bool) (env : gmap string string) :
  (env !! "PATH" = None ->
   usable f executable "repo" = true ->
   find_repo Posix.host f executable env = Ok (Some "repo"))
  /\ (forall P,
        os_name_nt P = true ->
        (forall d, In d (split_on ";"%char (default "" (env !! "PATH"))) ->
           usable f executable (candidate P d "repo.exe") = false) ->
        env !! "ProgramFiles" = None ->
        find_repo P f executable env = Raise (KeyError "ProgramFiles")).
Proof.
  split.
  - intros Hpath Hu.
    assert (Hfirst : _test_paths_for_executable Posix.host f executable [""] "repo"
                     = Some "repo").
    { apply (test_paths_first Posix.host f executable [] "" [] "repo");
        [intros d []|exact Hu]. }
    unfold find_repo. rewrite Hpath, test_paths_truthy.
    change (split_on (pathsep Posix.host) (default "" None)) with [""].
    change (if os_name_nt Posix.host then "repo.exe" else "repo") with "repo".
    rewrite Hfirst. reflexivity.
  - intros P Hnt Hnone Hpf. unfold find_repo, pathsep. rewrite Hnt.
    rewrite test_paths_truthy. apply test_paths_none in Hnone. rewrite Hnone.
    cbn. rewrite Hpf. reflexivity.
Qed.

Lemma find_repo_edges_witness :
  find_repo Posix.host (Posix.files [] ["repo"]) (fun _ => true) ∅ = Ok (Some "repo").
Proof.
  apply (find_repo_edges (Posix.files [] ["repo"]) (fun _ => true) ∅);
    vm_compute; reflexivity.
Defined.

(** ** More on the worker thread *)

(** X11.  Past the directory check every run of the thread body posts
    exactly one callback to the UI thread, with the thread's own keyword
    arguments, and that callback is the thread's [on_done] or
    [sublime.error_message]; this holds for every behaviour of the process
    and also when the body ends with an exception.  The body calls [Popen]
    at most once and starts no other thread. *)
Theorem run_posts_exactly_one_callback
    (W : world) (os : os_behaviour) (t : thread) (st : state) :
  isdir_in (fs st) (t_working_dir t) = true ->
  let st' := snd (CommandThread_run W os t st) in
  (exists cb output,
     timers st' = timers st ++ [(0, TCallback cb output (t_kwargs t))]
     /\ (cb = t_on_done t \/ cb = CbErrorMessage))
  /\ threads st' = threads st
  /\ length (popen_calls (events st')) <= S (length (popen_calls (events st))).
Proof.
  intros Hd. cbn zeta. split; [|split].
  - set (st1 := set_counter_writes (counter_writes st ++ [commands_working st + 1]%Z)
           (set_commands_working (commands_working st + 1)%Z
              (set_probes (probes st ++ [t_working_dir t]) st))).
    destruct (try_block W os t st1) as [[output raised] st2] eqn:Hblock.
    pose proof (run_posts W os t st Hd _ _ _ Hblock) as Hposts.
    destruct (handlers W (t_on_done t) output raised) as [[output' cb] raised'] eqn:Hh.
    destruct Hposts as (_ & Ht & _). exists cb, output'. split; [exact Ht|].
    unfold handlers in Hh.
    destruct raised as [[]|]; try (injection Hh as <- <- <-; tauto).
    destruct (errno =? 2)%Z; [destruct (environ W !! "PATH")|];
      injection Hh as <- <- <-; tauto.
  - pose proof (run_with_directory W os t st Hd) as Hrun. cbn zeta in Hrun.
    pose proof (try_block_frame W os t
      (set_counter_writes (counter_writes st ++ [commands_working st + 1]%Z)
         (set_commands_working (commands_working st + 1)%Z
            (set_probes (probes st ++ [t_working_dir t]) st)))) as Hframe.
    destruct (try_block W os t _) as [[output raised] st2].
    destruct (handlers W (t_on_done t) output raised) as [[output' cb] raised'].
    rewrite Hrun. cbn in *. tauto.
  - rewrite (run_popen W os t st Hd), length_app.
    destruct (chdir_error os), (popen_env W); cbn; lia.
Qed.

Lemma run_posts_exactly_one_callback_witness :
  let W := Demo.session TextCommand [] in
  let t := Demo.a_thread "/home/u/aosp" in
  let st := Demo.with_argv (Demo.start Demo.unlocked None) in
  exists cb output,
    timers (snd (CommandThread_run W (Demo.fails 13 "Permission denied") t st))
    = timers st ++ [(0, TCallback cb output (t_kwargs t))]
    /\ (cb = t_on_done t \/ cb = CbErrorMessage).
Proof.
  cbn zeta.
  apply (run_posts_exactly_one_callback
           (Demo.session TextCommand []) (Demo.fails 13 "Permission denied")
           (Demo.a_thread "/home/u/aosp")
           (Demo.with_argv (Demo.start Demo.unlocked None))).
  reflexivity.
Defined.

Lemma run_outcome W os t st output raised :
  isdir_in (fs st) (t_working_dir t) = true ->
  (forall s, fst (try_block W os t s) = (output, raised)) ->
  let '(output', callback, raised') := handlers W (t_on_done t) output raised in
  fst (CommandThread_run W os t st)
  = match raised' with Some e => Raise e | None => Ok tt end
  /\ timers (snd (CommandThread_run W os t st))
     = timers st ++ [(0, TCallback callback output' (t_kwargs t))].
Proof.
  intros Hd Htry.
  set (st1 := set_counter_writes (counter_writes st ++ [commands_working st + 1]%Z)
         (set_commands_working (commands_working st + 1)%Z
            (set_probes (probes st ++ [t_working_dir t]) st))).
  specialize (Htry st1).
  destruct (try_block W os t st1) as [[o r] st2] eqn:Hblock.
  cbn in Htry. injection Htry as -> ->.
  pose proof (run_posts W os t st Hd _ _ _ Hblock) as Hposts.
  destruct (handlers W (t_on_done t) output raised) as [[output' cb] raised'].
  tauto.
Qed.

Lemma run_keeps_counter W os t st :
  commands_working (snd (CommandThread_run W os t st)) = commands_working st.
Proof.
  destruct (isdir_in (fs st) (t_working_dir t)) eqn:Hd.
  - pose proof (run_with_directory W os t st Hd) as Hrun. cbn zeta in Hrun.
    pose proof (try_block_frame W os t
      (set_counter_writes (counter_writes st ++ [commands_working st + 1]%Z)
         (set_commands_working (commands_working st + 1)%Z
            (set_probes (probes st ++ [t_working_dir t]) st)))) as Hframe.
    destruct (try_block W os t _) as [[output raised] st2].
    destruct (handlers W (t_on_done t) output raised) as [[output' cb] raised'].
    rewrite Hrun. cbn in *. destruct Hframe as (Hc & _). rewrite Hc. lia.
  - rewrite (run_without_directory W os t st Hd). reflexivity.
Qed.

(** X12.  A working directory that disappears between the directory check
    and [os.chdir] is not dropped silently: the [OSError] of [chdir] is
    handled like a failed launch.  No process is launched, the dialog
    callback is posted, and with errno 2 the dialog says that the Repo
    binary could not be found in [PATH]. *)
Theorem chdir_failure_is_reported_as_launch_failure
    (W : world) (os : os_behaviour) (t : thread) (st : state)
    (errno : Z) (strerror : string) :
  isdir_in (fs st) (t_working_dir t) = true ->
  chdir_error os = Some (errno, strerror) ->
  let st' := snd (CommandThread_run W os t st) in
  popen_calls (events st') = popen_calls (events st)
  /\ (errno <> 2%Z ->
      timers st' = timers st ++
        [(0, TCallback CbErrorMessage (VStr (lit strerror)) (t_kwargs t))])
  /\ (errno = 2%Z ->
      forall path, environ W !! "PATH" = Some path ->
        timers st' = timers st ++
          [(0, TCallback CbErrorMessage (VStr (not_found_message path)) (t_kwargs t))]).
Proof.
  intros Hd Hc. cbn zeta.
  assert (Hwd : PyString.nonempty (t_working_dir t) = true).
  { unfold isdir_in in Hd. apply andb_true_iff in Hd. tauto. }
  split.
  - rewrite (run_popen W os t st Hd), Hc. apply app_nil_r.
  - pose proof (run_outcome W os t st (VStr []) (Some (OSError errno strerror)) Hd)
      as Hout.
    unfold handlers in Hout. split.
    + intros Hne. apply Z.eqb_neq in Hne. rewrite Hne in Hout.
      apply Hout. intros s. unfold try_block. rewrite Hwd, Hc. reflexivity.
    + intros -> path Hpath. cbn in Hout. rewrite Hpath in Hout.
      apply Hout. intros s. unfold try_block. rewrite Hwd, Hc. reflexivity.
Qed.

Lemma chdir_failure_is_reported_as_launch_failure_witness :
  let W := Demo.session TextCommand [] in
  let t := Demo.a_thread "/home/u/aosp" in
  let st := Demo.with_argv (Demo.start Demo.unlocked None) in
  let os := {| chdir_error := Some (2%Z, "No such file or directory");
               launch := Captured (Some [Byte.x6f; Byte.x6b]) |} in
  timers (snd (CommandThread_run W os t st))
  = [(0, TCallback CbErrorMessage (VStr (not_found_message "/usr/bin:/bin")) no_kwargs)].
Proof.
  cbn zeta.
  apply (chdir_failure_is_reported_as_launch_failure
           (Demo.session TextCommand [])
           {| chdir_error := Some (2%Z, "No such file or directory");
              launch := Captured (Some [Byte.x6f; Byte.x6b]) |}
           (Demo.a_thread "/home/u/aosp")
           (Demo.with_argv (Demo.start Demo.unlocked None))
           2 "No such file or directory"); reflexivity.
Defined.

Lemma bytes_decode_raises codecs encoding b e :
  Codec.bytes_decode codecs encoding b = Raise e ->
  e = LookupError \/ e = UnicodeDecodeError.
Proof.
  unfold Codec.bytes_decode.
  destruct (if String.eqb encoding "utf-8" then _ else _) as [d|]; [|intros [= <-]; tauto].
  destruct (d b); [discriminate|intros [= <-]; tauto].
Qed.

(** X13.  Output that neither UTF-8 nor the fallback encoding can decode
    (an unknown fallback name included, such as the default ['']) is not
    lost and not reported as an error message: the thread's own callback is
    still posted, with the undecoded bytes, and the decoding exception
    leaves the thread after the counter has been set back. *)
Theorem undecodable_output_reaches_callback_as_bytes
    (W : world) (os : os_behaviour) (t : thread) (st : state)
    (env : gmap string string) (out : bytes) (e : exn) :
  isdir_in (fs st) (t_working_dir t) = true ->
  chdir_error os = None ->
  popen_env W = Ok env ->
  launch os = Captured (Some out) ->
  Codec.utf8_decode out = None ->
  Codec.bytes_decode (codecs W) (t_fallback_encoding t) out = Raise e ->
  let st' := snd (CommandThread_run W os t st) in
  fst (CommandThread_run W os t st) = Raise e
  /\ timers st' = timers st ++ [(0, TCallback (t_on_done t) (VBytes out) (t_kwargs t))]
  /\ commands_working st' = commands_working st.
Proof.
  intros Hd Hc He Hl Hu Hf. cbn zeta.
  assert (Hwd : PyString.nonempty (t_working_dir t) = true).
  { unfold isdir_in in Hd. apply andb_true_iff in Hd. tauto. }
  assert (Hout : out <> []) by (intros ->; discriminate).
  pose proof (run_outcome W os t st (VBytes out) (Some e) Hd) as Hrun.
  assert (Hh : handlers W (t_on_done t) (VBytes out) (Some e)
               = (VBytes out, t_on_done t, Some e)).
  { destruct (bytes_decode_raises _ _ _ _ Hf) as [-> | ->]; reflexivity. }
  rewrite Hh in Hrun.
  destruct Hrun as [Hres Htimers].
  { intros s. unfold try_block. rewrite Hwd, Hc, He, Hl.
    destruct out as [|b r]; [congruence|].
    rewrite safeish_bytes, Hu. unfold decode_method. rewrite Hf. reflexivity. }
  split; [exact Hres|]. split; [exact Htimers|].
  apply run_keeps_counter.
Qed.

Lemma undecodable_output_reaches_callback_as_bytes_witness :
  let W := Demo.session TextCommand [] in
  let t := CommandThread_init 0 CbGenericDone
             (set_kw_working_dir (Some "/home/u/aosp") no_kwargs) in
  let st := Demo.with_argv (Demo.start Demo.unlocked None) in
  fst (CommandThread_run W (Demo.prints Demo.latin1_output) t st) = Raise LookupError
  /\ timers (snd (CommandThread_run W (Demo.prints Demo.latin1_output) t st))
     = timers st ++ [(0, TCallback CbGenericDone (VBytes Demo.latin1_output) no_kwargs)]
  /\ commands_working (snd (CommandThread_run W (Demo.prints Demo.latin1_output) t st))
     = commands_working st.
Proof.
  cbn zeta.
  apply (undecodable_output_reaches_callback_as_bytes
           (Demo.session TextCommand []) (Demo.prints Demo.latin1_output)
           (CommandThread_init 0 CbGenericDone
              (set_kw_working_dir (Some "/home/u/aosp") no_kwargs))
           (Demo.with_argv (Demo.start Demo.unlocked None))
           {[ "PATH" := "/usr/bin:/bin" ]} Demo.latin1_output LookupError);
    reflexivity.
Defined.

(** X14.  A process that prints nothing (or whose output does not go to a
    pipe) still completes the protocol: one [Popen] call, the thread's own
    callback posted with the empty text.  Because the empty output has been
    replaced by a [str] before decoding, the decode step itself ends the
    thread with [AttributeError] under Python 3, after the callback has
    been posted. *)
Theorem empty_output_posts_empty_text
    (W : world) (os : os_behaviour) (t : thread) (st : state)
    (env : gmap string string) (out : option bytes) :
  isdir_in (fs st) (t_working_dir t) = true ->
  chdir_error os = None ->
  popen_env W = Ok env ->
  launch os = Captured out ->
  out = None \/ out = Some [] ->
  let st' := snd (CommandThread_run W os t st) in
  fst (CommandThread_run W os t st) = Raise AttributeError
  /\ timers st' = timers st ++ [(0, TCallback (t_on_done t) (VStr []) (t_kwargs t))]
  /\ popen_calls (events st') = popen_calls (events st) ++ [spawn_of W t st env].
Proof.
  intros Hd Hc He Hl Hout. cbn zeta.
  assert (Hwd : PyString.nonempty (t_working_dir t) = true).
  { unfold isdir_in in Hd. apply andb_true_iff in Hd. tauto. }
  pose proof (run_outcome W os t st (VStr []) (Some AttributeError) Hd) as Hrun.
  cbn [handlers] in Hrun.
  destruct Hrun as [Hres Htimers].
  { intros s. unfold try_block. rewrite Hwd, Hc, He, Hl.
    destruct Hout as [-> | ->]; reflexivity. }
  split; [exact Hres|]. split; [exact Htimers|].
  rewrite (run_popen W os t st Hd), Hc, He. reflexivity.
Qed.

Lemma empty_output_posts_empty_text_witness :
  let W := Demo.session TextCommand [] in
  let t := Demo.a_thread "/home/u/aosp" in
  let st := Demo.with_argv (Demo.start Demo.unlocked None) in
  timers (snd (CommandThread_run W (Demo.prints []) t st))
  = timers st ++ [(0, TCallback CbGenericDone (VStr []) no_kwargs)].
Proof.
  cbn zeta.
  apply (empty_output_posts_empty_text
           (Demo.session TextCommand []) (Demo.prints [])
           (Demo.a_thread "/home/u/aosp")
           (Demo.with_argv (Demo.start Demo.unlocked None))
           {[ "PATH" := "/usr/bin:/bin" ]} (Some []));
    try reflexivity.
  right. reflexivity.
Defined.

(** X15.  The environment handed to the process.  On Windows every [Popen]
    call of the thread carries a [HOME] variable: the one of the process
    environment when it has one, else the value of [USERPROFILE]; all other
    variables are those of the process environment.  Elsewhere the
    environment is passed on unchanged. *)
Theorem popen_environment_has_home
    (W : world) (os : os_behaviour) (t : thread) (st : state) (sp : spawn) :
  isdir_in (fs st) (t_working_dir t) = true ->
  popen_calls (events (snd (CommandThread_run W os t st)))
  = popen_calls (events st) ++ [sp] ->
  (sublime_windows (host W) = true ->
     (sp_env sp !! "HOME"
      = match environ W !! "HOME" with
        | Some home => Some home
        | None => environ W !! "USERPROFILE"
        end)
     /\ is_Some (sp_env sp !! "HOME")
     /\ forall name, name <> "HOME" -> sp_env sp !! name = environ W !! name)
  /\ (sublime_windows (host W) = false -> sp_env sp = environ W).
Proof.
  intros Hd Hcalls.
  rewrite (run_popen W os t st Hd) in Hcalls.
  apply app_inv_head in Hcalls.
  destruct (chdir_error os); [discriminate|].
  destruct (popen_env W) as [env|] eqn:He; [|discriminate].
  injection Hcalls as <-. cbn [sp_env spawn_of].
  unfold popen_env in He. split.
  - intros Hw. rewrite Hw in He. cbn in He.
    destruct (environ W !! "HOME") as [home|] eqn:Hhome.
    + rewrite bool_decide_eq_true_2 in He by eauto. cbn in He.
      injection He as <-. rewrite Hhome. split; [reflexivity|]. split; eauto.
    + rewrite bool_decide_eq_false_2 in He by (intros [? ?]; discriminate).
      cbn in He. destruct (environ W !! "USERPROFILE") as [profile|]; [|discriminate].
      injection He as <-. rewrite lookup_insert_eq.
      split; [reflexivity|]. split; [eauto|].
      intros name Hne. apply lookup_insert_ne. congruence.
  - intros Hw. rewrite Hw in He. cbn in He. congruence.
Qed.

Lemma popen_environment_has_home_witness :
  let W := WinDemo.session {[ "USERPROFILE" := "C:\Users\u" ]} in
  let t := Demo.a_thread WinDemo.work in
  let st := WinDemo.start in
  let sp := spawn_of W t st (<["HOME" := "C:\Users\u"]> (environ W)) in
  sp_env sp !! "HOME" = Some "C:\Users\u".
Proof.
  cbn zeta.
  destruct (popen_environment_has_home
              (WinDemo.session {[ "USERPROFILE" := "C:\Users\u" ]})
              (Demo.prints [Byte.x6f; Byte.x6b]) (Demo.a_thread WinDemo.work)
              WinDemo.start
              (spawn_of (WinDemo.session {[ "USERPROFILE" := "C:\Users\u" ]})
                 (Demo.a_thread WinDemo.work) WinDemo.start
                 (<["HOME" := "C:\Users\u"]> {[ "USERPROFILE" := "C:\Users\u" ]})))
    as [Hwin _].
  - reflexivity.
  - rewrite run_popen by reflexivity. reflexivity.
  - destruct (Hwin eq_refl) as [Hhome _].
    refine (eq_trans Hhome _). vm_compute. reflexivity.
Defined.

(** ** More on the completion callback *)

Lemma annotate_gate (W : world) (st : state) :
  exists r st0,
    match active st with
    | Some v =>
      when (live_repo_annotations v)
        match self_class W with
        | TextCommand => view_run_command "repo_annotate"
        | WindowCommand => raise AttributeError
        end
    | None => ret tt
    end st = (r, st0)
    /\ repo_panel st0 = repo_panel st
    /\ visible_panel st0 = visible_panel st
    /\ has_output_view st0 = has_output_view st
    /\ timers st0 = timers st
    /\ threads st0 = threads st
    /\ (r = Ok tt \/ r = Raise AttributeError)
    /\ (self_class W = TextCommand -> r = Ok tt)
    /\ (self_class W = WindowCommand ->
        (live_repo_annotations <$> active st) = Some true -> r = Raise AttributeError).
Proof.
  destruct (active st) as [v|] eqn:Hv.
  - destruct (live_repo_annotations v) eqn:Hl; cbn [when].
    + destruct (self_class W) eqn:Hc; eexists _, _; (split; [reflexivity|]); cbn;
        repeat split; auto; intros; congruence.
    + eexists _, _; split; [reflexivity|]; cbn; repeat split; auto;
        intros; congruence.
  - eexists _, _; split; [reflexivity|]; cbn; repeat split; auto;
      intros; discriminate.
Qed.

(** X16.  Output that is empty or all whitespace never reaches the panel.
    For a command that does not change files, [generic_done] on such a
    result leaves the panel, its visibility, the timers and the threads as
    they are, whatever the view and the class of the command. *)
Theorem blank_result_leaves_panel_alone
    (W : world) (text : pystr) (st : state) :
  may_change_files st = false ->
  PyString.blank text = true ->
  let st' := snd (generic_done W (VStr text) st) in
  repo_panel st' = repo_panel st
  /\ visible_panel st' = visible_panel st
  /\ timers st' = timers st
  /\ threads st' = threads st.
Proof.
  intros Hmay Hblank. cbn zeta. unfold generic_done.
  step_by ltac:(reflexivity). rewrite Hmay.
  step_by ltac:(reflexivity).
  step_by ltac:(reflexivity).
  rewrite Hblank.
  destruct (annotate_gate W st) as (r & st0 & Hrun & Hp & Hv & _ & Ht & Hth & Hr & _).
  unfold bind. rewrite Hrun.
  destruct Hr as [-> | ->]; cbn; tauto.
Qed.

Lemma blank_result_leaves_panel_alone_witness :
  let W := Demo.session TextCommand [] in
  let st := Demo.start Demo.unlocked (Some Demo.editing) in
  repo_panel (snd (generic_done W (VStr [32%N; 10%N]) st)) = repo_panel st.
Proof.
  cbn zeta.
  apply (blank_result_leaves_panel_alone
           (Demo.session TextCommand []) [32%N; 10%N]
           (Demo.start Demo.unlocked (Some Demo.editing))); reflexivity.
Defined.

Lemma panel_keeps_timers (output : pystr) (st st' : state) :
  panel (VStr output) st = (Ok tt, st') ->
  timers st' = timers st /\ active st' = active st.
Proof.
  intros Hp. unfold panel, modify_panel, show_panel, _output_to_view in Hp.
  unfold_m. cbn in Hp.
  destruct (has_output_view st); cbn in Hp; injection Hp as <-; split; reflexivity.
Qed.


(** The annotation hook in general: it writes at most one event, and it
    raises exactly for a window command with the setting on. *)
Lemma annotate_gate_all (W : world) (st : state) :
  exists r st0 extra,
    match active st with
    | Some v =>
      when (live_repo_annotations v)
        match self_class W with
        | TextCommand => view_run_command "repo_annotate"
        | WindowCommand => raise AttributeError
        end
    | None => ret tt
    end st = (r, st0)
    /\ repo_panel st0 = repo_panel st
    /\ visible_panel st0 = visible_panel st
    /\ active st0 = active st
    /\ timers st0 = timers st
    /\ events st0 = events st ++ extra
    /\ (extra = [] \/ extra = [EvViewCommand "repo_annotate"])
    /\ (self_class W = TextCommand
        \/ (live_repo_annotations <$> active st) <> Some true -> r = Ok tt)
    /\ (self_class W = WindowCommand ->
        (live_repo_annotations <$> active st) = Some true ->
        r = Raise AttributeError /\ st0 = st).
Proof.
  destruct (active st) as [v|] eqn:Hv.
  - destruct (live_repo_annotations v) eqn:Hl; cbn [when].
    + destruct (self_class W) eqn:Hc.
      * exists (Ok tt),
               (set_events (events st ++ [EvViewCommand "repo_annotate"]) st),
               [EvViewCommand "repo_annotate"].
        split; [reflexivity|]. cbn.
        repeat split; auto; discriminate.
      * exists (Raise AttributeError), st, []. rewrite app_nil_r.
        repeat split; auto.
        intros [H|H]; [discriminate|]. exfalso. apply H. cbn. rewrite Hl.
        reflexivity.
    + exists (Ok tt), st, []. rewrite app_nil_r. repeat split; auto;
        cbn in *; congruence.
  - exists (Ok tt), st, []. rewrite app_nil_r. repeat split; auto;
      cbn in *; congruence.
Qed.

(** X17.  A view with unsaved changes is never reverted.  When the command
    may change files and the active view is a dirty file, [generic_done]
    issues no [revert], puts nothing on the timer and leaves the view as it
    is, for every class of command and every result.  For a text command,
    or with [live_repo_annotations] off, it returns and the panel shows the
    warning in place of the result.  For a window command with the setting
    on, the annotation hook raises [AttributeError] first and the panel is
    not written. *)
Theorem dirty_view_is_warned_not_reverted
    (W : world) (result : pyval) (st : state) (v : view) :
  may_change_files st = true ->
  active st = Some v ->
  PyString.truthy (file_name v) = true ->
  is_dirty v = true ->
  let out := generic_done W result st in
  active (snd out) = Some v
  /\ timers (snd out) = timers st
  /\ (In (EvViewCommand "revert") (events (snd out)) ->
      In (EvViewCommand "revert") (events st))
  /\ (self_class W = TextCommand \/ live_repo_annotations v = false ->
      fst out = Ok tt
      /\ (content <$> repo_panel (snd out)) = Some dirty_warning
      /\ visible_panel (snd out) = Some "output.repo")
  /\ (self_class W = WindowCommand ->
      live_repo_annotations v = true ->
      fst out = Raise AttributeError
      /\ repo_panel (snd out) = repo_panel st
      /\ visible_panel (snd out) = visible_panel st).
Proof.
  intros Hmay Hview Hfile Hdirty. cbn zeta. unfold generic_done.
  step_by ltac:(reflexivity). rewrite Hmay, Hview, Hfile, Hdirty.
  step_by ltac:(reflexivity).
  step_by ltac:(reflexivity).
  destruct (annotate_gate_all W st)
    as (r & st0 & extra & Hrun & Hpan & Hvis & Hact & Htim & Hev & Hextra & Hok & Hraise).
  assert (Hnorevert : In (EvViewCommand "revert") (events st0) ->
                      In (EvViewCommand "revert") (events st)).
  { rewrite Hev. intros Hin. apply in_app_or in Hin as [Hin|Hin]; [exact Hin|].
    destruct Hextra as [-> | ->]; [destruct Hin|].
    destruct Hin as [Hin|[]]. discriminate. }
  rewrite Hview in Hok, Hraise. cbn [fmap option_fmap option_map] in Hok, Hraise.
  destruct (self_class W) eqn:Hclass.
  - (* a text command *)
    rewrite (Hok (or_introl eq_refl)) in Hrun.
    step_by ltac:(exact Hrun).
    change (PyString.blank (lit ("WARNING: Current view is dirty." +:+ nl +:+ nl)))
      with false. cbn match.
    destruct (panel_writes dirty_warning st0) as (st' & Hp & Hc & _ & _ & Hv & He).
    destruct (panel_keeps_timers dirty_warning st0 st' Hp) as [Ht' Hact'].
    change (lit ("WARNING: Current view is dirty." +:+ nl +:+ nl)) with dirty_warning.
    rewrite Hp. cbn [fst snd].
    split; [rewrite Hact', Hact; exact Hview|].
    split; [rewrite Ht', Htim; reflexivity|].
    split.
    { rewrite He. intros Hin. apply in_app_or in Hin as [Hin|[Hin|[]]]; [|discriminate].
      apply Hnorevert. exact Hin. }
    split; [intros _; split; [reflexivity|split; assumption]|].
    intros; discriminate.
  - (* a window command *)
    destruct (live_repo_annotations v) eqn:Hlive.
    + destruct (Hraise eq_refl eq_refl) as [-> ->].
      erewrite bind_raise; [|exact Hrun]. cbn [fst snd].
      split; [exact Hview|]. split; [reflexivity|]. split; [tauto|].
      split; [intros [H|H]; discriminate|].
      intros _ _. repeat split; reflexivity.
    + assert (Hr : r = Ok tt) by (apply Hok; right; intros Hne; discriminate Hne).
      subst r.
      step_by ltac:(exact Hrun).
      change (PyString.blank (lit ("WARNING: Current view is dirty." +:+ nl +:+ nl)))
        with false. cbn match.
      destruct (panel_writes dirty_warning st0) as (st' & Hp & Hc & _ & _ & Hv & He).
      destruct (panel_keeps_timers dirty_warning st0 st' Hp) as [Ht' Hact'].
      change (lit ("WARNING: Current view is dirty." +:+ nl +:+ nl)) with dirty_warning.
      rewrite Hp. cbn [fst snd].
      split; [rewrite Hact', Hact; exact Hview|].
      split; [rewrite Ht', Htim; reflexivity|].
      split.
      { rewrite He. intros Hin.
        apply in_app_or in Hin as [Hin|[Hin|[]]]; [|discriminate].
        apply Hnorevert. exact Hin. }
      split; [intros _; split; [reflexivity|split; assumption]|].
      intros; discriminate.
Qed.

Lemma dirty_view_is_warned_not_reverted_witness :
  let W := Demo.session WindowCommand [] in
  let v := Demo.a_view (Some Demo.android_mk) true in
  let st := set_may_change_files true (Demo.start Demo.unlocked (Some v)) in
  let out := generic_done W (VStr (lit "Fetching projects")) st in
  active (snd out) = Some v
  /\ (content <$> repo_panel (snd out)) = Some dirty_warning.
Proof.
  intros W v st out.
  destruct (dirty_view_is_warned_not_reverted W (VStr (lit "Fetching projects")) st v
              eq_refl eq_refl eq_refl eq_refl) as (Hact & _ & _ & Hshown & _).
  split; [exact Hact|].
  exact (proj1 (proj2 (Hshown (or_intror eq_refl)))).
Defined.



(** X19.  For a window command the live-annotation hook cannot run: with
    [live_repo_annotations] set on the active view, [generic_done] of a
    window command raises [AttributeError] (there is no [self.view]) before
    the result is looked at, so the panel is neither written nor shown;
    this holds whether or not the command may change files.  A command that
    does not change files leaves no trace at all. *)
Theorem window_command_annotation_hook_raises
    (W : world) (result : pyval) (st : state) (v : view) :
  self_class W = WindowCommand ->
  active st = Some v ->
  live_repo_annotations v = true ->
  let out := generic_done W result st in
  fst out = Raise AttributeError
  /\ repo_panel (snd out) = repo_panel st
  /\ visible_panel (snd out) = visible_panel st
  /\ (may_change_files st = false -> snd out = st).
Proof.
  intros Hclass Hview Hlive. cbn zeta. unfold generic_done.
  step_by ltac:(reflexivity).
  assert (Hfirst : exists res sR,
    match (if may_change_files st then active st else None) with
    | Some v0 =>
      if PyString.truthy (file_name v0) then
        if is_dirty v0
        then ret (VStr (lit ("WARNING: Current view is dirty." +:+ nl +:+ nl)))
        else
          emit (EvPrint "reverting") >>>
          view_run_command "revert" >>>
          do_when W NotLoading
            (modify_active (set_viewport_position (viewport_position v0)))
            (DSetViewport (viewport_position v0)) >>>
          ret result
      else ret result
    | None => ret result
    end st = (Ok res, sR)
    /\ repo_panel sR = repo_panel st
    /\ visible_panel sR = visible_panel st
    /\ (live_repo_annotations <$> active sR) = Some true
    /\ (may_change_files st = false -> sR = st)).
  { destruct (may_change_files st) eqn:Hmay; cbn match.
    - rewrite Hview. destruct (PyString.truthy (file_name v)).
      + destruct (is_dirty v).
        * eexists _, st. split; [reflexivity|]. rewrite Hview. cbn. rewrite Hlive.
          repeat split; auto.
        * eexists _, _. split.
          { unfold emit, view_run_command, modify_active, do_when,
              eval_condition, active_view, set_timeout. unfold_m. cbn.
            rewrite Hview. cbn. reflexivity. }
          simpl_state. cbn. rewrite Hlive. repeat split; auto. discriminate.
      + eexists _, st. split; [reflexivity|]. rewrite Hview. cbn. rewrite Hlive.
        repeat split; auto.
    - eexists _, st. split; [reflexivity|]. rewrite Hview. cbn. rewrite Hlive.
      repeat split; auto. }
  destruct Hfirst as (res & sR & Hrun & Hpan & Hvis & HliveR & Hsame).
  step_by ltac:(exact Hrun).
  step_by ltac:(reflexivity).
  destruct (annotate_gate_all W sR)
    as (r & st0 & extra & Hgate & _ & _ & _ & _ & _ & _ & _ & Hraise).
  destruct (Hraise Hclass HliveR) as [-> ->].
  erewrite bind_raise; [|exact Hgate]. cbn [fst snd].
  repeat split; assumption.
Qed.

Lemma window_command_annotation_hook_raises_witness :
  let W := Demo.session WindowCommand [] in
  let v :=
    {| file_name := Some Demo.android_mk; is_dirty := false; is_loading := false;
       viewport_position := (0, 0)%Z; fallback_encoding_setting := None;
       live_repo_annotations := true |} in
  let st := set_may_change_files true (Demo.start Demo.unlocked (Some v)) in
  let out := generic_done W (VStr (lit "M frameworks/base")) st in
  fst out = Raise AttributeError /\ repo_panel (snd out) = None.
Proof.
  intros W v st out.
  destruct (window_command_annotation_hook_raises W (VStr (lit "M frameworks/base"))
              st v eq_refl eq_refl eq_refl) as (Hraise & Hpanel & _).
  split; [exact Hraise|exact Hpanel].
Defined.

(** ** More on the scratch-output command *)

(** X20.  [RepoScratchOutputCommand.run] writes at the start of the view.
    On a writable view the content afterwards is the output followed by
    the old content, or the output alone with [clear]; nothing of the
    output is lost and the size grows by the length of the output.  On a
    read-only view the command changes nothing. *)
Theorem scratch_output_prepends
    (output : pystr) (clear : bool) (v : buffer) :
  (read_only v = false ->
   content (RepoScratchOutputCommand_run output clear v)
   = output ++ (if clear then [] else content v))
  /\ (read_only v = true -> RepoScratchOutputCommand_run output clear v = v).
Proof.
  unfold RepoScratchOutputCommand_run, view_insert, view_erase, view_size.
  split; intros Hr; rewrite Hr.
  - destruct clear; cbn; rewrite ?Hr; cbn.
    + rewrite drop_all. cbn. rewrite !take_0, drop_0. reflexivity.
    + rewrite take_0, drop_0. reflexivity.
  - destruct clear; rewrite ?Hr; reflexivity.
Qed.

Lemma scratch_output_prepends_witness :
  content (RepoScratchOutputCommand_run (lit "new ") false
             {| content := lit "old"; read_only := false; syntax_file := "" |})
  = lit "new old".
Proof.
  apply (scratch_output_prepends (lit "new ") false
           {| content := lit "old"; read_only := false; syntax_file := "" |}).
  reflexivity.
Defined.

(** ** Dispatch in general *)

Lemma started_argv_eq st1 (l : list thread) t argv :
  threads st1 = l ++ [t] -> store st1 !! t_command t = Some argv ->
  started_argv st1 = Some argv.
Proof.
  intros Ht Hs. unfold started_argv. rewrite Ht, last_snoc. exact Hs.
Qed.

Lemma resolve_setting_other name setting c0 :
  c0 <> name -> resolve_setting name setting c0 = c0.
Proof.
  intros H. unfold resolve_setting.
  destruct (String.eqb_spec c0 name); [contradiction|reflexivity].
Qed.

Lemma resolve_setting_hit name setting path :
  truthy_value setting = Some path -> resolve_setting name setting name = path.
Proof.
  intros H. unfold resolve_setting. rewrite String.eqb_refl, H. reflexivity.
Qed.

(** After a call that returns, the last thread runs on the list [c], which
    holds the resolved vector. *)
Lemma run_command_started (W : world) (fuel : nat) (command : nat)
    (cb : option callable) (show_status filt no_save wait : bool) (kw : kwargs)
    (st : state) (argv : list string) (a0 : string) (rest : list string)
    (wd : string) (r : option string) :
  store st !! command = Some argv ->
  (if filt then List.filter PyString.nonempty argv else argv) = a0 :: rest ->
  working_dir_of W (active st) (fs st) = Ok wd ->
  fst (repo_root W fuel wd st) = Ok r ->
  lock_seen W wait r (fs st) = None ->
  started_argv (snd (run_command W (S fuel) command cb show_status filt no_save
                       wait kw st))
  = Some (resolved_head W a0 :: rest).
Proof.
  intros Hargv Hfilt Hwd Hroot Hlock.
  destruct (run_command_dispatch W fuel command cb show_status filt no_save wait kw
              st argv a0 rest wd r Hargv Hfilt Hwd Hroot Hlock)
    as (st1 & Hrun & Hstore & Hthr & _).
  rewrite Hrun. cbn [snd].
  eapply started_argv_eq; [exact Hthr|].
  cbn [t_command CommandThread_init]. rewrite Hstore.
  apply list_lookup_insert_eq.
  destruct filt.
  - rewrite length_app. cbn. lia.
  - apply (lookup_lt_Some _ _ _ Hargv).
Qed.



(** X22.  The three substitutions of [run_command] are applied one after
    the other, not as alternatives.  A head other than ['repo'], ['repok']
    and ['repo-flow'] reaches the thread unchanged; a ['repo'] that the
    settings turn into ['repok'] is substituted a second time, by the
    [repok_command] setting. *)
Theorem run_command_substitutions_chain
    (W : world) (fuel : nat) (command : nat) (cb : option callable)
    (show_status filt no_save wait : bool) (kw : kwargs) (st : state)
    (argv : list string) (a0 : string) (rest : list string) (wd : string)
    (r : option string) :
  store st !! command = Some argv ->
  (if filt then List.filter PyString.nonempty argv else argv) = a0 :: rest ->
  working_dir_of W (active st) (fs st) = Ok wd ->
  fst (repo_root W fuel wd st) = Ok r ->
  lock_seen W wait r (fs st) = None ->
  let cfg := config W in
  let st1 := snd (run_command W (S fuel) command cb show_status filt no_save
                    wait kw st) in
  (a0 <> "repo" -> a0 <> "repok" -> a0 <> "repo-flow" ->
   started_argv st1 = Some (a0 :: rest))
  /\ (forall path,
        a0 = "repo" ->
        truthy_value (PyString.or_else (repo_command cfg) (repo_binary cfg))
        = Some "repok" ->
        truthy_value (repok_command cfg) = Some path ->
        path <> "repo-flow" ->
        started_argv st1 = Some (path :: rest)).
Proof.
  intros Hargv Hfilt Hwd Hroot Hlock cfg st1.
  pose proof (run_command_started W fuel command cb show_status filt no_save wait
                kw st argv a0 rest wd r Hargv Hfilt Hwd Hroot Hlock) as Hst.
  fold st1 in Hst. rewrite Hst. clear Hst.
  unfold resolved_head. split.
  - intros H1 H2 H3.
    assert (Hr : resolve_repo W a0 = a0).
    { unfold resolve_repo. destruct (String.eqb_spec a0 "repo"); [contradiction|reflexivity]. }
    rewrite Hr. rewrite (resolve_setting_other "repok") by assumption.
    rewrite (resolve_setting_other "repo-flow") by assumption. reflexivity.
  - intros path -> Hover Hk Hne.
    assert (Hr : resolve_repo W "repo" = "repok").
    { unfold resolve_repo. cbn [String.eqb Ascii.eqb Bool.eqb]. fold cfg.
      rewrite Hover. reflexivity. }
    rewrite Hr. fold cfg. rewrite (resolve_setting_hit "repok" _ path Hk).
    rewrite (resolve_setting_other "repo-flow") by assumption. reflexivity.
Qed.

Lemma run_command_substitutions_chain_witness :
  started_argv
    (snd (run_command (Overrides.session Overrides.chained) 8 0 None true true
            false true no_kwargs (Overrides.calling ["repo"; "status"])))
  = Some ["/opt/bin/repok"; "status"].
Proof.
  refine (proj2 (run_command_substitutions_chain
            (Overrides.session Overrides.chained) 7 0 None true true false true
            no_kwargs (Overrides.calling ["repo"; "status"])
            ["repo"; "status"] "repo" ["status"] Demo.frameworks
            (Some "/home/u/aosp") _ _ _ _ _) "/opt/bin/repok" _ _ _ _).
  - reflexivity.
  - reflexivity.
  - vm_compute. reflexivity.
  - vm_compute. reflexivity.
  - vm_compute. reflexivity.
  - reflexivity.
  - reflexivity.
  - reflexivity.
  - discriminate.
Defined.

(** X23.  What [run_command] does to the caller's list.  With
    [filter_empty_args] the thread runs on a fresh list and every list that
    existed before the call, the caller's included, is as it was.  Without
    it the thread runs on the caller's own list, whose head is overwritten
    in place with the resolved executable; no other list changes. *)
Theorem run_command_filter_copies_the_list
    (W : world) (fuel : nat) (command : nat) (cb : option callable)
    (show_status filt no_save wait : bool) (kw : kwargs) (st : state)
    (argv : list string) (a0 : string) (rest : list string) (wd : string)
    (r : option string) :
  store st !! command = Some argv ->
  (if filt then List.filter PyString.nonempty argv else argv) = a0 :: rest ->
  working_dir_of W (active st) (fs st) = Ok wd ->
  fst (repo_root W fuel wd st) = Ok r ->
  lock_seen W wait r (fs st) = None ->
  let st1 := snd (run_command W (S fuel) command cb show_status filt no_save
                    wait kw st) in
  (filt = true ->
     (t_command <$> last (threads st1)) = Some (length (store st))
     /\ forall i, i < length (store st) -> store st1 !! i = store st !! i)
  /\ (filt = false ->
     (t_command <$> last (threads st1)) = Some command
     /\ store st1 !! command = Some (resolved_head W a0 :: rest)
     /\ forall i, i <> command -> store st1 !! i = store st !! i).
Proof.
  intros Hargv Hfilt Hwd Hroot Hlock st1.
  destruct (run_command_dispatch W fuel command cb show_status filt no_save wait kw
              st argv a0 rest wd r Hargv Hfilt Hwd Hroot Hlock)
    as (st' & Hrun & Hstore & Hthr & _).
  unfold st1. rewrite Hrun. cbn [snd]. rewrite Hthr, last_snoc, Hstore.
  cbn [fmap option_fmap option_map t_command CommandThread_init].
  split; intros ->.
  - split; [reflexivity|]. intros i Hi.
    rewrite list_lookup_insert_ne by lia.
    apply lookup_app_l. exact Hi.
  - split; [reflexivity|]. split.
    + apply list_lookup_insert_eq. apply (lookup_lt_Some _ _ _ Hargv).
    + intros i Hi. apply list_lookup_insert_ne. congruence.
Qed.

Lemma run_command_filter_copies_the_list_witness :
  let W := Overrides.session Overrides.wrapper in
  let st := Overrides.calling ["repo"; "sync"] in
  store (snd (run_command W 8 0 None true true false true no_kwargs st)) !! 0
  = Some ["repo"; "sync"]
  /\ store (snd (run_command W 8 0 None true false false true no_kwargs st)) !! 0
     = Some ["/opt/bin/repo-wrapper"; "sync"].
Proof.
  intros W st. split.
  - refine (eq_trans
      (proj2 (proj1 (run_command_filter_copies_the_list W 7 0 None true true false
                       true no_kwargs st ["repo"; "sync"] "repo" ["sync"]
                       Demo.frameworks (Some "/home/u/aosp") _ _ _ _ _) eq_refl)
         0 _) _).
    + reflexivity.
    + reflexivity.
    + vm_compute. reflexivity.
    + vm_compute. reflexivity.
    + vm_compute. reflexivity.
    + cbn. lia.
    + reflexivity.
  - refine (eq_trans
      (proj1 (proj2 (proj2 (run_command_filter_copies_the_list W 7 0 None true false
                       false true no_kwargs st ["repo"; "sync"] "repo" ["sync"]
                       Demo.frameworks (Some "/home/u/aosp") _ _ _ _ _) eq_refl)))
         _).
    + reflexivity.
    + reflexivity.
    + vm_compute. reflexivity.
    + vm_compute. reflexivity.
    + vm_compute. reflexivity.
    + vm_compute. reflexivity.
Defined.

(** X24.  An argument vector with nothing to run.  When the vector is
    empty (or, with [filter_empty_args], holds only empty strings),
    [command[0]] raises [IndexError]: no thread is started, although a
    dirty view has already been saved by then when [save_first] is set. *)
Theorem run_command_empty_vector_raises
    (W : world) (fuel : nat) (command : nat) (cb : option callable)
    (show_status filt no_save wait : bool) (kw : kwargs) (st : state)
    (argv : list string) (wd : string) (r : option string) :
  store st !! command = Some argv ->
  (if filt then forallb (fun arg => negb (PyString.nonempty arg)) argv = true
   else argv = []) ->
  working_dir_of W (active st) (fs st) = Ok wd ->
  fst (repo_root W fuel wd st) = Ok r ->
  lock_seen W wait r (fs st) = None ->
  let out := run_command W (S fuel) command cb show_status filt no_save wait kw st in
  let saved := save_first (config W)
               && match active st with Some v => is_dirty v | None => false end
               && negb no_save in
  fst out = Raise IndexError
  /\ threads (snd out) = threads st
  /\ (saved = true ->
      In (EvViewCommand "save") (events (snd out))
      /\ active (snd out) = (set_is_dirty false <$> active st)).
Proof.
  intros Hargv Hempty Hwd Hroot Hlock out saved.
  assert (Hfilt : (if filt then List.filter PyString.nonempty argv else argv) = []).
  { destruct filt; [|exact Hempty].
    clear Hargv. induction argv as [|a l IH]; [reflexivity|].
    cbn in Hempty. apply andb_true_iff in Hempty as [Ha Hl].
    cbn. destruct (PyString.nonempty a); [discriminate|]. apply IH. exact Hl. }
  destruct (run_command_empty W fuel command cb show_status filt no_save wait kw
              st argv wd r Hargv Hfilt Hwd Hroot Hlock)
    as (st1 & Hrun & Hthr & Hev & Hact).
  unfold out. rewrite Hrun. cbn [fst snd].
  split; [reflexivity|]. split; [exact Hthr|].
  intros Hs. fold saved in Hev, Hact. rewrite Hs in Hev, Hact.
  split; [|exact Hact].
  rewrite Hev. apply in_or_app. right. left. reflexivity.
Qed.

Lemma run_command_empty_vector_raises_witness :
  let W := Demo.session TextCommand [] in
  let st := set_store [[""; ""]]
              (Demo.start Demo.unlocked (Some (Demo.a_view (Some Demo.android_mk) true))) in
  let out := run_command W 8 0 None true true false true no_kwargs st in
  fst out = Raise IndexError
  /\ threads (snd out) = []
  /\ In (EvViewCommand "save") (events (snd out)).
Proof.
  intros W st out.
  destruct (run_command_empty_vector_raises W 7 0 None true true false true no_kwargs
              st [""; ""] Demo.frameworks (Some "/home/u/aosp"))
    as (H1 & H2 & H3).
  - reflexivity.
  - reflexivity.
  - vm_compute. reflexivity.
  - vm_compute. reflexivity.
  - vm_compute. reflexivity.
  - split; [exact H1|]. split; [exact H2|]. apply H3. reflexivity.
Defined.

(** X25.  A text command needs a file.  On a view without a file name
    [run_command] of a text command raises before anything is started, also
    when the caller passes [working_dir]: [get_working_dir] is called for
    the root lookup in every case.  No thread, no timer, no event. *)
Theorem run_command_needs_a_file_in_a_text_command
    (W : world) (fuel : nat) (command : nat) (cb : option callable)
    (show_status filt no_save wait : bool) (kw : kwargs) (st : state) (v : view) :
  self_class W = TextCommand ->
  active st = Some v ->
  file_name v = None ->
  let out := run_command W (S fuel) command cb show_status filt no_save wait kw st in
  (exists e, fst out = Raise e)
  /\ threads (snd out) = threads st
  /\ timers (snd out) = timers st
  /\ events (snd out) = events st.
Proof.
  intros Hclass Hview Hfile out.
  assert (Hwd : working_dir_of W (active st) (fs st) = Raise TypeError).
  { unfold working_dir_of. rewrite Hclass, Hview, Hfile. reflexivity. }
  destruct (run_command_working_dir_error W fuel command cb show_status filt no_save
              wait kw st TypeError Hwd) as (st1 & Hrun & Hthr & Htim & Hev & _).
  unfold out. rewrite Hrun. cbn [fst snd].
  split; [exists TypeError; reflexivity|]. repeat split; assumption.
Qed.

Lemma run_command_needs_a_file_in_a_text_command_witness :
  let W := Demo.session TextCommand ["/home/u/aosp"] in
  let st := set_store [["repo"; "sync"]]
              (Demo.start Demo.unlocked (Some (Demo.a_view None false))) in
  let kw := set_kw_working_dir (Some "/home/u/aosp") no_kwargs in
  threads (snd (run_command W 8 0 None true true false true kw st)) = [].
Proof.
  intros W st kw.
  exact (proj1 (proj2 (run_command_needs_a_file_in_a_text_command W 7 0 None true true
                         false true kw st (Demo.a_view None false)
                         eq_refl eq_refl eq_refl))).
Defined.

(** ** The lock wait in general *)

(** X27.  Waiting for the lock does not work.  Whenever [run_command] is
    called with [wait_for_lock] inside a checkout whose [index.lock]
    exists, it prints its message and raises [TypeError]: [do_when] is
    handed [callback] as a keyword on top of its second positional
    argument.  Nothing is put on the timer, no thread is started, the view
    is not saved and the caller's list is as it was, so the command is
    neither run nor deferred. *)
Theorem lock_wait_raises_before_anything_starts
    (W : world) (fuel : nat) (command : nat) (cb : option callable)
    (show_status filt no_save : bool) (kw : kwargs) (st : state)
    (argv : list string) (wd root : string) :
  store st !! command = Some argv ->
  working_dir_of W (active st) (fs st) = Ok wd ->
  fst (repo_root W fuel wd st) = Ok (Some root) ->
  root <> "" ->
  exists_in (fs st) (lock_path W root) = true ->
  let out := run_command W (S fuel) command cb show_status filt no_save true kw st in
  fst out = Raise TypeError
  /\ events (snd out) = events st ++ [EvPrint "waiting for index.lock"]
  /\ timers (snd out) = timers st
  /\ threads (snd out) = threads st
  /\ active (snd out) = active st
  /\ store (snd out) !! command = Some argv.
Proof.
  intros Hargv Hwd Hroot Hne Hlock. cbn zeta.
  assert (Hseen : lock_seen W true (Some root) (fs st) = Some root).
  { unfold lock_seen, truthy_value. cbn [PyString.truthy].
    destruct root as [|a root']; [contradiction|]. cbn [PyString.nonempty].
    rewrite Hlock. reflexivity. }
  destruct (run_command_locked W fuel command cb show_status filt no_save true kw st
              argv wd (Some root) root Hargv Hwd Hroot Hseen)
    as (st1 & Hrun & Hstore & Hthr & Htim & Hev & _ & Hact & _).
  rewrite Hrun. cbn [fst snd].
  repeat split; try assumption.
  rewrite Hstore. destruct filt; [|exact Hargv].
  rewrite lookup_app_l; [exact Hargv|]. apply (lookup_lt_Some _ _ _ Hargv).
Qed.

Lemma lock_wait_raises_before_anything_starts_witness :
  let W := Demo.session TextCommand [] in
  let st := set_store [["repo"; "sync"]]
              (Demo.start Demo.locked (Some Demo.editing)) in
  let out := run_command W 8 0 None true true false true no_kwargs st in
  fst out = Raise TypeError /\ timers (snd out) = [] /\ threads (snd out) = [].
Proof.
  intros W st out.
  destruct (lock_wait_raises_before_anything_starts W 7 0 None true true false
              no_kwargs st ["repo"; "sync"] Demo.frameworks "/home/u/aosp")
    as (Hraise & _ & Htim & Hthr & _).
  - reflexivity.
  - vm_compute. reflexivity.
  - vm_compute. reflexivity.
  - discriminate.
  - vm_compute. reflexivity.
  - split; [exact Hraise|]. split; [exact Htim|exact Hthr].
Defined.

(** ** [rpartition] *)

Lemma after_last_none c l : ~ In c l -> PyString.after_last c l = None.
Proof.
  induction l as [|x l IH]; intros H; [reflexivity|].
  cbn. rewrite IH by (intros Hin; apply H; right; exact Hin).
  destruct (Ascii.eqb_spec x c); [|reflexivity].
  exfalso. apply H. left. assumption.
Qed.

Lemma before_last_none c l : ~ In c l -> PyString.before_last c l = None.
Proof.
  induction l as [|x l IH]; intros H; [reflexivity|].
  cbn. rewrite IH by (intros Hin; apply H; right; exact Hin).
  destruct (Ascii.eqb_spec x c); [|reflexivity].
  exfalso. apply H. left. assumption.
Qed.

Lemma after_last_app c pre t :
  ~ In c t -> PyString.after_last c (pre ++ c :: t) = Some t.
Proof.
  intros H. induction pre as [|x pre IH]; cbn.
  - rewrite (after_last_none c t H), Ascii.eqb_refl. reflexivity.
  - rewrite IH. reflexivity.
Qed.

Lemma before_last_app c h post :
  ~ In c post -> PyString.before_last c (h ++ c :: post) = Some h.
Proof.
  intros H. induction h as [|x h IH]; cbn.
  - rewrite (before_last_none c post H), Ascii.eqb_refl. reflexivity.
  - rewrite IH. reflexivity.
Qed.

Lemma after_last_suffix c l : forall t,
  PyString.after_last c l = Some t -> exists pre, l = pre ++ c :: t.
Proof.
  induction l as [|x l IH]; intros t H; [discriminate|].
  cbn in H. destruct (PyString.after_last c l) as [t'|].
  - injection H as <-. destruct (IH t' eq_refl) as [pre ->].
    exists (x :: pre). reflexivity.
  - destruct (Ascii.eqb_spec x c); [|discriminate].
    injection H as <-. subst x. exists []. reflexivity.
Qed.

Lemma chars_of_chars l : PyString.chars (PyString.of_chars l) = l.
Proof. apply String.list_ascii_of_string_of_list_ascii. Qed.

Lemma of_chars_chars s : PyString.of_chars (PyString.chars s) = s.
Proof. apply String.string_of_list_ascii_of_string. Qed.

Lemma encoding_between_parentheses name pre e post :
  PyString.chars name = pre ++ "("%char :: e ++ ")"%char :: post ->
  ~ In "("%char e -> ~ In "("%char post -> ~ In ")"%char post ->
  encoding_of_setting name = PyString.of_chars e.
Proof.
  intros Hname He Hp Hq.
  unfold encoding_of_setting, PyString.rpartition_tail, PyString.rpartition_head.
  rewrite Hname, after_last_app.
  - rewrite chars_of_chars, before_last_app by exact Hq. reflexivity.
  - intros Hin. apply in_app_or in Hin as [Hin|[Hin|Hin]];
      [apply He; exact Hin|discriminate|apply Hp; exact Hin].
Qed.

Lemma encoding_without_closing name :
  ~ In ")"%char (PyString.chars name) -> encoding_of_setting name = "".
Proof.
  intros H.
  unfold encoding_of_setting, PyString.rpartition_tail, PyString.rpartition_head.
  destruct (PyString.after_last "(" (PyString.chars name)) as [t|] eqn:Ht.
  - rewrite chars_of_chars, before_last_none; [reflexivity|].
    destruct (after_last_suffix _ _ _ Ht) as [pre Hpre].
    intros Hin. apply H. rewrite Hpre. apply in_or_app. right. right. exact Hin.
  - rewrite before_last_none by exact H. reflexivity.
Qed.

(** X26.  The fallback encoding of the started thread.  An explicit
    [fallback_encoding] keyword wins.  Otherwise the name is cut out of the
    view's [fallback_encoding] setting: the text between the last ['('] and
    the last [')'] after it, as in ['Western (ISO 8859-1)']; a setting
    without [')'] gives the empty name, as does a missing view. *)
Theorem thread_fallback_encoding
    (W : world) (fuel : nat) (command : nat) (cb : option callable)
    (show_status filt no_save wait : bool) (kw : kwargs) (st : state)
    (argv : list string) (a0 : string) (rest : list string) (wd : string)
    (r : option string) :
  store st !! command = Some argv ->
  (if filt then List.filter PyString.nonempty argv else argv) = a0 :: rest ->
  working_dir_of W (active st) (fs st) = Ok wd ->
  fst (repo_root W fuel wd st) = Ok r ->
  lock_seen W wait r (fs st) = None ->
  let st1 := snd (run_command W (S fuel) command cb show_status filt no_save
                    wait kw st) in
  let encoding := t_fallback_encoding <$> last (threads st1) in
  (forall given, kw_fallback_encoding kw = Some given -> encoding = Some given)
  /\ (kw_fallback_encoding kw = None ->
      forall v name,
        active st = Some v ->
        fallback_encoding_setting v = Some name ->
        (forall pre e post,
           PyString.chars name = pre ++ "("%char :: e ++ ")"%char :: post ->
           ~ In "("%char e -> ~ In "("%char post -> ~ In ")"%char post ->
           encoding = Some (PyString.of_chars e))
        /\ (~ In ")"%char (PyString.chars name) -> encoding = Some ""))
  /\ (kw_fallback_encoding kw = None -> active st = None -> encoding = Some "").
Proof.
  intros Hargv Hfilt Hwd Hroot Hlock st1 encoding.
  destruct (run_command_dispatch W fuel command cb show_status filt no_save wait kw
              st argv a0 rest wd r Hargv Hfilt Hwd Hroot Hlock)
    as (st' & Hrun & _ & Hthr & _).
  assert (Henc : encoding
                 = Some (default "" (kw_fallback_encoding
                                       (run_kwargs kw (active st) wd)))).
  { unfold encoding, st1. rewrite Hrun. cbn [snd]. rewrite Hthr, last_snoc.
    reflexivity. }
  rewrite Henc. clear Henc Hrun Hthr. unfold run_kwargs.
  assert (Hk : kw_fallback_encoding
                 match kw_working_dir kw with
                 | Some _ => kw
                 | None => set_kw_working_dir (Some wd) kw
                 end = kw_fallback_encoding kw).
  { destruct (kw_working_dir kw); reflexivity. }
  cbn zeta. rewrite Hk.
  split; [|split].
  - intros given Hg. rewrite Hg. cbn. rewrite Hk, Hg. reflexivity.
  - intros Hnone v name Hview Hset. rewrite Hnone, Hview.
    assert (Hcase : forall x,
              (PyString.nonempty name = true -> encoding_of_setting name = x) ->
              (PyString.nonempty name = false -> x = "") ->
              Some (default ""
                (kw_fallback_encoding
                   match truthy_value (fallback_encoding_setting v) with
                   | Some name0 =>
                     set_kw_fallback_encoding (Some (encoding_of_setting name0))
                       match kw_working_dir kw with
                       | Some _ => kw
                       | None => set_kw_working_dir (Some wd) kw
                       end
                   | None =>
                     match kw_working_dir kw with
                     | Some _ => kw
                     | None => set_kw_working_dir (Some wd) kw
                     end
                   end)) = Some x).
    { intros x H1 H2. rewrite Hset. unfold truthy_value. cbn [PyString.truthy].
      destruct (PyString.nonempty name) eqn:Hne.
      - cbn. rewrite (H1 eq_refl). reflexivity.
      - rewrite Hk, Hnone. cbn. rewrite (H2 eq_refl). reflexivity. }
    split.
    + intros pre e post Hn He Hp Hq. apply Hcase.
      * intros _. apply (encoding_between_parentheses name pre e post); assumption.
      * intros Hne. destruct name; [|discriminate].
        destruct pre; discriminate.
    + intros Hno. apply Hcase.
      * intros _. apply encoding_without_closing. exact Hno.
      * reflexivity.
  - intros Hnone Hview. rewrite Hnone, Hview, Hk, Hnone. reflexivity.
Qed.

Lemma thread_fallback_encoding_witness :
  let W := Demo.session TextCommand [] in
  let st := set_store [["repo"; "sync"]]
              (Demo.start Demo.unlocked (Some Demo.editing)) in
  (t_fallback_encoding
     <$> last (threads (snd (run_command W 8 0 None true true false true
                               no_kwargs st))))
  = Some "ISO 8859-1".
Proof.
  intros W st.
  refine (proj1 (proj1 (proj2 (thread_fallback_encoding W 7 0 None true true false true
            no_kwargs st ["repo"; "sync"] "repo" ["sync"] Demo.frameworks
            (Some "/home/u/aosp") _ _ _ _ _)) eq_refl Demo.editing
            "Western (ISO 8859-1)" eq_refl eq_refl)
          (PyString.chars "Western ") (PyString.chars "ISO 8859-1") [] _ _ _ _).
  - reflexivity.
  - reflexivity.
  - vm_compute. reflexivity.
  - vm_compute. reflexivity.
  - vm_compute. reflexivity.
  - reflexivity.
  - cbn. intros H. repeat (destruct H as [H|H]; [discriminate|]). exact H.
  - intros H. exact H.
  - intros H. exact H.
Defined.


(** [is_enabled] when it answers [True]. *)
Lemma is_enabled_true W fuel st st1 :
  is_enabled W fuel st = (Ok true, st1) ->
  ((exists v, active st = Some v /\ PyString.truthy (file_name v) = true)
   \/ self_class W = WindowCommand /\ length (folders W) = 1)
  /\ exists wd root,
       working_dir_of W (active st) (fs st) = Ok wd
       /\ repo_root W fuel wd
            (set_probes (probes st ++ working_dir_probes W (active st)) st)
          = (Ok (Some root), st1)
       /\ root <> "".
Proof.
  intros H.
  assert (Hlook : forall st',
    (let* wd := get_working_dir W in
     let* root := repo_root W fuel wd in
     ret (PyString.truthy root)) st = (Ok true, st') ->
    exists wd root,
      working_dir_of W (active st) (fs st) = Ok wd
      /\ repo_root W fuel wd
           (set_probes (probes st ++ working_dir_probes W (active st)) st)
         = (Ok (Some root), st')
      /\ root <> "").
  { intros st' Hl. unfold bind at 1 in Hl. rewrite get_working_dir_eq in Hl.
    destruct (working_dir_of W (active st) (fs st)) as [wd|e]; [|discriminate].
    unfold bind, ret in Hl.
    destruct (repo_root W fuel wd _) as [[root|e] s] eqn:Hrr; [|discriminate].
    injection Hl as Ht <-.
    destruct root as [root|]; [|discriminate].
    exists wd, root. split; [reflexivity|]. split; [exact Hrr|].
    intros ->. discriminate. }
  unfold is_enabled in H. destruct (self_class W) eqn:Hclass.
  - erewrite bind_ok in H by reflexivity. cbn beta in H.
    destruct (active st) as [v|] eqn:Hview; [|discriminate].
    destruct (PyString.truthy (file_name v)) eqn:Hfile; [|discriminate].
    split; [left; exists v; split; [reflexivity|exact Hfile]|].
    apply Hlook. exact H.
  - erewrite bind_ok in H by reflexivity. cbn beta in H.
    match type of H with
    | (if ?g then _ else _) _ = _ =>
      destruct g eqn:Hguard; [|discriminate]
    end.
    split.
    + apply orb_true_iff in Hguard as [Hg|Hg].
      * left. destruct (active st) as [v|]; [|discriminate].
        destruct (PyString.truthy (file_name v)) eqn:Hfile; [|discriminate].
        exists v. split; [reflexivity|exact Hfile].
      * right. split; [reflexivity|]. apply Nat.eqb_eq. exact Hg.
    + apply Hlook. exact H.
Qed.

(** X28.  A command that [is_enabled] reports as enabled has what it needs:
    the active view has a file name, or (window commands) exactly one
    folder is open; the working directory can be computed; and, when the
    answer did not come from the cache, some non-empty ancestor of the
    working directory holds [.repo]. *)
Theorem enabled_command_is_in_a_checkout
    (W : world) (fuel : nat) (st st1 : state) :
  is_enabled W fuel st = (Ok true, st1) ->
  ((exists v, active st = Some v /\ PyString.truthy (file_name v) = true)
   \/ self_class W = WindowCommand /\ length (folders W) = 1)
  /\ exists wd,
       working_dir_of W (active st) (fs st) = Ok wd
       /\ (fresh_entry (repo_root_cache st) wd (clock W (clock_reads st)) = None ->
           exists k,
             ancestor (host W) (fs st) k wd <> ""
             /\ has_marker (host W) (fs st) (ancestor (host W) (fs st) k wd) = true).
Proof.
  intros H. destruct (is_enabled_true W fuel st st1 H) as (Hguard & wd & root & Hwd & Hrr & Hne).
  split; [exact Hguard|]. exists wd. split; [exact Hwd|].
  intros Hfresh.
  pose proof (repo_root_walks W fuel wd
                (set_probes (probes st ++ working_dir_probes W (active st)) st)
                Hfresh) as Hloc.
  rewrite Hrr in Hloc. cbn [fst] in Hloc. simpl_state.
  symmetry in Hloc.
  destruct (locate_some (host W) (fs st) fuel wd root Hloc)
    as (k & _ & Hk & Hr & Hm & _).
  exists k. rewrite <- Hk. split; assumption.
Qed.

Lemma enabled_command_is_in_a_checkout_witness :
  exists k,
    ancestor Posix.host Demo.unlocked k Demo.frameworks <> ""
    /\ has_marker Posix.host Demo.unlocked
         (ancestor Posix.host Demo.unlocked k Demo.frameworks) = true.
Proof.
  destruct (enabled_command_is_in_a_checkout (Demo.session TextCommand []) 8
              (Demo.start Demo.unlocked (Some Demo.editing))
              (snd (is_enabled (Demo.session TextCommand []) 8
                      (Demo.start Demo.unlocked (Some Demo.editing)))))
    as (_ & wd & Hwd & Hk).
  - vm_compute. reflexivity.
  - injection Hwd as <-. apply Hk. vm_compute. reflexivity.
Defined.






